(** * AWS Log Management Review: a shallow embedding and its properties

    The development follows the Python sources file by file:

    - [Py]                 the fragment of the Python runtime the sources rely
                           on: exceptions, a state-and-exception monad, string
                           helpers and binary64 arithmetic;
    - the findings records the data model of [aws_log_review.py];
    - [AwsLogReview]       [aws_log_review.py]: analyzers, recommendation
                           deriver, script bodies, [run_analysis] and the
                           compliance table of [generate_report];
    - [ReportGenerator]    [report_generator.py]: score, cost estimate and
                           non-compliant list;
    - [ExampleUsage]       [example_usage.py]: the sample findings;
    - [RemediationScripts] [scripts/generate_remediation_scripts.py];
    - [Json]               the value mapping of [json.dump] / [json.load] and
                           the files of [run_complete_analysis.py];
    - [ReportFiles]        [report_generator.py]: the report files and the
                           command line;
    - [Workflow]           [run_complete_analysis.py]: the checks, the commands
                           run and the files saved.

    All definitions come first; the lemmas and theorems follow. *)

From Stdlib Require Import ZArith List Lia Bool String Ascii.
From Stdlib Require Import Floats.SpecFloat Floats.PrimFloat Floats.FloatOps.
From Stdlib Require Import Numbers.Cyclic.Int63.Uint63.
From Stdlib Require Import Numbers.DecimalString.
From Stdlib Require Import Numbers.DecimalNat.
From Stdlib Require Import Sorting.Permutation.
Import ListNotations.

Set Warnings "-register-all".

Open Scope string_scope.
Open Scope list_scope.
Open Scope Z_scope.

(** String concatenation, kept apart from list append. *)
Infix "+++" := String.append (right associativity, at level 60).

(* ================================================================== *)
(** * The Python runtime fragment *)
(* ================================================================== *)

Module Py.

(** ** Exceptions *)

(** The exception classes the sources can meet.  Every class below is a
    subclass of [Exception]; [ClientError] stands for any failure reported by
    an AWS client call. *)
Inductive exn_class :=
| AttributeError
| KeyError
| TypeError
| OverflowError
| ZeroDivisionError
| ValueError
| OSError
| JSONDecodeError
| ClientError.

(** An exception value: its class and the text [str(e)]. *)
Record exn := mk_exn { exn_cls : exn_class; exn_str : string }.

Inductive result (A : Type) :=
| Ok (a : A)
| Raise (e : exn).
Arguments Ok {A} a.
Arguments Raise {A} e.

Definition exn_class_eqb (a b : exn_class) : bool :=
  match a, b with
  | AttributeError, AttributeError | KeyError, KeyError
  | TypeError, TypeError
  | OverflowError, OverflowError | ZeroDivisionError, ZeroDivisionError
  | ValueError, ValueError | OSError, OSError
  | JSONDecodeError, JSONDecodeError | ClientError, ClientError => true
  | _, _ => false
  end.

(** ** A state-and-exception monad

    Python mutates objects in place, and a mutation made before an exception
    is raised stays visible in the handler.  A computation therefore maps a
    state to an outcome together with the state reached, whether it returned
    or raised. *)
Definition M (S A : Type) : Type := S -> result A * S.

Definition ret {S A} (a : A) : M S A := fun s => (Ok a, s).

Definition bind {S A B} (m : M S A) (k : A -> M S B) : M S B :=
  fun s => match m s with
           | (Ok a, s') => k a s'
           | (Raise e, s') => (Raise e, s')
           end.

Definition raise {S A} (e : exn) : M S A := fun s => (Raise e, s).

Definition lift {S A} (r : result A) : M S A := fun s => (r, s).

Definition modify {S} (g : S -> S) : M S unit := fun s => (Ok tt, g s).

(** [try: body except <classes accepted by handles> as e: handler e]; an
    exception the clause does not name goes on propagating. *)
Definition try_except {S A} (body : M S A) (handles : exn -> bool)
           (handler : exn -> M S A) : M S A :=
  fun s => match body s with
           | (Ok a, s') => (Ok a, s')
           | (Raise e, s') => if handles e then handler e s' else (Raise e, s')
           end.

(** [try: body except <expression>: handler], where the clause names its
    class by an expression.  The expression is evaluated when an exception
    reaches the clause; if that evaluation raises, its exception replaces
    the one being handled and goes on propagating. *)
Definition try_except_named {S A} (body : M S A) (named : result exn_class)
           (handler : M S A) : M S A :=
  fun s => match body s with
           | (Ok a, s') => (Ok a, s')
           | (Raise e, s') =>
               match named with
               | Raise e' => (Raise e', s')
               | Ok c =>
                   if exn_class_eqb (exn_cls e) c then handler s'
                   else (Raise e, s')
               end
           end.

(** [for x in xs: body x], left to right, leaving at the first exception. *)
Fixpoint for_each {S A} (xs : list A) (body : A -> M S unit) : M S unit :=
  match xs with
  | [] => ret tt
  | x :: rest => bind (body x) (fun _ => for_each rest body)
  end.

Declare Scope py_scope.
Delimit Scope py_scope with py.
Notation "x <- m ;; k" := (bind m (fun x => k))
  (at level 61, m at next level, right associativity) : py_scope.
Notation "m ;;; k" := (bind m (fun _ => k))
  (at level 61, right associativity) : py_scope.

(** ** Strings *)

(** The line feed, the double quote and the backslash, named so that string
    literals stay free of them. *)
Definition nl : string := String "010" EmptyString.
Definition dq : string := String "034" EmptyString.
Definition bs : string := String "092" EmptyString.

(** [x in xs] for a list of strings. *)
Definition str_in (x : string) (xs : list string) : bool :=
  existsb (String.eqb x) xs.

(** [d.get(k, default)] on a dictionary kept in insertion order. *)
Fixpoint dict_get {V} (d : list (string * V)) (k : string) (default : V) : V :=
  match d with
  | [] => default
  | (k', v) :: rest => if String.eqb k k' then v else dict_get rest k default
  end.

(** [str(n)] for a length. *)
Definition str_of_nat (n : nat) : string :=
  NilEmpty.string_of_uint (Nat.to_uint n).

Definition upper_ascii (c : ascii) : ascii :=
  let n := nat_of_ascii c in
  if andb (Nat.leb 97 n) (Nat.leb n 122) then ascii_of_nat (n - 32) else c.

(** [s.upper()] on ASCII text. *)
Fixpoint upper (s : string) : string :=
  match s with
  | EmptyString => EmptyString
  | String c rest => String (upper_ascii c) (upper rest)
  end.

(** [s.startswith(p)] *)
Definition startswith (p s : string) : bool := String.prefix p s.

(** [s.split("\n")]: the text between line feeds, in order. *)
Fixpoint split_lines (s : string) : list string :=
  match s with
  | EmptyString => [EmptyString]
  | String c rest =>
      if Ascii.eqb c "010" then EmptyString :: split_lines rest
      else match split_lines rest with
           | l :: ls => String c l :: ls
           | [] => [String c EmptyString]
           end
  end.

(** No line feed in [s]. *)
Fixpoint single_line (s : string) : bool :=
  match s with
  | EmptyString => true
  | String c rest => negb (Ascii.eqb c "010") && single_line rest
  end.

(** ** Numbers: [int] and binary64 [float]

    CPython's [float] is IEEE 754 binary64 with round-to-nearest-even; the
    operations below are those of the Standard Library's executable
    specification [SpecFloat] at precision 53 and maximal exponent 1024. *)

Definition prec : Z := 53.
Definition emax : Z := 1024.

Definition float := spec_float.

(** [float(n)] *)
Definition float_of_int (n : Z) : float := binary_normalize prec emax n 0 false.

Definition float_mul : float -> float -> float := SFmul prec emax.
Definition float_sub : float -> float -> float := SFsub prec emax.
Definition float_lt : float -> float -> bool := SFltb.

(** [a / b] on two [int]s: the quotient correctly rounded to binary64,
    [ZeroDivisionError] on a zero divisor and [OverflowError] when the
    rounded quotient is not finite. *)
Definition int_truediv (a b : Z) : result float :=
  match b with
  | Z0 => Raise (mk_exn ZeroDivisionError "division by zero")
  | _ =>
      match a with
      | Z0 => Ok (S754_zero (b <? 0))
      | _ =>
          let '(q, e, l) :=
            SFdiv_core_binary prec emax (Z.abs a) 0 (Z.abs b) 0 in
          match binary_round_aux prec emax (xorb (a <? 0) (b <? 0)) q e l with
          | S754_infinity _ =>
              Raise (mk_exn OverflowError
                            "integer division result too large for a float")
          | x => Ok x
          end
      end
  end.

(** A number is an [int] or a [float]. *)
Inductive num :=
| Int (z : Z)
| Float (x : float).

Definition to_float (a : num) : float :=
  match a with Int z => float_of_int z | Float x => x end.

(** [a - b] and [a * b] when at least one side is a [float] (the [int] side
    is converted first); on two [int]s the exact integer operation. *)
Definition num_sub (a b : num) : num :=
  match a, b with
  | Int x, Int y => Int (x - y)
  | _, _ => Float (float_sub (to_float a) (to_float b))
  end.

Definition num_mul (a b : num) : num :=
  match a, b with
  | Int x, Int y => Int (x * y)
  | _, _ => Float (float_mul (to_float a) (to_float b))
  end.

(** [b > a] between an [int] below 2^53 and any number. *)
Definition num_gt (b a : num) : bool :=
  match a, b with
  | Int x, Int y => x <? y
  | _, _ => float_lt (to_float a) (to_float b)
  end.

(** [max(a, b)]: the first argument unless the second is greater. *)
Definition max2 (a b : num) : num := if num_gt b a then b else a.

(** [int(x)]: truncation toward zero; [OverflowError] on an infinity and
    [ValueError] on a NaN. *)
Definition int_of (a : num) : result Z :=
  match a with
  | Int z => Ok z
  | Float (S754_zero _) => Ok 0
  | Float (S754_finite s m e) =>
      let a := match e with
               | Zneg p => Z.shiftr (Zpos m) (Zpos p)
               | _ => Z.shiftl (Zpos m) e
               end in
      Ok (if s then - a else a)
  | Float (S754_infinity _) =>
      Raise (mk_exn OverflowError "cannot convert float infinity to integer")
  | Float S754_nan =>
      Raise (mk_exn ValueError "cannot convert float NaN to integer")
  end.

(** [str(n)] for an [int]. *)
Definition str_of_Z (n : Z) : string := NilEmpty.string_of_int (Z.to_int n).

(** [format(n, '.0f')] for an [int] [n], as in [f"{n:.0f}"]: the [int] is
    converted to a [float] ([OverflowError] when it does not fit) and the
    float is printed with no digit after the point, that is, as the integer
    it holds. *)
Definition format_0f (n : Z) : result string :=
  match float_of_int n with
  | S754_infinity _ =>
      Raise (mk_exn OverflowError "int too large to convert to float")
  | x =>
      match int_of (Float x) with
      | Ok z => Ok (str_of_Z z)
      | Raise e => Raise e
      end
  end.

Definition lower_ascii (c : ascii) : ascii :=
  let n := nat_of_ascii c in
  if andb (Nat.leb 65 n) (Nat.leb n 90) then ascii_of_nat (n + 32) else c.

(** [s.lower()] on ASCII text. *)
Fixpoint lower (s : string) : string :=
  match s with
  | EmptyString => EmptyString
  | String c rest => String (lower_ascii c) (lower rest)
  end.

(** [s.replace(old, new)] for one-character [old] and [new]. *)
Fixpoint replace (old new : ascii) (s : string) : string :=
  match s with
  | EmptyString => EmptyString
  | String c rest =>
      String (if Ascii.eqb c old then new else c) (replace old new rest)
  end.

(** [s.endswith(suffix)] *)
Fixpoint endswith (suffix s : string) : bool :=
  if String.eqb s suffix then true
  else match s with
       | EmptyString => false
       | String _ rest => endswith suffix rest
       end.

(** [os.path.join(a, b)] on POSIX: [b] alone when it is absolute, no
    separator added after an empty [a] or one that ends with a slash. *)
Definition path_join (a b : string) : string :=
  if startswith "/" b then b
  else if String.eqb a EmptyString || endswith "/" a then a +++ b
  else a +++ "/" +++ b.

End Py.

Import Py.

(* ================================================================== *)
(** * The findings data model *)
(* ================================================================== *)

(** One non-compliant observation.  Every dictionary the analyzers append to
    an ['issues'] list carries these four keys. *)
Record Issue := mk_issue {
  severity : string;
  description : string;
  pci_reference : string;
  recommendation : string
}.

(** The dictionary [analyze_cloudtrail] returns. *)
Record CloudTrailFindings := mk_cloudtrail {
  enabled : bool;
  multi_region : bool;
  log_file_validation : bool;
  s3_bucket : option string;
  cloudtrail_issues : list Issue
}.

(** The dictionary [analyze_s3_logging] returns. *)
Record S3Findings := mk_s3 {
  buckets_analyzed : Z;
  buckets_with_logging : Z;
  buckets_without_logging : list string;
  s3_issues : list Issue
}.

(** The dictionary [analyze_cloudwatch_logs] returns. *)
Record CloudWatchFindings := mk_cloudwatch {
  log_groups : Z;
  log_groups_with_retention : Z;
  log_groups_without_retention : list string;
  cloudwatch_issues : list Issue
}.

(** The dictionary [analyze_rds_logging] returns. *)
Record RdsFindings := mk_rds {
  instances : Z;
  instances_with_logging : Z;
  instances_without_logging : list string;
  rds_issues : list Issue
}.

(** The dictionary [analyze_iam_logging] returns. *)
Record IamFindings := mk_iam {
  credential_reports_enabled : bool;
  access_analyzer_enabled : bool;
  iam_issues : list Issue
}.

(** The dictionary [all_findings] of [run_analysis]: five service entries,
    the time stamp and the issue total, in this insertion order. *)
Record FindingsReport := mk_findings {
  cloudtrail : CloudTrailFindings;
  s3_logging : S3Findings;
  cloudwatch_logs : CloudWatchFindings;
  rds_logging : RdsFindings;
  iam_logging : IamFindings;
  timestamp : string;
  total_issues : Z
}.

(** What a loop [for category, value in findings.items()] can meet as
    [value]: a service dictionary, of which such loops only read the
    ['issues'] key, or one of the two scalars. *)
Inductive entry :=
| ServiceDict (issues : list Issue)
| StrValue (s : string)
| IntValue (n : Z).

(** [findings.items()], in insertion order. *)
Definition items (findings : FindingsReport) : list (string * entry) :=
  [ ("cloudtrail", ServiceDict (cloudtrail_issues (cloudtrail findings)));
    ("s3_logging", ServiceDict (s3_issues (s3_logging findings)));
    ("cloudwatch_logs", ServiceDict (cloudwatch_issues (cloudwatch_logs findings)));
    ("rds_logging", ServiceDict (rds_issues (rds_logging findings)));
    ("iam_logging", ServiceDict (iam_issues (iam_logging findings)));
    ("timestamp", StrValue (timestamp findings));
    ("total_issues", IntValue (total_issues findings)) ].

(** [value.get('issues', [])]: defined on dictionaries only. *)
Definition get_issues (value : entry) : result (list Issue) :=
  match value with
  | ServiceDict issues => Ok issues
  | StrValue _ =>
      Raise (mk_exn AttributeError "'str' object has no attribute 'get'")
  | IntValue _ =>
      Raise (mk_exn AttributeError "'int' object has no attribute 'get'")
  end.

(** The issues of the five services, service by service. *)
Definition service_issues (findings : FindingsReport) : list Issue :=
  cloudtrail_issues (cloudtrail findings)
  ++ s3_issues (s3_logging findings)
  ++ cloudwatch_issues (cloudwatch_logs findings)
  ++ rds_issues (rds_logging findings)
  ++ iam_issues (iam_logging findings).

(* ================================================================== *)
(** * [aws_log_review.py] *)
(* ================================================================== *)

Module AwsLogReview.

(** ** The AWS probes

    The read-only client calls are the environment of an analysis.  Each
    call either returns its payload or raises; payloads are kept to the keys
    the analyzers read and, where the key read is not the service's, the
    key of the service. *)

(** [get_trail(...)['Trail']] *)
Record TrailInfo := mk_trail_info {
  S3BucketName : string;
  IsMultiRegionTrail : bool;
  LogFileValidationEnabled : bool
}.

(** An element of [describe_log_groups()['logGroups']]. *)
Record LogGroup := mk_log_group {
  logGroupName : string;
  retentionInDays : option Z
}.

(** An element of [describe_db_instances()['DBInstances']].  The service
    lists the log types an instance exports under the key
    [EnabledCloudwatchLogsExports]; the analyzer reads the key
    [EnableCloudwatchLogsExports].  Both are kept, each empty when the key
    is absent. *)
Record DBInstance := mk_db_instance {
  DBInstanceIdentifier : string;
  EnabledCloudwatchLogsExports : list string;
  EnableCloudwatchLogsExports : list string
}.

Record Aws := mk_aws {
  (** names of [list_trails()['Trails']], empty when the key is absent *)
  list_trails : result (list string);
  get_trail : string -> result TrailInfo;
  (** [get_trail_status(...).get('IsLogging')] *)
  get_trail_status : string -> result bool;
  (** names of [list_buckets()['Buckets']] *)
  list_buckets : result (list string);
  (** ['LoggingEnabled' in get_bucket_logging(...)] *)
  get_bucket_logging : string -> result bool;
  (** [str(e)] of the error of looking up
      [self.s3.exceptions.NoSuchBucketLoggingConfiguration] *)
  s3_exceptions_text : string;
  describe_log_groups : result (list LogGroup);
  describe_db_instances : result (list DBInstance);
  generate_credential_report : result unit;
  (** [list_access_analyzers().get('analyzers')] *)
  list_access_analyzers : result (list string);
  (** [datetime.now().isoformat()] *)
  now_isoformat : string
}.

(** The client calls an analysis makes are recorded, in order. *)
Inductive api_call :=
| ListTrails
| GetTrail (name : string)
| GetTrailStatus (name : string)
| ListBuckets
| GetBucketLogging (bucket : string)
| DescribeLogGroups
| DescribeDbInstances
| GenerateCredentialReport
| ListAccessAnalyzers.

Definition trace := list api_call.

(** Inside an analyzer the state is the [findings] dictionary under
    construction together with the trace. *)
Definition call {F A} (c : api_call) (outcome : result A) : M (F * trace) A :=
  fun s => (outcome, (fst s, snd s ++ [c])).

Definition update {F} (g : F -> F) : M (F * trace) unit :=
  fun s => (Ok tt, (g (fst s), snd s)).

(** [findings = {...}; try: body except Exception as e: handler; return
    findings]: the analyzer's frame around its body. *)
Definition analyzer {F} (initial : F) (body : M (F * trace) unit)
           (on_error : exn -> Issue) (add : Issue -> F -> F) : M trace F :=
  fun t =>
    match try_except body (fun _ => true)
                     (fun e => update (add (on_error e))) (initial, t) with
    | (Ok _, (findings, t')) => (Ok findings, t')
    | (Raise e, (_, t')) => (Raise e, t')
    end.

(** ** [analyze_cloudtrail] *)

Definition add_cloudtrail_issue (i : Issue) (f : CloudTrailFindings) :=
  mk_cloudtrail (enabled f) (multi_region f) (log_file_validation f)
                (s3_bucket f) (cloudtrail_issues f ++ [i]).

Definition set_enabled (b : bool) (f : CloudTrailFindings) :=
  mk_cloudtrail b (multi_region f) (log_file_validation f)
                (s3_bucket f) (cloudtrail_issues f).

Definition set_multi_region (b : bool) (f : CloudTrailFindings) :=
  mk_cloudtrail (enabled f) b (log_file_validation f)
                (s3_bucket f) (cloudtrail_issues f).

Definition set_log_file_validation (b : bool) (f : CloudTrailFindings) :=
  mk_cloudtrail (enabled f) (multi_region f) b
                (s3_bucket f) (cloudtrail_issues f).

Definition set_s3_bucket (v : option string) (f : CloudTrailFindings) :=
  mk_cloudtrail (enabled f) (multi_region f) (log_file_validation f)
                v (cloudtrail_issues f).

Definition no_trails_issue : Issue :=
  mk_issue "HIGH" "No CloudTrail trails found" "10.2.1-10.2.7"
           "Enable CloudTrail for API activity logging".

Definition no_validation_issue (name : string) : Issue :=
  mk_issue "MEDIUM"
           ("Log file validation not enabled for trail " +++ name)
           "10.5.2"
           "Enable log file validation for integrity checking".

Definition not_logging_issue (name : string) : Issue :=
  mk_issue "HIGH" ("CloudTrail " +++ name +++ " is not logging")
           "10.2.1-10.2.7" "Enable logging for CloudTrail".

Definition cloudtrail_error_issue (e : exn) : Issue :=
  mk_issue "HIGH" ("Error analyzing CloudTrail: " +++ exn_str e)
           "10.2.1-10.2.7"
           "Check CloudTrail permissions and configuration".

(** The body of [for trail in trails['Trails']]. *)
Definition cloudtrail_trail (aws : Aws) (name : string)
  : M (CloudTrailFindings * trace) unit :=
  (trail_info <- call (GetTrail name) (get_trail aws name) ;;
   is_logging <- call (GetTrailStatus name) (get_trail_status aws name) ;;
   if is_logging then
     update (set_enabled true) ;;;
     update (set_s3_bucket (Some (S3BucketName trail_info))) ;;;
     (if IsMultiRegionTrail trail_info
      then update (set_multi_region true) else ret tt) ;;;
     (if LogFileValidationEnabled trail_info
      then update (set_log_file_validation true)
      else update (add_cloudtrail_issue (no_validation_issue name)))
   else update (add_cloudtrail_issue (not_logging_issue name)))%py.

Definition cloudtrail_body (aws : Aws) : M (CloudTrailFindings * trace) unit :=
  (trails <- call ListTrails (list_trails aws) ;;
   match trails with
   | [] => update (add_cloudtrail_issue no_trails_issue)
   | _ => for_each trails (cloudtrail_trail aws)
   end)%py.

Definition analyze_cloudtrail (aws : Aws) : M trace CloudTrailFindings :=
  analyzer (mk_cloudtrail false false false None [])
           (cloudtrail_body aws) cloudtrail_error_issue add_cloudtrail_issue.

(** ** [analyze_s3_logging] *)

Definition add_s3_issue (i : Issue) (f : S3Findings) :=
  mk_s3 (buckets_analyzed f) (buckets_with_logging f)
        (buckets_without_logging f) (s3_issues f ++ [i]).

Definition incr_buckets_analyzed (f : S3Findings) :=
  mk_s3 (buckets_analyzed f + 1) (buckets_with_logging f)
        (buckets_without_logging f) (s3_issues f).

Definition incr_buckets_with_logging (f : S3Findings) :=
  mk_s3 (buckets_analyzed f) (buckets_with_logging f + 1)
        (buckets_without_logging f) (s3_issues f).

Definition add_bucket_without_logging (bucket : string) (f : S3Findings) :=
  mk_s3 (buckets_analyzed f) (buckets_with_logging f)
        (buckets_without_logging f ++ [bucket]) (s3_issues f).

Definition s3_unlogged_issue (bucket : string) : Issue :=
  mk_issue "MEDIUM"
           ("S3 bucket " +++ bucket +++ " does not have access logging enabled")
           "10.2.1"
           ("Enable access logging for bucket " +++ bucket).

Definition s3_error_issue (e : exn) : Issue :=
  mk_issue "HIGH" ("Error analyzing S3 logging: " +++ exn_str e)
           "10.2.1" "Check S3 permissions and configuration".

(** Both branches that find a bucket unlogged do the same two appends. *)
Definition record_unlogged_bucket (bucket : string)
  : M (S3Findings * trace) unit :=
  (update (add_bucket_without_logging bucket) ;;;
   update (add_s3_issue (s3_unlogged_issue bucket)))%py.

(** [self.s3.exceptions.NoSuchBucketLoggingConfiguration].  The exceptions
    of a client are the ones its service model declares, and the model of
    S3 declares none of this name: the attribute lookup raises an
    [AttributeError].  Its text holds the repr of the exceptions object, so
    it belongs to the environment. *)
Definition s3_exceptions_NoSuchBucketLoggingConfiguration (aws : Aws)
  : result exn_class :=
  Raise (mk_exn AttributeError (s3_exceptions_text aws)).

(** The body of [for bucket in buckets['Buckets']].  Whatever the probe
    raises reaches the [except] clause, whose class lookup raises in its
    turn: the handler of the clause is never entered. *)
Definition s3_bucket_step (aws : Aws) (bucket : string)
  : M (S3Findings * trace) unit :=
  (update incr_buckets_analyzed ;;;
   try_except_named
     (logging_enabled <-
        call (GetBucketLogging bucket) (get_bucket_logging aws bucket) ;;
      if logging_enabled then update incr_buckets_with_logging
      else record_unlogged_bucket bucket)
     (s3_exceptions_NoSuchBucketLoggingConfiguration aws)
     (record_unlogged_bucket bucket))%py.

Definition s3_body (aws : Aws) : M (S3Findings * trace) unit :=
  (buckets <- call ListBuckets (list_buckets aws) ;;
   for_each buckets (s3_bucket_step aws))%py.

Definition analyze_s3_logging (aws : Aws) : M trace S3Findings :=
  analyzer (mk_s3 0 0 [] []) (s3_body aws) s3_error_issue add_s3_issue.

(** ** [analyze_cloudwatch_logs] *)

Definition add_cloudwatch_issue (i : Issue) (f : CloudWatchFindings) :=
  mk_cloudwatch (log_groups f) (log_groups_with_retention f)
                (log_groups_without_retention f) (cloudwatch_issues f ++ [i]).

Definition incr_log_groups (f : CloudWatchFindings) :=
  mk_cloudwatch (log_groups f + 1) (log_groups_with_retention f)
                (log_groups_without_retention f) (cloudwatch_issues f).

Definition incr_log_groups_with_retention (f : CloudWatchFindings) :=
  mk_cloudwatch (log_groups f) (log_groups_with_retention f + 1)
                (log_groups_without_retention f) (cloudwatch_issues f).

Definition add_log_group_without_retention (name : string)
           (f : CloudWatchFindings) :=
  mk_cloudwatch (log_groups f) (log_groups_with_retention f)
                (log_groups_without_retention f ++ [name])
                (cloudwatch_issues f).

Definition no_retention_issue (name : string) : Issue :=
  mk_issue "MEDIUM"
           ("CloudWatch Log Group " +++ name +++ " has no retention policy")
           "10.5.1.2"
           ("Set retention policy for log group " +++ name).

Definition cloudwatch_error_issue (e : exn) : Issue :=
  mk_issue "HIGH" ("Error analyzing CloudWatch Logs: " +++ exn_str e)
           "10.2.1" "Check CloudWatch Logs permissions and configuration".

(** ['retentionInDays' in log_group] *)
Definition has_retention (g : LogGroup) : bool :=
  match retentionInDays g with Some _ => true | None => false end.

Definition cloudwatch_group_step (log_group : LogGroup)
  : M (CloudWatchFindings * trace) unit :=
  (update incr_log_groups ;;;
   if has_retention log_group then update incr_log_groups_with_retention
   else
     update (add_log_group_without_retention (logGroupName log_group)) ;;;
     update (add_cloudwatch_issue
               (no_retention_issue (logGroupName log_group))))%py.

Definition cloudwatch_body (aws : Aws) : M (CloudWatchFindings * trace) unit :=
  (groups <- call DescribeLogGroups (describe_log_groups aws) ;;
   for_each groups cloudwatch_group_step)%py.

Definition analyze_cloudwatch_logs (aws : Aws) : M trace CloudWatchFindings :=
  analyzer (mk_cloudwatch 0 0 [] []) (cloudwatch_body aws)
           cloudwatch_error_issue add_cloudwatch_issue.

(** ** [analyze_rds_logging] *)

Definition add_rds_issue (i : Issue) (f : RdsFindings) :=
  mk_rds (instances f) (instances_with_logging f)
         (instances_without_logging f) (rds_issues f ++ [i]).

Definition incr_instances (f : RdsFindings) :=
  mk_rds (instances f + 1) (instances_with_logging f)
         (instances_without_logging f) (rds_issues f).

Definition incr_instances_with_logging (f : RdsFindings) :=
  mk_rds (instances f) (instances_with_logging f + 1)
         (instances_without_logging f) (rds_issues f).

Definition add_instance_without_logging (name : string) (f : RdsFindings) :=
  mk_rds (instances f) (instances_with_logging f)
         (instances_without_logging f ++ [name]) (rds_issues f).

Definition rds_unlogged_issue (name : string) : Issue :=
  mk_issue "MEDIUM"
           ("RDS instance " +++ name
            +++ " does not have CloudWatch logging enabled")
           "10.2.1"
           ("Enable CloudWatch logging for RDS instance " +++ name).

Definition rds_error_issue (e : exn) : Issue :=
  mk_issue "HIGH" ("Error analyzing RDS logging: " +++ exn_str e)
           "10.2.1" "Check RDS permissions and configuration".

(** The truth value of [instance.get('EnableCloudwatchLogsExports')]. *)
Definition has_log_exports (i : DBInstance) : bool :=
  match EnableCloudwatchLogsExports i with [] => false | _ => true end.

Definition rds_instance_step (instance : DBInstance)
  : M (RdsFindings * trace) unit :=
  (update incr_instances ;;;
   if has_log_exports instance then update incr_instances_with_logging
   else
     update (add_instance_without_logging (DBInstanceIdentifier instance)) ;;;
     update (add_rds_issue
               (rds_unlogged_issue (DBInstanceIdentifier instance))))%py.

Definition rds_body (aws : Aws) : M (RdsFindings * trace) unit :=
  (dbs <- call DescribeDbInstances (describe_db_instances aws) ;;
   for_each dbs rds_instance_step)%py.

Definition analyze_rds_logging (aws : Aws) : M trace RdsFindings :=
  analyzer (mk_rds 0 0 [] []) (rds_body aws) rds_error_issue add_rds_issue.

(** ** [analyze_iam_logging] *)

Definition add_iam_issue (i : Issue) (f : IamFindings) :=
  mk_iam (credential_reports_enabled f) (access_analyzer_enabled f)
         (iam_issues f ++ [i]).

Definition set_credential_reports_enabled (b : bool) (f : IamFindings) :=
  mk_iam b (access_analyzer_enabled f) (iam_issues f).

Definition set_access_analyzer_enabled (b : bool) (f : IamFindings) :=
  mk_iam (credential_reports_enabled f) b (iam_issues f).

Definition credential_reports_issue : Issue :=
  mk_issue "MEDIUM" "IAM credential reports not enabled" "10.2.1"
           "Enable IAM credential reports for access monitoring".

Definition access_analyzer_disabled_issue : Issue :=
  mk_issue "MEDIUM" "IAM Access Analyzer not enabled" "10.2.1"
           "Enable IAM Access Analyzer for policy analysis".

Definition access_analyzer_unavailable_issue : Issue :=
  mk_issue "MEDIUM" "IAM Access Analyzer not available or enabled" "10.2.1"
           "Enable IAM Access Analyzer for policy analysis".

Definition iam_error_issue (e : exn) : Issue :=
  mk_issue "HIGH" ("Error analyzing IAM logging: " +++ exn_str e)
           "10.2.1" "Check IAM permissions and configuration".

(** Two inner [try] blocks, each closed by a bare [except:]. *)
Definition iam_body (aws : Aws) : M (IamFindings * trace) unit :=
  (try_except
     (call GenerateCredentialReport (generate_credential_report aws) ;;;
      update (set_credential_reports_enabled true))
     (fun _ => true)
     (fun _ => update (add_iam_issue credential_reports_issue)) ;;;
   try_except
     (analyzers <- call ListAccessAnalyzers (list_access_analyzers aws) ;;
      match analyzers with
      | [] => update (add_iam_issue access_analyzer_disabled_issue)
      | _ => update (set_access_analyzer_enabled true)
      end)
     (fun _ => true)
     (fun _ => update (add_iam_issue access_analyzer_unavailable_issue)))%py.

Definition analyze_iam_logging (aws : Aws) : M trace IamFindings :=
  analyzer (mk_iam false false []) (iam_body aws) iam_error_issue add_iam_issue.

(** ** Remediation script bodies *)

Definition _generate_cloudtrail_script : string :=
  "#!/bin/bash" +++ nl +++
  "# Enable CloudTrail" +++ nl +++
  "aws cloudtrail create-trail " +++ bs +++ nl +++
  "    --name " +++ dq +++ "pci-compliance-trail" +++ dq +++ " " +++ bs +++ nl +++
  "    --s3-bucket-name " +++ dq +++ "your-log-bucket-name" +++ dq +++ " "
    +++ bs +++ nl +++
  "    --is-multi-region-trail " +++ bs +++ nl +++
  "    --enable-log-file-validation" +++ nl +++
  nl +++
  "aws cloudtrail start-logging --name " +++ dq +++ "pci-compliance-trail"
    +++ dq +++ nl +++
  nl +++
  "echo " +++ dq +++ "CloudTrail enabled successfully" +++ dq.

Definition _generate_multi_region_cloudtrail_script : string :=
  "#!/bin/bash" +++ nl +++
  "# Enable multi-region CloudTrail" +++ nl +++
  "aws cloudtrail update-trail " +++ bs +++ nl +++
  "    --name " +++ dq +++ "pci-compliance-trail" +++ dq +++ " " +++ bs +++ nl +++
  "    --is-multi-region-trail" +++ nl +++
  nl +++
  "echo " +++ dq +++ "Multi-region CloudTrail enabled" +++ dq.

(** The three lines of the command for one bucket. *)
Definition s3_command_line : string := "aws s3api put-bucket-logging " +++ bs.

Definition s3_bucket_line (bucket : string) : string :=
  "    --bucket " +++ dq +++ bucket +++ dq +++ " " +++ bs.

Definition s3_status_line (bucket : string) : string :=
  "    --bucket-logging-status '{" +++ dq +++ "LoggingEnabled" +++ dq +++ ": {"
  +++ dq +++ "TargetBucket" +++ dq +++ ": " +++ dq +++ "your-log-bucket-name"
  +++ dq +++ ", " +++ dq +++ "TargetPrefix" +++ dq +++ ": " +++ dq +++ bucket
  +++ "/" +++ dq +++ "}}'".

(** The text one turn of the loop appends: the command and an empty line. *)
Definition s3_block (bucket : string) : string :=
  s3_command_line +++ nl +++
  s3_bucket_line bucket +++ nl +++
  s3_status_line bucket +++ nl +++
  nl.

Definition _generate_s3_logging_script (buckets : list string) : string :=
  let script :=
    "#!/bin/bash" +++ nl +++ "# Enable S3 access logging for buckets" +++ nl in
  let script :=
    fold_left (fun script bucket => script +++ s3_block bucket) buckets script in
  script +++ "echo " +++ dq +++ "S3 access logging enabled for all buckets" +++ dq.

Definition cloudwatch_block (log_group : string) : string :=
  "aws logs put-retention-policy " +++ bs +++ nl +++
  "    --log-group-name " +++ dq +++ log_group +++ dq +++ " " +++ bs +++ nl +++
  "    --retention-in-days 365" +++ nl +++
  nl.

Definition _generate_cloudwatch_retention_script (groups : list string)
  : string :=
  let script :=
    "#!/bin/bash" +++ nl
    +++ "# Set retention policies for CloudWatch log groups" +++ nl in
  let script :=
    fold_left (fun script g => script +++ cloudwatch_block g) groups script in
  script +++ "echo " +++ dq +++ "Retention policies set for all log groups" +++ dq.

Definition rds_block (instance : string) : string :=
  "aws rds modify-db-instance " +++ bs +++ nl +++
  "    --db-instance-identifier " +++ dq +++ instance +++ dq +++ " " +++ bs
    +++ nl +++
  "    --enable-cloudwatch-logs-exports " +++ dq +++ "error,general,slow-query"
    +++ dq +++ " " +++ bs +++ nl +++
  "    --apply-immediately" +++ nl +++
  nl.

Definition _generate_rds_logging_script (dbs : list string) : string :=
  let script :=
    "#!/bin/bash" +++ nl
    +++ "# Enable CloudWatch logging for RDS instances" +++ nl in
  let script :=
    fold_left (fun script i => script +++ rds_block i) dbs script in
  script +++ "echo " +++ dq +++ "CloudWatch logging enabled for all RDS instances"
    +++ dq.

(** ** [generate_recommendations] *)

Record Recommendation := mk_recommendation {
  priority : string;
  category : string;
  title : string;
  rec_description : string;
  rec_pci_reference : string;
  script : string;
  estimated_cost : string
}.

(** The truth value of a list: non-empty. *)
Definition truthy {A} (l : list A) : bool :=
  match l with [] => false | _ => true end.

Definition enable_cloudtrail_recommendation : Recommendation :=
  mk_recommendation
    "HIGH" "CloudTrail" "Enable CloudTrail"
    "Enable CloudTrail for comprehensive API activity logging"
    "10.2.1-10.2.7" _generate_cloudtrail_script
    "Low (CloudTrail is free for first 5GB/month)".

Definition multi_region_recommendation : Recommendation :=
  mk_recommendation
    "MEDIUM" "CloudTrail" "Enable Multi-Region CloudTrail"
    "Enable multi-region CloudTrail for comprehensive coverage"
    "10.2.1-10.2.7" _generate_multi_region_cloudtrail_script "Low".

Definition s3_recommendation (buckets : list string) : Recommendation :=
  mk_recommendation
    "MEDIUM" "S3" "Enable S3 Access Logging"
    ("Enable access logging for " +++ str_of_nat (List.length buckets)
     +++ " S3 buckets")
    "10.2.1" (_generate_s3_logging_script buckets)
    "Low (S3 access logs are inexpensive)".

Definition cloudwatch_recommendation (groups : list string) : Recommendation :=
  mk_recommendation
    "MEDIUM" "CloudWatch" "Set Log Retention Policies"
    ("Set retention policies for " +++ str_of_nat (List.length groups)
     +++ " log groups")
    "10.5.1.2" (_generate_cloudwatch_retention_script groups)
    "Low (reduces storage costs)".

Definition rds_recommendation (dbs : list string) : Recommendation :=
  mk_recommendation
    "MEDIUM" "RDS" "Enable RDS CloudWatch Logging"
    ("Enable CloudWatch logging for " +++ str_of_nat (List.length dbs)
     +++ " RDS instances")
    "10.2.1" (_generate_rds_logging_script dbs) "Low".

(** [if cond: recommendations.append(r)] *)
Definition append_if {A} (cond : bool) (r : A) (l : list A) : list A :=
  if cond then l ++ [r] else l.

Definition generate_recommendations (findings : FindingsReport)
  : list Recommendation :=
  let recommendations := [] in
  let recommendations :=
    append_if (negb (enabled (cloudtrail findings)))
              enable_cloudtrail_recommendation recommendations in
  let recommendations :=
    append_if (negb (multi_region (cloudtrail findings)))
              multi_region_recommendation recommendations in
  let recommendations :=
    append_if (truthy (buckets_without_logging (s3_logging findings)))
              (s3_recommendation (buckets_without_logging (s3_logging findings)))
              recommendations in
  let recommendations :=
    append_if (truthy (log_groups_without_retention (cloudwatch_logs findings)))
              (cloudwatch_recommendation
                 (log_groups_without_retention (cloudwatch_logs findings)))
              recommendations in
  let recommendations :=
    append_if (truthy (instances_without_logging (rds_logging findings)))
              (rds_recommendation
                 (instances_without_logging (rds_logging findings)))
              recommendations in
  recommendations.

(** ** [run_analysis] *)

Record Results := mk_results {
  findings : FindingsReport;
  recommendations : list Recommendation
}.

Definition len {A} (l : list A) : Z := Z.of_nat (List.length l).

Definition run_analysis (aws : Aws) : M trace Results :=
  (cloudtrail_findings <- analyze_cloudtrail aws ;;
   s3_findings <- analyze_s3_logging aws ;;
   cloudwatch_findings <- analyze_cloudwatch_logs aws ;;
   rds_findings <- analyze_rds_logging aws ;;
   iam_findings <- analyze_iam_logging aws ;;
   let all_findings :=
     mk_findings cloudtrail_findings s3_findings cloudwatch_findings
                 rds_findings iam_findings
                 (now_isoformat aws)
                 (len (cloudtrail_issues cloudtrail_findings)
                  + len (s3_issues s3_findings)
                  + len (cloudwatch_issues cloudwatch_findings)
                  + len (rds_issues rds_findings)
                  + len (iam_issues iam_findings)) in
   let recommendations := generate_recommendations all_findings in
   ret (mk_results all_findings recommendations))%py.

(** ** [generate_report]

    The console report is kept as the values it prints: the two counters of
    the executive summary, the rows of the issue table and the rows of the
    PCI DSS compliance table. *)

Record ReportIssue := mk_report_issue {
  issue_category : string;
  issue_severity : string;
  issue_description : string;
  issue_pci_reference : string
}.

(** The loop that fills [all_issues]. *)
Fixpoint collect_all_issues (entries : list (string * entry))
         (all_issues : list ReportIssue) : result (list ReportIssue) :=
  match entries with
  | [] => Ok all_issues
  | (category, value) :: rest =>
      if negb (String.eqb category "timestamp")
         && negb (String.eqb category "total_issues")
      then
        match get_issues value with
        | Raise e => Raise e
        | Ok issues =>
            collect_all_issues rest
              (fold_left
                 (fun acc issue =>
                    acc ++ [mk_report_issue (upper category) (severity issue)
                              (description issue) (pci_reference issue)])
                 issues all_issues)
        end
      else collect_all_issues rest all_issues
  end.

(** The table [pci_requirements], in insertion order. *)
Definition pci_requirements : list (string * string) :=
  [ ("10.2.1", "All individual access to cardholder data");
    ("10.2.2", "All actions taken by any individual with root or administrative privileges");
    ("10.2.3", "Access to all audit trails");
    ("10.2.4", "Invalid logical access attempts");
    ("10.2.5", "Use of identification and authentication mechanisms");
    ("10.2.6", "Initialization of the audit logs");
    ("10.2.7", "Creation and deletion of system-level objects");
    ("10.5.1.2", "Retain audit trail history for at least one year");
    ("10.5.2", "Protect audit trail files from unauthorized modifications");
    ("10.5.3", "Promptly back up audit trail files to a centralized log server") ].

(** The two texts of the status column, without their leading glyph. *)
Inductive Status :=
| Compliant
| NonCompliant.

Record ComplianceRow := mk_row {
  requirement : string;
  requirement_text : string;
  status : Status
}.

(** [req not in [issue['pci_reference'] for issue in all_issues]] *)
Definition requirement_status (req : string) (all_issues : list ReportIssue)
  : Status :=
  if negb (str_in req (map issue_pci_reference all_issues))
  then Compliant else NonCompliant.

Definition compliance_table (all_issues : list ReportIssue)
  : list ComplianceRow :=
  map (fun row => mk_row (fst row) (snd row)
                         (requirement_status (fst row) all_issues))
      pci_requirements.

Record Report := mk_report {
  shown_total_issues : Z;
  shown_recommendations : Z;
  shown_issues : list ReportIssue;
  shown_compliance : list ComplianceRow
}.

Definition generate_report (results : Results) : result Report :=
  match collect_all_issues (items (findings results)) [] with
  | Raise e => Raise e
  | Ok all_issues =>
      Ok (mk_report (total_issues (findings results))
                    (len (recommendations results))
                    all_issues
                    (compliance_table all_issues))
  end.

(** ** [generate_report] under [--generate-scripts]

    The file system is what each path holds; [open(path, 'w')] fails, or
    the content written replaces what the path held. *)
Definition disk := string -> option string.

Definition open_write (io_error : string -> option exn) (path content : string)
  : M disk unit :=
  fun d => match io_error path with
           | Some e => (Raise e, d)
           | None =>
               (Ok tt, fun p => if String.eqb p path then Some content else d p)
           end.

(** [f"remediation_script_{i}_{rec['category'].lower()}.sh"] *)
Definition script_filename (i : nat) (rec : Recommendation) : string :=
  "remediation_script_" +++ str_of_nat i +++ "_" +++ lower (category rec)
  +++ ".sh".

(** [for i, rec in enumerate(recommendations, i)]: the script of each
    recommendation is written to the file named after its rank and
    category. *)
Fixpoint write_scripts (io_error : string -> option exn) (i : nat)
         (recs : list Recommendation) : M disk unit :=
  match recs with
  | [] => ret tt
  | rec :: rest =>
      (open_write io_error (script_filename i rec) (script rec) ;;;
       write_scripts io_error (S i) rest)%py
  end.

(** [generate_report(results, generate_scripts)]: the issue rows are
    gathered, then come the recommendations with their script files, then
    the compliance table. *)
Definition generate_report_scripts (io_error : string -> option exn)
           (results : Results) (generate_scripts : bool) : M disk Report :=
  (all_issues <- lift (collect_all_issues (items (findings results)) []) ;;
   (if generate_scripts
    then write_scripts io_error 1 (recommendations results)
    else ret tt) ;;;
   ret (mk_report (total_issues (findings results))
                  (len (recommendations results))
                  all_issues
                  (compliance_table all_issues)))%py.

End AwsLogReview.

(* ================================================================== *)
(** * [report_generator.py] *)
(* ================================================================== *)

Module ReportGenerator.

Definition severity_weights : list (string * Z) :=
  [ ("HIGH", 3); ("MEDIUM", 2); ("LOW", 1) ].

(** The inner loop: [weighted_issues += severity_weights.get(severity, 1)]. *)
Definition weigh (issues : list Issue) (weighted_issues : Z) : Z :=
  fold_left
    (fun weighted_issues issue =>
       weighted_issues + dict_get severity_weights (severity issue) 1)
    issues weighted_issues.

(** The outer loop over [findings.items()]. *)
Fixpoint weigh_categories (entries : list (string * entry))
         (weighted_issues : Z) : result Z :=
  match entries with
  | [] => Ok weighted_issues
  | (category, category_findings) :: rest =>
      if negb (str_in category ["timestamp"; "total_issues"]) then
        match get_issues category_findings with
        | Raise e => Raise e
        | Ok issues => weigh_categories rest (weigh issues weighted_issues)
        end
      else weigh_categories rest weighted_issues
  end.

(** [int(max(0, 100 - (weighted_issues / max_possible_issues) * 100))] *)
Definition score_of_weight (weighted_issues : Z) : result Z :=
  let max_possible_issues := 50 in
  match int_truediv weighted_issues max_possible_issues with
  | Raise e => Raise e
  | Ok ratio =>
      let score :=
        max2 (Int 0) (num_sub (Int 100) (num_mul (Float ratio) (Int 100))) in
      int_of score
  end.

Definition calculate_compliance_score (findings : FindingsReport) : result Z :=
  match weigh_categories (items findings) 0 with
  | Raise e => Raise e
  | Ok weighted_issues => score_of_weight weighted_issues
  end.

Definition get_pci_requirements : list (string * string) :=
  AwsLogReview.pci_requirements.

(** The first loop of [get_non_compliant_requirements]. *)
Fixpoint gather_issues (entries : list (string * entry))
         (all_issues : list Issue) : result (list Issue) :=
  match entries with
  | [] => Ok all_issues
  | (category, category_findings) :: rest =>
      if negb (str_in category ["timestamp"; "total_issues"]) then
        match get_issues category_findings with
        | Raise e => Raise e
        | Ok issues =>
            gather_issues rest
              (fold_left (fun acc issue => acc ++ [issue]) issues all_issues)
        end
      else gather_issues rest all_issues
  end.

(** The second loop: a reference is kept when it is not empty and not yet
    listed. *)
Definition note_reference (non_compliant : list string) (issue : Issue)
  : list string :=
  let pci_ref := pci_reference issue in
  if negb (String.eqb pci_ref EmptyString) && negb (str_in pci_ref non_compliant)
  then non_compliant ++ [pci_ref] else non_compliant.

Definition get_non_compliant_requirements (findings : FindingsReport)
  : result (list string) :=
  match gather_issues (items findings) [] with
  | Raise e => Raise e
  | Ok all_issues => Ok (fold_left note_reference all_issues [])
  end.

(** [estimate_monthly_cost]: a base of 50, 5 more when CloudTrail is not
    enabled, 2 per bucket analyzed, 1 per log group and 3 per database
    instance, printed as [f"${base_cost:.0f}"]. *)
Definition estimate_monthly_cost (findings : FindingsReport) : result string :=
  let base_cost := 50 in
  let base_cost :=
    if negb (enabled (cloudtrail findings)) then base_cost + 5 else base_cost in
  let s3_buckets := buckets_analyzed (s3_logging findings) in
  let base_cost := base_cost + s3_buckets * 2 in
  let cloudwatch_logs := log_groups (cloudwatch_logs findings) in
  let base_cost := base_cost + cloudwatch_logs * 1 in
  let rds_instances := instances (rds_logging findings) in
  let base_cost := base_cost + rds_instances * 3 in
  match format_0f base_cost with
  | Raise e => Raise e
  | Ok text => Ok ("$" +++ text)
  end.

End ReportGenerator.

(* ================================================================== *)
(** * [example_usage.py] *)
(* ================================================================== *)

Module ExampleUsage.

(** [create_sample_findings()], with [now] for [datetime.now().isoformat()]. *)
Definition create_sample_findings (now : string) : FindingsReport :=
  mk_findings
    (mk_cloudtrail false false false None
       [ mk_issue "HIGH" "No CloudTrail trails found" "10.2.1-10.2.7"
                  "Enable CloudTrail for API activity logging" ])
    (mk_s3 5 2 ["bucket1"; "bucket2"; "bucket3"]
       [ mk_issue "MEDIUM"
                  "S3 bucket bucket1 does not have access logging enabled"
                  "10.2.1" "Enable access logging for bucket bucket1";
         mk_issue "MEDIUM"
                  "S3 bucket bucket2 does not have access logging enabled"
                  "10.2.1" "Enable access logging for bucket bucket2";
         mk_issue "MEDIUM"
                  "S3 bucket bucket3 does not have access logging enabled"
                  "10.2.1" "Enable access logging for bucket bucket3" ])
    (mk_cloudwatch 8 3
       [ "/aws/lambda/app1"; "/aws/lambda/app2"; "/aws/rds/instance1";
         "/aws/rds/instance2"; "/aws/ec2/security" ]
       [ mk_issue "MEDIUM"
                  "CloudWatch Log Group /aws/lambda/app1 has no retention policy"
                  "10.5.1.2" "Set retention policy for log group /aws/lambda/app1";
         mk_issue "MEDIUM"
                  "CloudWatch Log Group /aws/lambda/app2 has no retention policy"
                  "10.5.1.2" "Set retention policy for log group /aws/lambda/app2";
         mk_issue "MEDIUM"
                  "CloudWatch Log Group /aws/rds/instance1 has no retention policy"
                  "10.5.1.2" "Set retention policy for log group /aws/rds/instance1";
         mk_issue "MEDIUM"
                  "CloudWatch Log Group /aws/rds/instance2 has no retention policy"
                  "10.5.1.2" "Set retention policy for log group /aws/rds/instance2";
         mk_issue "MEDIUM"
                  "CloudWatch Log Group /aws/ec2/security has no retention policy"
                  "10.5.1.2" "Set retention policy for log group /aws/ec2/security" ])
    (mk_rds 3 1 ["db-instance-1"; "db-instance-2"]
       [ mk_issue "MEDIUM"
                  "RDS instance db-instance-1 does not have CloudWatch logging enabled"
                  "10.2.1"
                  "Enable CloudWatch logging for RDS instance db-instance-1";
         mk_issue "MEDIUM"
                  "RDS instance db-instance-2 does not have CloudWatch logging enabled"
                  "10.2.1"
                  "Enable CloudWatch logging for RDS instance db-instance-2" ])
    (mk_iam false false
       [ mk_issue "MEDIUM" "IAM credential reports not enabled" "10.2.1"
                  "Enable IAM credential reports for access monitoring";
         mk_issue "MEDIUM" "IAM Access Analyzer not enabled" "10.2.1"
                  "Enable IAM Access Analyzer for policy analysis" ])
    now
    12.

(** The pipeline on the sample: derive the recommendations, then report. *)
Definition sample_results (now : string) : AwsLogReview.Results :=
  let findings := create_sample_findings now in
  AwsLogReview.mk_results findings
                          (AwsLogReview.generate_recommendations findings).

End ExampleUsage.

(* ================================================================== *)
(** * [scripts/generate_remediation_scripts.py] *)
(* ================================================================== *)

Module RemediationScripts.

(** Values held by an attribute or bound in a template context. *)
Inductive value :=
| VStr (s : string)
| VInt (n : Z)
| VList (l : list value)
| VDict (d : list (string * value)).

(** An instance is its attribute dictionary. *)
Definition object := list (string * value).

Fixpoint lookup (d : list (string * value)) (k : string) : option value :=
  match d with
  | [] => None
  | (k', v) :: rest => if String.eqb k k' then Some v else lookup rest k
  end.

(** [self.<name>] *)
Definition getattr (self : object) (name : string) : result value :=
  match lookup self name with
  | Some v => Ok v
  | None =>
      Raise (mk_exn AttributeError
               ("'RemediationScriptGenerator' object has no attribute '"
                +++ name +++ "'"))
  end.

(** [d[k]] *)
Definition subscript (d : value) (k : string) : result value :=
  match d with
  | VDict l =>
      match lookup l k with
      | Some v => Ok v
      | None => Raise (mk_exn KeyError ("'" +++ k +++ "'"))
      end
  | _ => Raise (mk_exn TypeError "object is not subscriptable")
  end.

(** The files written so far: path and content, oldest first. *)
Definition files := list (string * string).

Section Generator.

(** The literal text of each template, the Jinja renderer, the clock and
    the file system's failures are the collaborators of the generator. *)
Variable template_text : string -> string.
Variable render : string -> list (string * value) -> string.
Variable now : string.
Variable io_error : string -> option exn.

(** [_load_templates()]: seven named templates. *)
Definition _load_templates : value :=
  VDict (map (fun name => (name, VStr (template_text name)))
             [ "cloudtrail_setup"; "s3_logging_setup";
               "cloudwatch_retention_setup"; "rds_logging_setup";
               "iam_monitoring_setup"; "monitoring_alerts_setup";
               "cost_optimization_setup" ]).

(** [__init__]: the two assignments [self.config = ...] and
    [self.templates = ...]; [config] is what [_load_config] returned. *)
Definition init (config : value) : object :=
  [ ("config", config); ("templates", _load_templates) ].

(** [Template(self.templates[name])] *)
Definition template (self : object) (name : string) : M files string :=
  lift (match getattr self "templates" with
        | Raise e => Raise e
        | Ok templates =>
            match subscript templates name with
            | Raise e => Raise e
            | Ok (VStr text) => Ok text
            | Ok _ => Raise (mk_exn TypeError "Can't compile non template nodes")
            end
        end).

(** [os.path.join(output_dir, name)], [os.makedirs], [open(...).write] and
    [os.chmod]; returns the path. *)
Definition write_script (output_dir name content : string) : M files string :=
  let script_path := path_join output_dir name in
  fun fs => match io_error script_path with
            | Some e => (Raise e, fs)
            | None => (Ok script_path, fs ++ [(script_path, content)])
            end.

Definition generate_cloudtrail_script (self : object)
           (findings : FindingsReport) (output_dir : string) : M files string :=
  (t <- template self "cloudtrail_setup" ;;
   region <- lift (getattr self "region") ;;
   account_id <- lift (getattr self "account_id") ;;
   let script_content :=
     render t [ ("timestamp", VStr now);
                ("pci_reference", VStr "10.2.1-10.2.7");
                ("trail_name", VStr "pci-compliance-trail");
                ("s3_bucket", VStr "pci-logs-bucket");
                ("cloudwatch_log_group", VStr "/aws/cloudtrail/pci-compliance");
                ("region", region);
                ("account_id", account_id) ] in
   write_script output_dir "setup_cloudtrail.sh" script_content)%py.

Definition generate_s3_logging_script (self : object) (buckets : list string)
           (output_dir : string) : M files string :=
  (t <- template self "s3_logging_setup" ;;
   region <- lift (getattr self "region") ;;
   let script_content :=
     render t [ ("timestamp", VStr now);
                ("pci_reference", VStr "10.2.1");
                ("log_bucket", VStr "pci-s3-logs-bucket");
                ("log_prefix", VStr "s3-access-logs");
                ("region", region);
                ("buckets", VList (map VStr buckets)) ] in
   write_script output_dir "setup_s3_logging.sh" script_content)%py.

Definition generate_cloudwatch_retention_script (self : object)
           (groups : list string) (output_dir : string) : M files string :=
  (t <- template self "cloudwatch_retention_setup" ;;
   let script_content :=
     render t [ ("timestamp", VStr now);
                ("pci_reference", VStr "10.5.1.2");
                ("log_groups", VList (map VStr groups));
                ("retention_days", VInt 365) ] in
   write_script output_dir "setup_cloudwatch_retention.sh" script_content)%py.

Definition generate_rds_logging_script (self : object)
           (dbs : list string) (output_dir : string) : M files string :=
  (t <- template self "rds_logging_setup" ;;
   let script_content :=
     render t [ ("timestamp", VStr now);
                ("pci_reference", VStr "10.2.1");
                ("instances", VList (map VStr dbs)) ] in
   write_script output_dir "setup_rds_logging.sh" script_content)%py.

Definition generate_iam_monitoring_script (self : object)
           (output_dir : string) : M files string :=
  (t <- template self "iam_monitoring_setup" ;;
   region <- lift (getattr self "region") ;;
   let script_content :=
     render t [ ("timestamp", VStr now);
                ("pci_reference", VStr "10.2.1");
                ("region", region) ] in
   write_script output_dir "setup_iam_monitoring.sh" script_content)%py.

Definition alerts : value :=
  VList
    [ VDict [ ("name", VStr "CloudTrail-Delivery-Failure");
              ("description", VStr "CloudTrail log delivery failure");
              ("metric_name", VStr "DeliveryErrors");
              ("namespace", VStr "AWS/CloudTrail");
              ("statistic", VStr "Sum");
              ("period", VInt 300);
              ("threshold", VInt 1);
              ("comparison_operator", VStr "GreaterThanThreshold");
              ("evaluation_periods", VInt 1) ];
      VDict [ ("name", VStr "S3-Access-Denied");
              ("description", VStr "S3 access denied attempts");
              ("metric_name", VStr "4xxError");
              ("namespace", VStr "AWS/S3");
              ("statistic", VStr "Sum");
              ("period", VInt 300);
              ("threshold", VInt 10);
              ("comparison_operator", VStr "GreaterThanThreshold");
              ("evaluation_periods", VInt 2) ] ].

Definition generate_monitoring_alerts_script (self : object)
           (output_dir : string) : M files string :=
  (t <- template self "monitoring_alerts_setup" ;;
   region <- lift (getattr self "region") ;;
   let script_content :=
     render t [ ("timestamp", VStr now);
                ("pci_reference", VStr "10.4.1");
                ("region", region);
                ("alerts", alerts) ] in
   write_script output_dir "setup_monitoring_alerts.sh" script_content)%py.

Definition generate_cost_optimization_script (self : object)
           (output_dir : string) : M files string :=
  (t <- template self "cost_optimization_setup" ;;
   let script_content :=
     render t [ ("timestamp", VStr now);
                ("budget_amount", VStr "100");
                ("alert_email", VStr "admin@example.com");
                ("account_id", VStr "123456789012") ] in
   write_script output_dir "setup_cost_optimization.sh" script_content)%py.

(** The text [generate_master_script] assembles. *)
Definition master_header (output_dir : string) : string :=
  "#!/bin/bash" +++ nl +++
  "# Master Remediation Script" +++ nl +++
  "# Generated on " +++ now +++ nl +++
  "# PCI DSS Log Management Compliance" +++ nl +++
  nl +++
  "set -e" +++ nl +++
  nl +++
  "echo " +++ dq +++ "Starting PCI DSS Log Management Remediation..." +++ dq
    +++ nl +++
  "echo " +++ dq +++ "==============================================" +++ dq
    +++ nl +++
  nl +++
  "# Check AWS CLI is installed" +++ nl +++
  "if ! command -v aws &> /dev/null; then" +++ nl +++
  "    echo " +++ dq
    +++ "Error: AWS CLI is not installed. Please install it first." +++ dq
    +++ nl +++
  "    exit 1" +++ nl +++
  "fi" +++ nl +++
  nl +++
  "# Check AWS credentials" +++ nl +++
  "if ! aws sts get-caller-identity &> /dev/null; then" +++ nl +++
  "    echo " +++ dq
    +++ "Error: AWS credentials not configured. Please run 'aws configure' first."
    +++ dq +++ nl +++
  "    exit 1" +++ nl +++
  "fi" +++ nl +++
  nl +++
  "# Create scripts directory if it doesn't exist" +++ nl +++
  "mkdir -p " +++ output_dir +++ nl +++
  nl +++
  "# Run remediation scripts based on findings" +++ nl.

Definition master_step (message script_name : string) : string :=
  nl +++ "echo " +++ dq +++ message +++ dq +++ nl +++
  "./" +++ script_name +++ nl.

Definition master_footer : string :=
  nl +++
  "echo " +++ dq +++ "Setting up IAM monitoring..." +++ dq +++ nl +++
  "./setup_iam_monitoring.sh" +++ nl +++
  nl +++
  "echo " +++ dq +++ "Setting up monitoring and alerting..." +++ dq +++ nl +++
  "./setup_monitoring_alerts.sh" +++ nl +++
  nl +++
  "echo " +++ dq +++ "Setting up cost optimization..." +++ dq +++ nl +++
  "./setup_cost_optimization.sh" +++ nl +++
  nl +++
  "echo " +++ dq +++ "==============================================" +++ dq
    +++ nl +++
  "echo " +++ dq +++ "PCI DSS Log Management Remediation Complete!" +++ dq
    +++ nl +++
  "echo " +++ dq +++ "==============================================" +++ dq
    +++ nl +++
  "echo " +++ dq +++ dq +++ nl +++
  "echo " +++ dq +++ "Next steps:" +++ dq +++ nl +++
  "echo " +++ dq +++ "1. Review the generated configurations" +++ dq +++ nl +++
  "echo " +++ dq +++ "2. Test the logging and monitoring setup" +++ dq +++ nl +++
  "echo " +++ dq
    +++ "3. Update the scripts with your specific values (bucket names, etc.)"
    +++ dq +++ nl +++
  "echo " +++ dq +++ "4. Run the scripts in your AWS environment" +++ dq +++ nl +++
  "echo " +++ dq +++ "5. Document the implementation for compliance" +++ dq
    +++ nl.

Definition add_if (cond : bool) (text script : string) : string :=
  if cond then script +++ text else script.

Definition generate_master_script (findings : FindingsReport)
           (output_dir : string) : M files string :=
  let master_script := master_header output_dir in
  let master_script :=
    add_if (negb (enabled (cloudtrail findings)))
           (master_step "Setting up CloudTrail..." "setup_cloudtrail.sh")
           master_script in
  let master_script :=
    add_if (AwsLogReview.truthy (buckets_without_logging (s3_logging findings)))
           (master_step "Setting up S3 access logging..." "setup_s3_logging.sh")
           master_script in
  let master_script :=
    add_if (AwsLogReview.truthy
              (log_groups_without_retention (cloudwatch_logs findings)))
           (master_step "Setting up CloudWatch retention policies..."
                        "setup_cloudwatch_retention.sh")
           master_script in
  let master_script :=
    add_if (AwsLogReview.truthy (instances_without_logging (rds_logging findings)))
           (master_step "Setting up RDS CloudWatch logging..."
                        "setup_rds_logging.sh")
           master_script in
  let master_script := master_script +++ master_footer in
  write_script output_dir "run_all_remediation.sh" master_script.

(** [if cond: script_path = gen; generated_scripts.append(script_path)] *)
Definition append_when (cond : bool) (gen : M files string)
           (generated_scripts : list string) : M files (list string) :=
  if cond then
    (script_path <- gen ;; ret (generated_scripts ++ [script_path]))%py
  else ret generated_scripts.

Definition generate_all_scripts (self : object) (findings : FindingsReport)
           (output_dir : string) : M files (list string) :=
  (let generated_scripts := [] in
   generated_scripts <-
     append_when (negb (enabled (cloudtrail findings)))
                 (generate_cloudtrail_script self findings output_dir)
                 generated_scripts ;;
   generated_scripts <-
     append_when (AwsLogReview.truthy
                    (buckets_without_logging (s3_logging findings)))
                 (generate_s3_logging_script
                    self (buckets_without_logging (s3_logging findings))
                    output_dir)
                 generated_scripts ;;
   generated_scripts <-
     append_when (AwsLogReview.truthy
                    (log_groups_without_retention (cloudwatch_logs findings)))
                 (generate_cloudwatch_retention_script
                    self (log_groups_without_retention (cloudwatch_logs findings))
                    output_dir)
                 generated_scripts ;;
   generated_scripts <-
     append_when (AwsLogReview.truthy
                    (instances_without_logging (rds_logging findings)))
                 (generate_rds_logging_script
                    self (instances_without_logging (rds_logging findings))
                    output_dir)
                 generated_scripts ;;
   generated_scripts <-
     append_when true (generate_iam_monitoring_script self output_dir)
                 generated_scripts ;;
   generated_scripts <-
     append_when true (generate_monitoring_alerts_script self output_dir)
                 generated_scripts ;;
   generated_scripts <-
     append_when true (generate_cost_optimization_script self output_dir)
                 generated_scripts ;;
   generated_scripts <-
     append_when true (generate_master_script findings output_dir)
                 generated_scripts ;;
   ret generated_scripts)%py.

(** What a run of the command line leaves: exit status and printed lines. *)
Record Exit := mk_exit { exit_code : Z; printed : list string }.

(** [main]: [loaded] is the outcome of opening and parsing the findings
    file, [config] what [_load_config] returns. *)
Definition main (loaded : result FindingsReport) (config : value)
           (output_dir : string) : M files Exit :=
  try_except
    (findings <- lift loaded ;;
     let generator := init config in
     generated_scripts <- generate_all_scripts generator findings output_dir ;;
     ret (mk_exit 0
            (("Generated " +++ str_of_nat (List.length generated_scripts)
              +++ " remediation scripts:")
             :: map (fun script => "  - " +++ script) generated_scripts
             ++ [ nl +++ "To apply all remediations, run: ./" +++ output_dir
                  +++ "/run_all_remediation.sh" ])))%py
    (fun _ => true)
    (fun e => ret (mk_exit 1 ["Error: " +++ exn_str e])).

End Generator.

End RemediationScripts.

(* ================================================================== *)
(** * The [json] module, as the sources use it *)
(* ================================================================== *)

(** [json.dump(findings, f, indent=2, default=str)] followed by
    [json.load(f)] is modelled on values: a Python object is encoded as a
    JSON value following the conversion table of the [json] module, and a
    JSON value is decoded as the Python object [json.load] builds.  The
    text between the two (indentation, escapes) is the library's matter. *)
Module Json.

(** A dictionary key: [str], or an [int] (which the encoder turns into its
    decimal text). *)
Inductive pykey :=
| KStr (s : string)
| KInt (n : Z).

(** The Python objects an encoder can meet.  [POther text] is any object
    the encoder does not know, with [text] its [str()]. *)
Inductive pyobj :=
| PNone
| PBool (b : bool)
| PInt (n : Z)
| PStr (s : string)
| PList (l : list pyobj)
| PTuple (l : list pyobj)
| PDict (d : list (pykey * pyobj))
| POther (text : string).

Inductive json :=
| JNull
| JBool (b : bool)
| JNumber (n : Z)
| JString (s : string)
| JArray (l : list json)
| JObject (members : list (string * json)).

Definition str_of_int (n : Z) : string :=
  NilEmpty.string_of_int (Z.to_int n).

Definition key_text (k : pykey) : string :=
  match k with KStr s => s | KInt n => str_of_int n end.

(** The encoder, with [default=str]. *)
Fixpoint dumps (o : pyobj) : json :=
  match o with
  | PNone => JNull
  | PBool b => JBool b
  | PInt n => JNumber n
  | PStr s => JString s
  | PList l => JArray (map dumps l)
  | PTuple l => JArray (map dumps l)
  | PDict d =>
      JObject (map (fun kv => match kv with
                              | (k, v) => (key_text k, dumps v)
                              end) d)
  | POther text => JString text
  end.

(** The decoder. *)
Fixpoint loads (j : json) : pyobj :=
  match j with
  | JNull => PNone
  | JBool b => PBool b
  | JNumber n => PInt n
  | JString s => PStr s
  | JArray l => PList (map loads l)
  | JObject members =>
      PDict (map (fun kv => match kv with
                            | (k, v) => (KStr k, loads v)
                            end) members)
  end.

(** ** The findings as the dictionaries the analyzers build *)

Definition dict (members : list (string * pyobj)) : pyobj :=
  PDict (map (fun kv => (KStr (fst kv), snd kv)) members).

Definition py_str_list (l : list string) : pyobj := PList (map PStr l).

Definition py_issue (i : Issue) : pyobj :=
  dict [ ("severity", PStr (severity i));
         ("description", PStr (description i));
         ("pci_reference", PStr (pci_reference i));
         ("recommendation", PStr (recommendation i)) ].

Definition py_issues (l : list Issue) : pyobj := PList (map py_issue l).

Definition py_option_str (o : option string) : pyobj :=
  match o with Some s => PStr s | None => PNone end.

Definition to_py (f : FindingsReport) : pyobj :=
  dict
    [ ("cloudtrail",
       dict [ ("enabled", PBool (enabled (cloudtrail f)));
              ("multi_region", PBool (multi_region (cloudtrail f)));
              ("log_file_validation",
               PBool (log_file_validation (cloudtrail f)));
              ("s3_bucket", py_option_str (s3_bucket (cloudtrail f)));
              ("issues", py_issues (cloudtrail_issues (cloudtrail f))) ]);
      ("s3_logging",
       dict [ ("buckets_analyzed", PInt (buckets_analyzed (s3_logging f)));
              ("buckets_with_logging",
               PInt (buckets_with_logging (s3_logging f)));
              ("buckets_without_logging",
               py_str_list (buckets_without_logging (s3_logging f)));
              ("issues", py_issues (s3_issues (s3_logging f))) ]);
      ("cloudwatch_logs",
       dict [ ("log_groups", PInt (log_groups (cloudwatch_logs f)));
              ("log_groups_with_retention",
               PInt (log_groups_with_retention (cloudwatch_logs f)));
              ("log_groups_without_retention",
               py_str_list (log_groups_without_retention (cloudwatch_logs f)));
              ("issues", py_issues (cloudwatch_issues (cloudwatch_logs f))) ]);
      ("rds_logging",
       dict [ ("instances", PInt (instances (rds_logging f)));
              ("instances_with_logging",
               PInt (instances_with_logging (rds_logging f)));
              ("instances_without_logging",
               py_str_list (instances_without_logging (rds_logging f)));
              ("issues", py_issues (rds_issues (rds_logging f))) ]);
      ("iam_logging",
       dict [ ("credential_reports_enabled",
               PBool (credential_reports_enabled (iam_logging f)));
              ("access_analyzer_enabled",
               PBool (access_analyzer_enabled (iam_logging f)));
              ("issues", py_issues (iam_issues (iam_logging f))) ]);
      ("timestamp", PStr (timestamp f));
      ("total_issues", PInt (total_issues f)) ].

(** ** Reading the parsed dictionaries back

    What the consumers of a parsed findings file read: [d[k]] on
    dictionaries, and the values under the keys of the data model. *)

Fixpoint py_lookup (d : list (pykey * pyobj)) (k : string) : option pyobj :=
  match d with
  | [] => None
  | (KStr k', v) :: rest => if String.eqb k k' then Some v else py_lookup rest k
  | (KInt _, _) :: rest => py_lookup rest k
  end.

(** [o[k]] *)
Definition item (o : pyobj) (k : string) : result pyobj :=
  match o with
  | PDict d =>
      match py_lookup d k with
      | Some v => Ok v
      | None => Raise (mk_exn KeyError ("'" +++ k +++ "'"))
      end
  | _ => Raise (mk_exn TypeError "object is not subscriptable")
  end.

Definition type_error {A} (expected : string) : result A :=
  Raise (mk_exn TypeError ("expected " +++ expected)).

Definition as_bool (o : pyobj) : result bool :=
  match o with PBool b => Ok b | _ => type_error "bool" end.

Definition as_int (o : pyobj) : result Z :=
  match o with PInt n => Ok n | _ => type_error "int" end.

Definition as_str (o : pyobj) : result string :=
  match o with PStr s => Ok s | _ => type_error "str" end.

Definition as_option_str (o : pyobj) : result (option string) :=
  match o with
  | PNone => Ok None
  | PStr s => Ok (Some s)
  | _ => type_error "str or None"
  end.

Definition rbind {A B} (r : result A) (k : A -> result B) : result B :=
  match r with Ok a => k a | Raise e => Raise e end.

Notation "x <-- r ;; k" := (rbind r (fun x => k))
  (at level 61, r at next level, right associativity).

Fixpoint traverse {A B} (f : A -> result B) (l : list A) : result (list B) :=
  match l with
  | [] => Ok []
  | x :: rest => y <-- f x ;; ys <-- traverse f rest ;; Ok (y :: ys)
  end.

Definition as_list {A} (f : pyobj -> result A) (o : pyobj) : result (list A) :=
  match o with PList l => traverse f l | _ => type_error "list" end.

(** [o[k]] read at the type [f] expects. *)
Definition field {A} (f : pyobj -> result A) (o : pyobj) (k : string)
  : result A :=
  v <-- item o k ;; f v.

Definition read_issue (o : pyobj) : result Issue :=
  sev <-- field as_str o "severity" ;;
  desc <-- field as_str o "description" ;;
  ref <-- field as_str o "pci_reference" ;;
  rec <-- field as_str o "recommendation" ;;
  Ok (mk_issue sev desc ref rec).

Definition read_cloudtrail (o : pyobj) : result CloudTrailFindings :=
  a <-- field as_bool o "enabled" ;;
  b <-- field as_bool o "multi_region" ;;
  c <-- field as_bool o "log_file_validation" ;;
  d <-- field as_option_str o "s3_bucket" ;;
  i <-- field (as_list read_issue) o "issues" ;;
  Ok (mk_cloudtrail a b c d i).

Definition read_s3 (o : pyobj) : result S3Findings :=
  a <-- field as_int o "buckets_analyzed" ;;
  b <-- field as_int o "buckets_with_logging" ;;
  c <-- field (as_list as_str) o "buckets_without_logging" ;;
  i <-- field (as_list read_issue) o "issues" ;;
  Ok (mk_s3 a b c i).

Definition read_cloudwatch (o : pyobj) : result CloudWatchFindings :=
  a <-- field as_int o "log_groups" ;;
  b <-- field as_int o "log_groups_with_retention" ;;
  c <-- field (as_list as_str) o "log_groups_without_retention" ;;
  i <-- field (as_list read_issue) o "issues" ;;
  Ok (mk_cloudwatch a b c i).

Definition read_rds (o : pyobj) : result RdsFindings :=
  a <-- field as_int o "instances" ;;
  b <-- field as_int o "instances_with_logging" ;;
  c <-- field (as_list as_str) o "instances_without_logging" ;;
  i <-- field (as_list read_issue) o "issues" ;;
  Ok (mk_rds a b c i).

Definition read_iam (o : pyobj) : result IamFindings :=
  a <-- field as_bool o "credential_reports_enabled" ;;
  b <-- field as_bool o "access_analyzer_enabled" ;;
  i <-- field (as_list read_issue) o "issues" ;;
  Ok (mk_iam a b i).

Definition of_py (o : pyobj) : result FindingsReport :=
  a <-- field read_cloudtrail o "cloudtrail" ;;
  b <-- field read_s3 o "s3_logging" ;;
  c <-- field read_cloudwatch o "cloudwatch_logs" ;;
  d <-- field read_rds o "rds_logging" ;;
  e <-- field read_iam o "iam_logging" ;;
  t <-- field as_str o "timestamp" ;;
  n <-- field as_int o "total_issues" ;;
  Ok (mk_findings a b c d e t n).

(** Writing the findings file and reading it back. *)
Definition round_trip (f : FindingsReport) : result FindingsReport :=
  of_py (loads (dumps (to_py f))).

(** ** The files of the complete workflow

    [aws_log_review.py --output json] prints the results as one document;
    [run_complete_analysis.py] parses it, takes the two entries apart and
    dumps each to its own file; [report_generator.py] loads both files. *)

Definition py_recommendation (r : AwsLogReview.Recommendation) : pyobj :=
  dict [ ("priority", PStr (AwsLogReview.priority r));
         ("category", PStr (AwsLogReview.category r));
         ("title", PStr (AwsLogReview.title r));
         ("description", PStr (AwsLogReview.rec_description r));
         ("pci_reference", PStr (AwsLogReview.rec_pci_reference r));
         ("script", PStr (AwsLogReview.script r));
         ("estimated_cost", PStr (AwsLogReview.estimated_cost r)) ].

Definition results_to_py (results : AwsLogReview.Results) : pyobj :=
  dict [ ("findings", to_py (AwsLogReview.findings results));
         ("recommendations",
          PList (map py_recommendation (AwsLogReview.recommendations results))) ].

(** [json.dumps(results, indent=2, default=str)] *)
Definition analysis_output (results : AwsLogReview.Results) : json :=
  dumps (results_to_py results).

(** [o.get(k, default)] *)
Definition py_get (o : pyobj) (k : string) (default : pyobj) : result pyobj :=
  match o with
  | PDict d =>
      match py_lookup d k with
      | Some v => Ok v
      | None => Ok default
      end
  | _ => Raise (mk_exn AttributeError "object has no attribute 'get'")
  end.

(** The contents of [findings.json] and [recommendations.json]. *)
Definition save_analysis (output : json) : result (json * json) :=
  let analysis_data := loads output in
  findings <-- py_get analysis_data "findings" (PDict []) ;;
  recommendations <-- py_get analysis_data "recommendations" (PList []) ;;
  Ok (dumps findings, dumps recommendations).

Definition read_recommendation (o : pyobj)
  : result AwsLogReview.Recommendation :=
  a <-- field as_str o "priority" ;;
  b <-- field as_str o "category" ;;
  c <-- field as_str o "title" ;;
  d <-- field as_str o "description" ;;
  e <-- field as_str o "pci_reference" ;;
  f <-- field as_str o "script" ;;
  g <-- field as_str o "estimated_cost" ;;
  Ok (AwsLogReview.mk_recommendation a b c d e f g).

(** What [report_generator.py] has in hand after loading the two files. *)
Definition load_report_inputs (saved : json * json)
  : result (FindingsReport * list AwsLogReview.Recommendation) :=
  findings <-- of_py (loads (fst saved)) ;;
  recommendations <-- as_list read_recommendation (loads (snd saved)) ;;
  Ok (findings, recommendations).

End Json.

(* ================================================================== *)
(** * [report_generator.py]: the report files *)
(* ================================================================== *)

Module ReportFiles.

Import Json.

(** What a report file holds: text, or a JSON document. *)
Inductive content :=
| Text (s : string)
| Document (j : json).

(** The files written so far (path and content, oldest first) and the
    lines printed so far. *)
Definition files := list (string * content).
Definition state := (files * list string)%type.

Definition print (line : string) : M state unit :=
  fun s => (Ok tt, (fst s, snd s ++ [line])).

Record Exit := mk_exit { exit_code : Z }.

Section Generator.

(** The collaborators of the report generator: the content of the
    template file when it exists, the Jinja renderer, the YAML dumper, the
    clock in its two formats, and the failures of the file system on
    creating or writing a path. *)
Variable template_file : option string.
Variable render : string -> list (string * pyobj) -> string.
Variable yaml_dump : pyobj -> string.
Variable now : string.
Variable now_text : string.
Variable io_error : string -> option exn.

(** [_load_template], for the default [templates/report_template.html];
    the error is a [FileNotFoundError], a subclass of [OSError]. *)
Definition _load_template : result string :=
  match template_file with
  | Some text => Ok text
  | None =>
      Raise (mk_exn OSError
               "Template file templates/report_template.html not found")
  end.

(** [with open(path, 'w') as f: ...] *)
Definition write (path : string) (c : content) : M state unit :=
  fun s => match io_error path with
           | Some e => (Raise e, s)
           | None => (Ok tt, (fst s ++ [(path, c)], snd s))
           end.

(** [os.makedirs(path, exist_ok=True)] *)
Definition makedirs (path : string) : M state unit :=
  fun s => match io_error path with
           | Some e => (Raise e, s)
           | None => (Ok tt, s)
           end.

(** The loop that fills [all_issues] in [generate_html_report]. *)
Fixpoint html_issues (entries : list (string * entry))
         (all_issues : list pyobj) : result (list pyobj) :=
  match entries with
  | [] => Ok all_issues
  | (category, category_findings) :: rest =>
      if negb (str_in category ["timestamp"; "total_issues"]) then
        match get_issues category_findings with
        | Raise e => Raise e
        | Ok issues =>
            html_issues rest
              (fold_left
                 (fun acc issue =>
                    acc ++ [dict [ ("category",
                                    PStr (replace "_" " " (upper category)));
                                   ("severity", PStr (severity issue));
                                   ("description", PStr (description issue));
                                   ("pci_reference",
                                    PStr (pci_reference issue)) ]])
                 issues all_issues)
        end
      else html_issues rest all_issues
  end.

Definition script_file (name text : string) : pyobj :=
  dict [ ("name", PStr name); ("description", PStr text) ].

Definition script_files : list pyobj :=
  [ script_file "setup_cloudtrail.sh"
                "Configure CloudTrail with multi-region logging";
    script_file "setup_s3_logging.sh"
                "Enable S3 access logging for all buckets";
    script_file "setup_cloudwatch_retention.sh"
                "Set retention policies for CloudWatch Logs";
    script_file "setup_rds_logging.sh" "Enable RDS CloudWatch logging";
    script_file "setup_iam_monitoring.sh"
                "Configure IAM monitoring and credential reports";
    script_file "setup_monitoring_alerts.sh"
                "Set up CloudWatch alarms and SNS notifications";
    script_file "setup_cost_optimization.sh"
                "Configure cost optimization and budgets";
    script_file "run_all_remediation.sh"
                "Master script to run all remediations" ].

(** [get_pci_requirements()] as the dictionary it is. *)
Definition py_requirements : pyobj :=
  dict (map (fun kv => (fst kv, PStr (snd kv)))
            ReportGenerator.get_pci_requirements).

Definition py_recommendations (l : list AwsLogReview.Recommendation) : pyobj :=
  PList (map py_recommendation l).

(** [generate_html_report]; [template] is [self.template]. *)
Definition generate_html_report (template : string)
           (findings : FindingsReport)
           (recommendations : list AwsLogReview.Recommendation)
           (output_file : string) (generate_scripts : bool)
  : M state string :=
  (compliance_score <-
     lift (ReportGenerator.calculate_compliance_score findings) ;;
   estimated_cost <- lift (ReportGenerator.estimate_monthly_cost findings) ;;
   let total_recommendations := AwsLogReview.len recommendations in
   let total_issues := total_issues findings in
   let pci_requirements := py_requirements in
   non_compliant_requirements <-
     lift (ReportGenerator.get_non_compliant_requirements findings) ;;
   all_issues <- lift (html_issues (items findings) []) ;;
   let generated_scripts := if generate_scripts then script_files else [] in
   cloudtrail <- lift (py_get (to_py findings) "cloudtrail" (PDict [])) ;;
   s3_logging <- lift (py_get (to_py findings) "s3_logging" (PDict [])) ;;
   cloudwatch_logs <-
     lift (py_get (to_py findings) "cloudwatch_logs" (PDict [])) ;;
   rds_logging <- lift (py_get (to_py findings) "rds_logging" (PDict [])) ;;
   let html_content :=
     render template
       [ ("timestamp", PStr now_text);
         ("total_issues", PInt total_issues);
         ("total_recommendations", PInt total_recommendations);
         ("compliance_score", PInt compliance_score);
         ("estimated_cost", PStr estimated_cost);
         ("cloudtrail", cloudtrail);
         ("s3_logging", s3_logging);
         ("cloudwatch_logs", cloudwatch_logs);
         ("rds_logging", rds_logging);
         ("all_issues", PList all_issues);
         ("recommendations", py_recommendations recommendations);
         ("pci_requirements", pci_requirements);
         ("non_compliant_requirements",
          py_str_list non_compliant_requirements);
         ("generate_scripts", PBool generate_scripts);
         ("generated_scripts", PList generated_scripts) ] in
   write output_file (Text html_content) ;;;
   ret output_file)%py.

(** The dictionary [report_data] of the JSON and YAML reports. *)
Definition report_data (findings : FindingsReport)
           (recommendations : list AwsLogReview.Recommendation)
  : result pyobj :=
  compliance_score <-- ReportGenerator.calculate_compliance_score findings ;;
  estimated_monthly_cost <-- ReportGenerator.estimate_monthly_cost findings ;;
  non_compliant_requirements <--
    ReportGenerator.get_non_compliant_requirements findings ;;
  Ok (dict
        [ ("metadata",
           dict [ ("generated_at", PStr now);
                  ("tool_version", PStr "1.0.0");
                  ("pci_dss_version", PStr "v4.0.1") ]);
          ("summary",
           dict [ ("total_issues", PInt (total_issues findings));
                  ("total_recommendations",
                   PInt (AwsLogReview.len recommendations));
                  ("compliance_score", PInt compliance_score);
                  ("estimated_monthly_cost", PStr estimated_monthly_cost) ]);
          ("findings", to_py findings);
          ("recommendations", py_recommendations recommendations);
          ("pci_compliance",
           dict [ ("requirements", py_requirements);
                  ("non_compliant_requirements",
                   py_str_list non_compliant_requirements) ]) ]).

Definition generate_json_report (findings : FindingsReport)
           (recommendations : list AwsLogReview.Recommendation)
           (output_file : string) : M state string :=
  (data <- lift (report_data findings recommendations) ;;
   write output_file (Document (dumps data)) ;;;
   ret output_file)%py.

Definition generate_yaml_report (findings : FindingsReport)
           (recommendations : list AwsLogReview.Recommendation)
           (output_file : string) : M state string :=
  (data <- lift (report_data findings recommendations) ;;
   write output_file (Text (yaml_dump data)) ;;;
   ret output_file)%py.

(** [if output_format in [...]: generated_file = gen;
    generated_files.append(generated_file); print(...)] *)
Definition report_step (cond : bool) (gen : M state string) (label : string)
           (generated_files : list string) : M state (list string) :=
  if cond then
    (generated_file <- gen ;;
     print (label +++ " report generated: " +++ generated_file) ;;;
     ret (generated_files ++ [generated_file]))%py
  else ret generated_files.

(** [main]: [loaded] is the outcome of opening and parsing the two input
    files. *)
Definition main
           (loaded : result (FindingsReport * list AwsLogReview.Recommendation))
           (output_format output_dir : string) (generate_scripts : bool)
  : M state Exit :=
  try_except
    (inputs <- lift loaded ;;
     let findings := fst inputs in
     let recommendations := snd inputs in
     makedirs output_dir ;;;
     generator <- lift _load_template ;;
     let generated_files := [] in
     generated_files <-
       report_step (str_in output_format ["html"; "all"])
                   (generate_html_report
                      generator findings recommendations
                      (path_join output_dir "aws_log_review_report.html")
                      generate_scripts)
                   "HTML" generated_files ;;
     generated_files <-
       report_step (str_in output_format ["json"; "all"])
                   (generate_json_report
                      findings recommendations
                      (path_join output_dir "aws_log_review_report.json"))
                   "JSON" generated_files ;;
     generated_files <-
       report_step (str_in output_format ["yaml"; "all"])
                   (generate_yaml_report
                      findings recommendations
                      (path_join output_dir "aws_log_review_report.yaml"))
                   "YAML" generated_files ;;
     print (nl +++ "Generated " +++ str_of_nat (List.length generated_files)
            +++ " report(s) in " +++ output_dir +++ "/") ;;;
     (if String.eqb output_format "html" || String.eqb output_format "all"
      then print (nl +++ "To view the HTML report, open: "
                  +++ path_join output_dir "aws_log_review_report.html")
      else ret tt) ;;;
     ret (mk_exit 0))%py
    (fun _ => true)
    (fun e => print ("Error: " +++ exn_str e) ;;; ret (mk_exit 1))%py.

End Generator.

End ReportFiles.

(* ================================================================== *)
(** * [run_complete_analysis.py] *)
(* ================================================================== *)

(** The workflow runs the other command lines as processes.  Its model
    keeps what decides its course: the commands run, the directories made
    and the files written; what it prints on the console is left out. *)
Module Workflow.

Import Json.

(** How a process ends: with exit status 0 and what it printed, with
    another exit status ([CalledProcessError] under [check=True]), or not
    started at all (an [OSError], such as a program that is not
    installed). *)
Inductive completed :=
| Exit0 (stdout : string)
| ExitNonZero
| NotStarted (e : exn).

Record state := mk_state {
  ran : list string;
  dirs : list string;
  saved : list (string * json)
}.

(** What the workflow itself does on the file system. *)
Inductive operation :=
| MakeDir
| OpenWrite
| ListDir.

(** How [main] ends when no exception escapes it. *)
Inductive finish :=
| Finished
| SysExit (code : Z).

Section Run.

(** The environment: which modules import, the outcome of
    [aws sts get-caller-identity] and of each shell command, the JSON
    parser (no document on a [JSONDecodeError]), whether a path exists
    after what has been done so far (the commands run change the file
    system too), and the failures of the file system on an operation of
    the workflow. *)
Variable importable : string -> bool.
Variable caller_identity : completed.
Variable shell : string -> completed.
Variable parse : string -> option json.
Variable path_exists : state -> string -> bool.
Variable io_error : operation -> string -> option exn.

(** [run_command]: the standard output, or [None] when the command ends
    with a non-zero status. *)
Definition run_command (command : string) : M state (option string) :=
  fun st =>
    let st' := mk_state (ran st ++ [command]) (dirs st) (saved st) in
    match shell command with
    | Exit0 stdout => (Ok (Some stdout), st')
    | ExitNonZero => (Ok None, st')
    | NotStarted e => (Raise e, st')
    end.

(** [Path(directory).mkdir(exist_ok=True)] *)
Definition mkdir (directory : string) : M state unit :=
  fun st =>
    match io_error MakeDir directory with
    | Some e => (Raise e, st)
    | None => (Ok tt, mk_state (ran st) (dirs st ++ [directory]) (saved st))
    end.

(** [with open(path, 'w') as f: json.dump(document, f, ...)] *)
Definition dump (path : string) (document : json) : M state unit :=
  fun st =>
    match io_error OpenWrite path with
    | Some e => (Raise e, st)
    | None =>
        (Ok tt, mk_state (ran st) (dirs st) (saved st ++ [(path, document)]))
    end.

(** [os.path.exists(path)] *)
Definition exists_now (path : string) : M state bool :=
  fun st => (Ok (path_exists st path), st).

(** [os.listdir(path)], of which only the names are printed. *)
Definition listdir (path : string) : M state unit :=
  fun st =>
    match io_error ListDir path with
    | Some e => (Raise e, st)
    | None => (Ok tt, st)
    end.

Definition create_directories : M state unit :=
  for_each ["reports"; "scripts"; "config"; "templates"] mkdir.

Definition required_packages : list string :=
  ["boto3"; "click"; "jinja2"; "pyyaml"; "rich"; "tabulate"].

(** [check_dependencies]: every package is tried with [__import__]; the
    check passes when none is missing. *)
Definition check_dependencies : bool :=
  let missing_packages :=
    filter (fun package => negb (importable package)) required_packages in
  match missing_packages with
  | [] => true
  | _ => false
  end.

(** [check_aws_credentials]: a non-zero status and an unparsable answer
    are caught; a program that cannot be started, or an answer that is not
    a JSON object, is not. *)
Definition check_aws_credentials : result bool :=
  match caller_identity with
  | Exit0 stdout =>
      match parse stdout with
      | None => Ok false
      | Some answer =>
          let identity := loads answer in
          _ <-- py_get identity "Account" (PStr "Unknown") ;;
          _ <-- py_get identity "Arn" (PStr "Unknown") ;;
          Ok true
      end
  | ExitNonZero => Ok false
  | NotStarted e => Raise e
  end.

(** Step 1: the analysis, or the check that its files are there.  The
    value returned tells whether the run goes on ([false] stands for
    [sys.exit(1)]). *)
Definition analysis (profile region findings_file recommendations_file : string)
           (skip_analysis : bool) : M state bool :=
  if negb skip_analysis then
    (let analysis_command :=
       "python aws_log_review.py --profile " +++ profile +++ " --region "
       +++ region +++ " --output json" in
     analysis_output <- run_command analysis_command ;;
     match analysis_output with
     | None => ret false
     | Some text =>
         match parse text with
         | None => ret false
         | Some output =>
             documents <- lift (save_analysis output) ;;
             dump findings_file (fst documents) ;;;
             dump recommendations_file (snd documents) ;;;
             ret true
         end
     end)%py
  else
    (found <- exists_now findings_file ;;
     found' <- exists_now recommendations_file ;;
     ret (negb (negb found || negb found')))%py.

Definition report_command (findings_file recommendations_file format
                           reports_dir : string) : string :=
  "python report_generator.py --findings-file " +++ findings_file
  +++ " --recommendations-file " +++ recommendations_file
  +++ " --output-format " +++ format +++ " --output-dir " +++ reports_dir.

(** Step 2: the three reports; what the commands return is not looked
    at. *)
Definition reports (findings_file recommendations_file output_dir : string)
           (generate_scripts skip_reports : bool) : M state unit :=
  if negb skip_reports then
    (let reports_dir := path_join output_dir "reports" in
     mkdir reports_dir ;;;
     let html_command :=
       report_command findings_file recommendations_file "html" reports_dir in
     let html_command :=
       if generate_scripts then html_command +++ " --generate-scripts"
       else html_command in
     run_command html_command ;;;
     run_command (report_command findings_file recommendations_file "json"
                                 reports_dir) ;;;
     run_command (report_command findings_file recommendations_file "yaml"
                                 reports_dir) ;;;
     ret tt)%py
  else ret tt.

(** Step 3: the remediation scripts, then [chmod]. *)
Definition scripts (findings_file output_dir : string)
           (generate_scripts skip_scripts : bool) : M state unit :=
  if negb skip_scripts && generate_scripts then
    (let scripts_dir := path_join output_dir "scripts" in
     mkdir scripts_dir ;;;
     run_command
       ("python scripts/generate_remediation_scripts.py --findings-file "
        +++ findings_file +++ " --output-dir " +++ scripts_dir) ;;;
     found <- exists_now scripts_dir ;;
     if found
     then run_command ("chmod +x " +++ scripts_dir +++ "/*.sh") ;;; ret tt
     else ret tt)%py
  else ret tt.

(** Step 4: the summary lists the two directories when they exist. *)
Definition summary (output_dir : string) : M state unit :=
  (let reports_dir := path_join output_dir "reports" in
   found <- exists_now reports_dir ;;
   (if found then listdir reports_dir else ret tt) ;;;
   let scripts_dir := path_join output_dir "scripts" in
   found <- exists_now scripts_dir ;;
   if found then listdir scripts_dir else ret tt)%py.

Definition main (profile region output_dir : string)
           (generate_scripts skip_analysis skip_reports skip_scripts : bool)
  : M state finish :=
  (mkdir output_dir ;;;
   if negb check_dependencies then ret (SysExit 1)
   else
     credentials <- lift check_aws_credentials ;;
     if negb credentials then ret (SysExit 1)
     else
       create_directories ;;;
       let findings_file := path_join output_dir "findings.json" in
       let recommendations_file := path_join output_dir "recommendations.json" in
       proceed <- analysis profile region findings_file recommendations_file
                           skip_analysis ;;
       if negb proceed then ret (SysExit 1)
       else
         reports findings_file recommendations_file output_dir
                 generate_scripts skip_reports ;;;
         scripts findings_file output_dir generate_scripts skip_scripts ;;;
         summary output_dir ;;;
         ret Finished)%py.

End Run.

End Workflow.

(* ================================================================== *)
(** * Notions used by the statements *)
(* ================================================================== *)

(** [b <= m * 2^e], without leaving the integers: how the magnitude of a
    float with mantissa [m] and exponent [e] is compared with an integer. *)
Definition dyadic_ge (m e b : Z) : Prop :=
  b * 2 ^ Z.max 0 (- e) <= m * 2 ^ Z.max 0 e.

(** The weight of one issue in the score: HIGH 3, MEDIUM 2, LOW (and any
    other text) 1. *)
Definition severity_weight (s : string) : Z :=
  if String.eqb s "HIGH" then 3
  else if String.eqb s "MEDIUM" then 2
  else 1.

Definition weight_of (issues : list Issue) : Z :=
  fold_right (fun i acc => severity_weight (severity i) + acc) 0 issues.

(** [W]: the sum of the weights over the issue lists of the five services. *)
Definition total_weight (f : FindingsReport) : Z :=
  weight_of (service_issues f).

(** The values the score formula takes in binary64: [100 - 2 W] floored at
    0, except at weight 28, where [28 / 50 * 100] rounds to
    [56.00000000000001] and the truncation gives 43. *)
Definition score_table (W : Z) : Z :=
  if W =? 28 then 43 else Z.max 0 (100 - 2 * W).

(** The same formula on the kernel's primitive binary64 floats, for
    weights below [2^53] (which convert exactly): a second evaluation to
    set beside the one on [SpecFloat]. *)
Definition primitive_score (W : Z) : result Z :=
  let ratio :=
    PrimFloat.div (PrimFloat.of_uint63 (Uint63.of_Z W))
                  (PrimFloat.of_uint63 50) in
  let v :=
    PrimFloat.sub (PrimFloat.of_uint63 100)
                  (PrimFloat.mul ratio (PrimFloat.of_uint63 100)) in
  if PrimFloat.ltb (PrimFloat.of_uint63 0) v
  then int_of (Float (Prim2SF v)) else Ok 0.

Inductive service := CloudTrail | S3 | CloudWatch | Rds | Iam.

Definition issues_of (sv : service) (f : FindingsReport) : list Issue :=
  match sv with
  | CloudTrail => cloudtrail_issues (cloudtrail f)
  | S3 => s3_issues (s3_logging f)
  | CloudWatch => cloudwatch_issues (cloudwatch_logs f)
  | Rds => rds_issues (rds_logging f)
  | Iam => iam_issues (iam_logging f)
  end.

Definition insert_at {A} (n : nat) (x : A) (l : list A) : list A :=
  firstn n l ++ x :: skipn n l.

(** [f] with one more issue in the list of service [sv], at position [n]
    (at the end when [n] is past it); nothing else changes. *)
Definition add_issue (sv : service) (n : nat) (i : Issue) (f : FindingsReport)
  : FindingsReport :=
  let ct := cloudtrail f in
  let s3 := s3_logging f in
  let cw := cloudwatch_logs f in
  let rds := rds_logging f in
  let iam := iam_logging f in
  match sv with
  | CloudTrail =>
      mk_findings
        (mk_cloudtrail (enabled ct) (multi_region ct) (log_file_validation ct)
                       (s3_bucket ct) (insert_at n i (cloudtrail_issues ct)))
        s3 cw rds iam (timestamp f) (total_issues f)
  | S3 =>
      mk_findings ct
        (mk_s3 (buckets_analyzed s3) (buckets_with_logging s3)
               (buckets_without_logging s3) (insert_at n i (s3_issues s3)))
        cw rds iam (timestamp f) (total_issues f)
  | CloudWatch =>
      mk_findings ct s3
        (mk_cloudwatch (log_groups cw) (log_groups_with_retention cw)
                       (log_groups_without_retention cw)
                       (insert_at n i (cloudwatch_issues cw)))
        rds iam (timestamp f) (total_issues f)
  | Rds =>
      mk_findings ct s3 cw
        (mk_rds (instances rds) (instances_with_logging rds)
                (instances_without_logging rds) (insert_at n i (rds_issues rds)))
        iam (timestamp f) (total_issues f)
  | Iam =>
      mk_findings ct s3 cw rds
        (mk_iam (credential_reports_enabled iam) (access_analyzer_enabled iam)
                (insert_at n i (iam_issues iam)))
        (timestamp f) (total_issues f)
  end.

(** The five checks of the recommendation deriver in their fixed order,
    each with the recommendation it stands for and its condition on the
    findings. *)
Definition recommendation_checks (f : FindingsReport)
  : list (AwsLogReview.Recommendation * bool) :=
  [ (AwsLogReview.enable_cloudtrail_recommendation,
     negb (enabled (cloudtrail f)));
    (AwsLogReview.multi_region_recommendation,
     negb (multi_region (cloudtrail f)));
    (AwsLogReview.s3_recommendation (buckets_without_logging (s3_logging f)),
     negb (Nat.eqb (List.length (buckets_without_logging (s3_logging f))) 0));
    (AwsLogReview.cloudwatch_recommendation
       (log_groups_without_retention (cloudwatch_logs f)),
     negb (Nat.eqb (List.length
                      (log_groups_without_retention (cloudwatch_logs f))) 0));
    (AwsLogReview.rds_recommendation
       (instances_without_logging (rds_logging f)),
     negb (Nat.eqb (List.length (instances_without_logging (rds_logging f))) 0)) ].

(** The outcome the end-to-end example is said to have: 12 issues, five
    recommendations, one in each of the categories CloudTrail, S3,
    CloudWatch, RDS and IAM, and a compliance table whose Non-Compliant
    rows are exactly the three clauses named. *)
Definition claimed_sample_outcome (results : AwsLogReview.Results)
           (report : AwsLogReview.Report) : Prop :=
  AwsLogReview.shown_total_issues report = 12
  /\ List.length (AwsLogReview.recommendations results) = 5%nat
  /\ (forall c, In c ["CloudTrail"; "S3"; "CloudWatch"; "RDS"; "IAM"] ->
        In c (map AwsLogReview.category (AwsLogReview.recommendations results)))
  /\ (forall req,
        In (req, AwsLogReview.NonCompliant)
           (map (fun row => (AwsLogReview.requirement row,
                             AwsLogReview.status row))
                (AwsLogReview.shown_compliance report))
        <-> In req ["10.2.1-10.2.7"; "10.2.1"; "10.5.1.2"]).

(** The row of the issue table made from an issue of a category. *)
Definition report_issue (shown_category : string) (i : Issue)
  : AwsLogReview.ReportIssue :=
  AwsLogReview.mk_report_issue shown_category (severity i) (description i)
                               (pci_reference i).

(** Some issue of the report carries exactly the reference [req]. *)
Definition referenced (f : FindingsReport) (req : string) : Prop :=
  exists i, In i (service_issues f) /\ pci_reference i = req.

(** Reading a generated script: an invocation is a line that starts with
    the command; the bucket it is given is read off the line
    [    --bucket "NAME" \]. *)
Definition is_invocation (line : string) : bool :=
  startswith "aws s3api put-bucket-logging" line.

Definition count_invocations (script : string) : nat :=
  List.length (filter is_invocation (split_lines script)).

Fixpoint strip_prefix (p s : string) : option string :=
  match p, s with
  | EmptyString, _ => Some s
  | String a p', String b s' =>
      if Ascii.eqb a b then strip_prefix p' s' else None
  | String _ _, EmptyString => None
  end.

Fixpoint strip_suffix (suffix s : string) : option string :=
  if String.eqb s suffix then Some EmptyString
  else match s with
       | EmptyString => None
       | String c rest => option_map (String c) (strip_suffix suffix rest)
       end.

Definition bucket_argument (line : string) : option string :=
  match strip_prefix ("    --bucket " +++ dq) line with
  | Some rest => strip_suffix (dq +++ " " +++ bs) rest
  | None => None
  end.

Definition bucket_arguments (script : string) : list string :=
  flat_map (fun line => match bucket_argument line with
                        | Some b => [b]
                        | None => []
                        end)
           (split_lines script).

(** A computation of an analyzer only ever extends the trace. *)
Definition grows {F A} (m : M (F * AwsLogReview.trace) A) : Prop :=
  forall s, exists tr, snd (snd (m s)) = snd s ++ tr.



(** An account whose every probe is refused, except that one access
    analyzer is listed. *)
(** A text of the error the S3 exceptions object raises on a name it does
    not know. *)
Definition s3_lookup_text : string :=
  "<botocore.errorfactory.S3Exceptions object at 0x7f3a5c0d2e50> object has "
  +++ "no attribute NoSuchBucketLoggingConfiguration. Valid exceptions are: "
  +++ "BucketAlreadyExists, BucketAlreadyOwnedByYou, InvalidObjectState, "
  +++ "NoSuchBucket, NoSuchKey, NoSuchUpload".

Definition credential_report_refused : AwsLogReview.Aws :=
  let e := mk_exn ClientError "AccessDenied" in
  AwsLogReview.mk_aws
    (Raise e) (fun _ => Raise e) (fun _ => Raise e)
    (Raise e) (fun _ => Raise e) s3_lookup_text
    (Raise e) (Raise e)
    (Raise e) (Ok ["analyzer"])
    "2025-01-01T00:00:00".

(** The per-bucket probe answered. *)
Definition bucket_probe_answers (aws : AwsLogReview.Aws) (b : string) : bool :=
  match AwsLogReview.get_bucket_logging aws b with
  | Ok _ => true
  | Raise _ => false
  end.

(** The answer of the probe holds no [LoggingEnabled]: access logging is
    not enabled on the bucket. *)
Definition bucket_unlogged (aws : AwsLogReview.Aws) (b : string) : bool :=
  match AwsLogReview.get_bucket_logging aws b with
  | Ok false => true
  | _ => false
  end.

(** The error that leaves the S3 loop when a probe raises: the one of the
    class lookup in the [except] clause. *)
Definition s3_lookup_error (aws : AwsLogReview.Aws) : exn :=
  mk_exn AttributeError (AwsLogReview.s3_exceptions_text aws).






(** An account with nothing enabled: no trail, three buckets of which two
    are unlogged, two log groups of which one has no retention, two
    database instances of which one exports no logs. *)
Definition nothing_enabled : AwsLogReview.Aws :=
  AwsLogReview.mk_aws
    (Ok [])
    (fun _ => Raise (mk_exn ClientError "TrailNotFoundException"))
    (fun _ => Raise (mk_exn ClientError "TrailNotFoundException"))
    (Ok ["logs"; "data"; "web"])
    (fun b => Ok (String.eqb b "logs"))
    s3_lookup_text
    (Ok [ AwsLogReview.mk_log_group "/aws/lambda/app" None;
          AwsLogReview.mk_log_group "/aws/rds/db" (Some 365) ])
    (Ok [ AwsLogReview.mk_db_instance "db-1" [] [];
          AwsLogReview.mk_db_instance "db-2" ["error"] [] ])
    (Raise (mk_exn ClientError "AccessDenied"))
    (Ok [])
    "2025-01-01T00:00:00".

(** The error of reading [self.region] on a generator. *)
Definition no_region : exn :=
  mk_exn AttributeError
         "'RemediationScriptGenerator' object has no attribute 'region'".

(** The objects JSON holds as they are: [None], [bool], [int], [str], and
    lists and string-keyed dictionaries of such.  A tuple comes back as a
    list, an [int] key as a string, any other object as its text. *)
Fixpoint json_native (o : Json.pyobj) : bool :=
  match o with
  | Json.PNone | Json.PBool _ | Json.PInt _ | Json.PStr _ => true
  | Json.PList l => forallb json_native l
  | Json.PDict d =>
      forallb (fun kv => match kv with
                         | (Json.KStr _, v) => json_native v
                         | (Json.KInt _, _) => false
                         end) d
  | Json.PTuple _ | Json.POther _ => false
  end.

(** The answer of the probe holds [LoggingEnabled]. *)
Definition bucket_logged (aws : AwsLogReview.Aws) (b : string) : bool :=
  match AwsLogReview.get_bucket_logging aws b with
  | Ok true => true
  | _ => false
  end.

(** The issue a listed trail leaves, if any: HIGH when it is not logging,
    MEDIUM when it logs without log file validation. *)
Definition trail_issues (info : string -> AwsLogReview.TrailInfo)
           (logging : string -> bool) (name : string) : list Issue :=
  if logging name then
    if AwsLogReview.LogFileValidationEnabled (info name) then []
    else [AwsLogReview.no_validation_issue name]
  else [AwsLogReview.not_logging_issue name].

(** An account with two trails, of which the first is logging to "audit"
    with validation, in every region, and the second is stopped. *)
Definition two_trails : AwsLogReview.Aws :=
  AwsLogReview.mk_aws
    (Ok ["main"; "old"])
    (fun n => Ok (if String.eqb n "main"
                  then AwsLogReview.mk_trail_info "audit" true true
                  else AwsLogReview.mk_trail_info "legacy" false false))
    (fun n => Ok (String.eqb n "main"))
    (Ok ["logs"; "data"; "web"])
    (fun b => if String.eqb b "logs" then Ok true
              else if String.eqb b "data" then Ok false
              else Raise (mk_exn ClientError "AccessDenied"))
    s3_lookup_text
    (Ok []) (Ok [])
    (Ok tt) (Ok ["analyzer"])
    "2025-01-01T00:00:00".

(** Reading a generated script: the lines that start with a command, and
    the value a line [    FLAG "VALUE" \] gives to [FLAG]. *)
Definition lines_starting (command script : string) : list string :=
  filter (startswith command) (split_lines script).

Definition quoted_argument (flag line : string) : option string :=
  match strip_prefix ("    " +++ flag +++ " " +++ dq) line with
  | Some rest => strip_suffix (dq +++ " " +++ bs) rest
  | None => None
  end.

Definition argument_of (flag line : string) : list string :=
  match quoted_argument flag line with
  | Some a => [a]
  | None => []
  end.

Definition quoted_arguments (flag script : string) : list string :=
  flat_map (argument_of flag) (split_lines script).

(** The lines of the command for one log group and for one instance. *)
Definition retention_lines (log_group : string) : list string :=
  [ "aws logs put-retention-policy " +++ bs;
    "    --log-group-name " +++ dq +++ log_group +++ dq +++ " " +++ bs;
    "    --retention-in-days 365";
    EmptyString ].

Definition rds_lines (instance : string) : list string :=
  [ "aws rds modify-db-instance " +++ bs;
    "    --db-instance-identifier " +++ dq +++ instance +++ dq +++ " " +++ bs;
    "    --enable-cloudwatch-logs-exports " +++ dq +++ "error,general,slow-query"
      +++ dq +++ " " +++ bs;
    "    --apply-immediately";
    EmptyString ].

(** Two sample reports with the same severities placed differently. *)
Definition one_high_one_medium : FindingsReport :=
  mk_findings
    (mk_cloudtrail false false false None [AwsLogReview.no_trails_issue])
    (mk_s3 1 0 ["data"] [AwsLogReview.s3_unlogged_issue "data"])
    (mk_cloudwatch 0 0 [] []) (mk_rds 0 0 [] []) (mk_iam true true [])
    "2025-01-01T00:00:00" 2.

Definition one_medium_one_high : FindingsReport :=
  mk_findings
    (mk_cloudtrail true true true (Some "audit") [])
    (mk_s3 0 0 [] [])
    (mk_cloudwatch 1 0 ["/aws/lambda/app"]
       [AwsLogReview.no_retention_issue "/aws/lambda/app"])
    (mk_rds 0 0 [] [])
    (mk_iam true true
       [AwsLogReview.iam_error_issue (mk_exn ClientError "AccessDenied")])
    "2025-06-01T00:00:00" 7.

(** The amount of the monthly estimate. *)
Definition monthly_cost (f : FindingsReport) : Z :=
  50 + (if enabled (cloudtrail f) then 0 else 5)
  + 2 * buckets_analyzed (s3_logging f)
  + log_groups (cloudwatch_logs f)
  + 3 * instances (rds_logging f).

(** Only decimal digits. *)
Fixpoint all_digits (s : string) : bool :=
  match s with
  | EmptyString => true
  | String c rest =>
      (Nat.leb 48 (nat_of_ascii c) && Nat.leb (nat_of_ascii c) 57)
      && all_digits rest
  end.

(** The scripts the master script is to run for a report, in order: the
    four conditional ones, then the three that are always run. *)
Definition master_steps (f : FindingsReport) : list string :=
  (if enabled (cloudtrail f) then [] else ["setup_cloudtrail.sh"])
  ++ (if AwsLogReview.truthy (buckets_without_logging (s3_logging f))
      then ["setup_s3_logging.sh"] else [])
  ++ (if AwsLogReview.truthy (log_groups_without_retention (cloudwatch_logs f))
      then ["setup_cloudwatch_retention.sh"] else [])
  ++ (if AwsLogReview.truthy (instances_without_logging (rds_logging f))
      then ["setup_rds_logging.sh"] else [])
  ++ ["setup_iam_monitoring.sh"; "setup_monitoring_alerts.sh";
      "setup_cost_optimization.sh"].

(** A report with CloudTrail in order and no unlogged bucket, one log
    group without retention and one instance without log exports. *)
Definition retention_and_exports_missing : FindingsReport :=
  mk_findings
    (mk_cloudtrail true true true (Some "audit") [])
    (mk_s3 2 2 [] [])
    (mk_cloudwatch 1 0 ["/aws/lambda/app"]
       [AwsLogReview.no_retention_issue "/aws/lambda/app"])
    (mk_rds 1 0 ["db-1"] [AwsLogReview.rds_unlogged_issue "db-1"])
    (mk_iam true true [])
    "2025-01-01T00:00:00" 2.

(** Reading a report document back: its summary and what it embeds. *)
Definition summary_int (doc : Json.json) (k : string) : result Z :=
  Json.rbind (Json.item (Json.loads doc) "summary")
             (fun s => Json.field Json.as_int s k).

Definition embedded_findings (doc : Json.json) : result FindingsReport :=
  Json.field Json.of_py (Json.loads doc) "findings".

Definition embedded_recommendations (doc : Json.json)
  : result (list AwsLogReview.Recommendation) :=
  Json.field (Json.as_list Json.read_recommendation) (Json.loads doc)
             "recommendations".

(** The commands of the workflow for given options, in the order in which
    they are run. *)
Definition analysis_command (profile region : string) : string :=
  "python aws_log_review.py --profile " +++ profile +++ " --region " +++ region
  +++ " --output json".

Definition report_commands (output_dir : string) (generate_scripts : bool)
  : list string :=
  let findings_file := path_join output_dir "findings.json" in
  let recommendations_file := path_join output_dir "recommendations.json" in
  let reports_dir := path_join output_dir "reports" in
  [ Workflow.report_command findings_file recommendations_file "html"
                            reports_dir
    +++ (if generate_scripts then " --generate-scripts" else EmptyString);
    Workflow.report_command findings_file recommendations_file "json"
                            reports_dir;
    Workflow.report_command findings_file recommendations_file "yaml"
                            reports_dir ].

Definition script_commands (output_dir : string) : list string :=
  [ "python scripts/generate_remediation_scripts.py --findings-file "
    +++ path_join output_dir "findings.json" +++ " --output-dir "
    +++ path_join output_dir "scripts";
    "chmod +x " +++ path_join output_dir "scripts" +++ "/*.sh" ].

(** An environment in which everything is installed and the analysis
    prints a document, while every other command fails. *)
Definition only_analysis_succeeds (command : string) : Workflow.completed :=
  if String.eqb command (analysis_command "default" "us-east-1")
  then Workflow.Exit0 "{}"
  else Workflow.ExitNonZero.

(** A parser that knows the empty object only. *)
Definition parse_braces (text : string) : option Json.json :=
  if String.eqb text "{}" then Some (Json.JObject []) else None.


(* ================================================================== *)
(** * Properties *)
(* ================================================================== *)

(** ** Rounding to binary64 never goes below a representable bound

    The score formula rounds three times.  The lemmas below follow one
    rounding, [binary_round_aux], through its two shifts and show that a
    positive quantity at least as large as an integer [B < 2^53] is rounded
    to a float at least as large as [B].  Magnitudes [m * 2^e] are compared
    with integers through [dyadic_ge]. *)

Section Rounding.

Lemma digits2_pos_size p : digits2_pos p = Pos.size p.
Proof. induction p; simpl; congruence. Qed.

Lemma digits2_bounds p :
  2 ^ (Zpos (digits2_pos p) - 1) <= Zpos p < 2 ^ Zpos (digits2_pos p).
Proof.
  rewrite digits2_pos_size. split.
  - pose proof (Pos.size_le p) as H.
    assert (Hz : 2 ^ Zpos (Pos.size p) <= 2 * Zpos p).
    { change (2 * Zpos p) with (Zpos p~0). rewrite <- Pos2Z.inj_pow. exact H. }
    replace (Zpos (Pos.size p)) with (Zpos (Pos.size p) - 1 + 1) in Hz by lia.
    rewrite Z.pow_add_r in Hz by lia. lia.
  - pose proof (Pos.size_gt p) as H.
    change 2 with (Zpos 2). rewrite <- Pos2Z.inj_pow. exact H.
Qed.

Lemma Zdigits2_bounds M :
  0 < M -> 2 ^ (Zdigits2 M - 1) <= M < 2 ^ Zdigits2 M /\ 1 <= Zdigits2 M.
Proof.
  destruct M as [|p|p]; try lia. intros _. simpl Zdigits2.
  split; [apply digits2_bounds|lia].
Qed.

Lemma pow2_gt0 n : 0 <= n -> 0 < 2 ^ n.
Proof. intros; apply Z.pow_pos_nonneg; lia. Qed.

Lemma pow2_split a b : 0 <= a -> 0 <= b -> 2 ^ (a + b) = 2 ^ a * 2 ^ b.
Proof. intros; apply Z.pow_add_r; assumption. Qed.

(** One right shift halves the mantissa. *)
Lemma shr_1_m mrs : 0 <= shr_m mrs -> shr_m (shr_1 mrs) = shr_m mrs / 2.
Proof.
  destruct mrs as [m r s]; simpl. intros Hm.
  destruct m as [|p|p]; [reflexivity| |lia].
  destruct p; simpl.
  - rewrite Pos2Z.inj_xI. apply Z.div_unique with 1; lia.
  - rewrite Pos2Z.inj_xO. apply Z.div_unique with 0; lia.
  - reflexivity.
Qed.

Lemma iter_shr_1_m p : forall mrs,
  0 <= shr_m mrs -> shr_m (iter_pos shr_1 p mrs) = shr_m mrs / 2 ^ Zpos p.
Proof.
  assert (Hpos : forall q, 0 < 2 ^ Zpos q) by (intros; apply pow2_gt0; lia).
  induction p as [p IH|p IH|]; intros mrs Hm; cbn [iter_pos].
  - assert (H1 : 0 <= shr_m (shr_1 mrs)).
    { rewrite shr_1_m by assumption. apply Z.div_pos; lia. }
    assert (H2 : 0 <= shr_m (iter_pos shr_1 p (shr_1 mrs))).
    { rewrite IH by assumption. apply Z.div_pos; [assumption|apply Hpos]. }
    rewrite IH, IH, shr_1_m by assumption.
    pose proof (Hpos p).
    rewrite !Z.div_div by lia. f_equal.
    replace (Zpos p~1) with (1 + Zpos p + Zpos p) by lia.
    rewrite !Z.pow_add_r by lia. change (2 ^ 1) with 2. ring.
  - assert (H2 : 0 <= shr_m (iter_pos shr_1 p mrs)).
    { rewrite IH by assumption. apply Z.div_pos; [assumption|apply Hpos]. }
    rewrite IH, IH by assumption.
    pose proof (Hpos p).
    rewrite !Z.div_div by lia. f_equal.
    replace (Zpos p~0) with (Zpos p + Zpos p) by lia.
    rewrite Z.pow_add_r by lia. reflexivity.
  - apply shr_1_m; assumption.
Qed.

Lemma shr_m_of_loc m l : shr_m (shr_record_of_loc m l) = m.
Proof. destruct l as [|[]]; reflexivity. Qed.

(** [shr] by [n] divides by [2^n] and moves the exponent by [n]. *)
Lemma shr_spec mrs e n :
  0 <= shr_m mrs ->
  exists mrs', shr mrs e n = (mrs', e + Z.max 0 n)
            /\ shr_m mrs' = shr_m mrs / 2 ^ Z.max 0 n.
Proof.
  intros Hm. destruct n as [|p|p]; simpl shr.
  - exists mrs. rewrite Z.add_0_r. split; [reflexivity|]. symmetry; apply Z.div_1_r.
  - exists (iter_pos shr_1 p mrs). rewrite Z.max_r by lia.
    split; [reflexivity|]. apply iter_shr_1_m; assumption.
  - exists mrs. rewrite Z.max_l by lia. rewrite Z.add_0_r.
    split; [reflexivity|]. symmetry; apply Z.div_1_r.
Qed.

Lemma rne_bounds m l : m <= round_nearest_even m l <= m + 1.
Proof. destruct l as [|[]]; simpl; try destruct (Z.even m); lia. Qed.

Lemma fexp_eq e : fexp prec emax e = Z.max (e - 53) (-1074).
Proof. reflexivity. Qed.

(** The first shift brings the mantissa below [2^53] and keeps the bound. *)
Lemma first_shift (B M E d : Z) :
  1 <= B < 2 ^ 53 -> 0 < M -> 2 ^ (d - 1) <= M < 2 ^ d -> 1 <= d ->
  dyadic_ge M E B ->
  let F := Z.max (d + E - 53) (-1074) in
  let n1 := Z.max 0 (F - E) in
  let m1 := M / 2 ^ n1 in
  0 < m1 < 2 ^ 53 /\ dyadic_ge m1 (E + n1) B /\ -1074 <= E + n1.
Proof.
  intros HB HM Hd Hd1 Hge F n1 m1.
  destruct (Z.le_gt_cases F E) as [HFE|HFE].
  - (* no shift *)
    assert (Hn : n1 = 0) by (unfold n1; lia).
    assert (Hm : m1 = M) by (unfold m1; rewrite Hn; apply Z.div_1_r).
    rewrite Hm, Hn, Z.add_0_r.
    assert (d <= 53) by (unfold F in HFE; lia).
    assert (2 ^ d <= 2 ^ 53) by (apply Z.pow_le_mono_r; lia).
    repeat split; try lia. assumption.
  - assert (Hn : n1 = F - E) by (unfold n1; lia).
    destruct (Z.lt_ge_cases (d + E - 53) (-1074)) as [Hsub|Hnorm].
    + (* the value would be below the subnormal threshold *)
      exfalso. assert (HF : F = -1074) by (unfold F; lia).
      assert (HE : E < 0) by lia.
      unfold dyadic_ge in Hge.
      rewrite (Z.max_r 0 (- E)), (Z.max_l 0 E) in Hge by lia.
      rewrite Z.mul_1_r in Hge.
      assert (0 < 2 ^ (- E)) by (apply pow2_gt0; lia).
      assert (2 ^ (- E) < 2 ^ d) by nia.
      apply Z.pow_lt_mono_r_iff in H0; lia.
    + assert (HF : F = d + E - 53) by (unfold F; lia).
      assert (Hn' : n1 = d - 53) by lia.
      assert (Hd53 : 53 < d) by lia.
      assert (Hp : 0 < 2 ^ (d - 53)) by (apply pow2_gt0; lia).
      assert (Hs1 : 2 ^ (d - 1) = 2 ^ (d - 53) * 2 ^ 52).
      { rewrite <- pow2_split by lia. f_equal; lia. }
      assert (Hs2 : 2 ^ d = 2 ^ (d - 53) * 2 ^ 53).
      { rewrite <- pow2_split by lia. f_equal; lia. }
      assert (Hlo : 2 ^ 52 <= m1).
      { unfold m1. rewrite Hn'. apply Z.div_le_lower_bound; lia. }
      assert (Hhi : m1 < 2 ^ 53).
      { unfold m1. rewrite Hn'. apply Z.div_lt_upper_bound; lia. }
      repeat split; try lia.
      replace (E + n1) with F by lia.
      unfold dyadic_ge.
      destruct (Z.le_gt_cases F 0) as [HF0|HF0].
      * rewrite (Z.max_r 0 (- F)), (Z.max_l 0 F) by lia.
        rewrite Z.mul_1_r.
        unfold dyadic_ge in Hge.
        rewrite (Z.max_r 0 (- E)), (Z.max_l 0 E) in Hge by lia.
        rewrite Z.mul_1_r in Hge.
        unfold m1. rewrite Hn'. apply Z.div_le_lower_bound; [lia|].
        replace (- E) with ((d - 53) + (- F)) in Hge by lia.
        rewrite pow2_split in Hge by lia. lia.
      * rewrite (Z.max_l 0 (- F)), (Z.max_r 0 F) by lia.
        rewrite Z.mul_1_r.
        assert (2 ^ 1 <= 2 ^ F) by (apply Z.pow_le_mono_r; lia).
        change (2 ^ 1) with 2 in H.
        assert (2 ^ 52 * 2 <= m1 * 2 ^ F) by nia.
        change (2 ^ 52 * 2) with (2 ^ 53) in H0. lia.
Qed.

(** The second shift only undoes a carry into bit 53. *)
Lemma second_shift (B m1 M1 e1 d1 : Z) :
  0 <= B -> 0 < m1 < 2 ^ 53 -> m1 <= M1 <= m1 + 1 ->
  2 ^ (d1 - 1) <= M1 < 2 ^ d1 -> 1 <= d1 -> -1074 <= e1 ->
  dyadic_ge m1 e1 B ->
  let n2 := Z.max 0 (Z.max (d1 + e1 - 53) (-1074) - e1) in
  let m2 := M1 / 2 ^ n2 in
  0 < m2 /\ dyadic_ge m2 (e1 + n2) B /\ n2 <= 1.
Proof.
  intros HB Hm1 HM1 Hd Hd1 He1 Hge n2 m2.
  assert (Hd54 : d1 <= 54).
  { destruct (Z.le_gt_cases d1 54); [assumption|exfalso].
    assert (2 ^ 54 <= 2 ^ (d1 - 1)) by (apply Z.pow_le_mono_r; lia).
    change (2 ^ 54) with (2 * 2 ^ 53) in H0. lia. }
  destruct (Z.le_gt_cases d1 53) as [H53|H53].
  - assert (Hn : n2 = 0) by (unfold n2; lia).
    assert (Hm : m2 = M1) by (unfold m2; rewrite Hn; apply Z.div_1_r).
    rewrite Hm, Hn, Z.add_0_r. repeat split; try lia.
    unfold dyadic_ge in *.
    assert (0 < 2 ^ Z.max 0 e1) by (apply pow2_gt0; lia). nia.
  - assert (d1 = 54) by lia. subst d1.
    change (2 ^ (54 - 1)) with (2 ^ 53) in Hd.
    assert (HM : M1 = 2 ^ 53) by lia.
    assert (Hn : n2 = 1) by (unfold n2; lia).
    assert (Hm : m2 = 2 ^ 52) by (unfold m2; rewrite Hn, HM; reflexivity).
    rewrite Hm, Hn. repeat split; try lia.
    unfold dyadic_ge in *.
    destruct (Z.le_gt_cases 0 e1) as [He|He].
    + rewrite (Z.max_l 0 (- e1)), (Z.max_r 0 e1) in Hge by lia.
      rewrite (Z.max_l 0 (- (e1 + 1))), (Z.max_r 0 (e1 + 1)) by lia.
      rewrite pow2_split by lia. change (2 ^ 1) with 2.
      assert (0 < 2 ^ e1) by (apply pow2_gt0; lia).
      change (2 ^ 0) with 1 in *. change (2 ^ 53) with (2 ^ 52 * 2) in Hm1. nia.
    + rewrite (Z.max_r 0 (- e1)), (Z.max_l 0 e1) in Hge by lia.
      rewrite (Z.max_r 0 (- (e1 + 1))), (Z.max_l 0 (e1 + 1)) by lia.
      replace (- e1) with (- (e1 + 1) + 1) in Hge by lia.
      rewrite pow2_split in Hge by lia. change (2 ^ 1) with 2 in Hge.
      change (2 ^ 0) with 1 in *. change (2 ^ 53) with (2 ^ 52 * 2) in Hm1. nia.
Qed.

(** One rounding of a positive quantity. *)
Lemma binary_round_aux_lower (B M E : Z) (l : location) :
  1 <= B < 2 ^ 53 -> 0 < M -> dyadic_ge M E B ->
  exists m e,
    dyadic_ge (Zpos m) e B
    /\ e <= Z.max E (fexp prec emax (Zdigits2 M + E)) + 1
    /\ binary_round_aux prec emax false M E l =
       if e <=? emax - prec then S754_finite false m e else S754_infinity false.
Proof.
  intros HB HM Hge.
  destruct (Zdigits2_bounds M HM) as [Hd Hd1].
  pose proof (first_shift B M E (Zdigits2 M) HB HM Hd Hd1 Hge) as H1.
  cbv zeta in H1. rewrite <- fexp_eq in H1.
  unfold binary_round_aux, shr_fexp.
  destruct (shr_spec (shr_record_of_loc M l) E
              (fexp prec emax (Zdigits2 M + E) - E)) as [mrs1 [Hs1 Hm1]].
  { rewrite shr_m_of_loc; lia. }
  rewrite Hs1. rewrite shr_m_of_loc in Hm1. rewrite <- Hm1 in H1.
  set (n1 := Z.max 0 (fexp prec emax (Zdigits2 M + E) - E)) in *.
  set (M1 := round_nearest_even (shr_m mrs1) (loc_of_shr_record mrs1)).
  pose proof (rne_bounds (shr_m mrs1) (loc_of_shr_record mrs1)) as HM1. fold M1 in HM1.
  destruct H1 as [Hm1b [Hge1 He1]].
  assert (HM1pos : 0 < M1) by lia.
  destruct (Zdigits2_bounds M1 HM1pos) as [Hd' Hd1'].
  assert (HB0 : 0 <= B) by lia.
  pose proof (second_shift B (shr_m mrs1) M1 (E + n1) (Zdigits2 M1)
                HB0 Hm1b HM1 Hd' Hd1' He1 Hge1) as H2.
  cbv zeta in H2. rewrite <- fexp_eq in H2.
  destruct (shr_spec (shr_record_of_loc M1 loc_Exact) (E + n1)
              (fexp prec emax (Zdigits2 M1 + (E + n1)) - (E + n1))) as [mrs2 [Hs2 Hm2]].
  { rewrite shr_m_of_loc; lia. }
  rewrite Hs2. rewrite shr_m_of_loc in Hm2. rewrite <- Hm2 in H2.
  set (n2 := Z.max 0 (fexp prec emax (Zdigits2 M1 + (E + n1)) - (E + n1))) in *.
  destruct H2 as [Hm2pos [Hge2 Hn2]].
  destruct (shr_m mrs2) as [|m2|m2] eqn:Em2; try lia.
  exists m2, (E + n1 + n2). split; [assumption|]. split; [|reflexivity].
  unfold n1. lia.
Qed.

End Rounding.

(** ** The three roundings of the score formula *)

Section ScoreRounding.

Lemma div_eucl_div_mod a b : Z.div_eucl a b = (a / b, a mod b).
Proof. unfold Z.div, Z.modulo. destruct (Z.div_eucl a b); reflexivity. Qed.

(** The integer quotient [int_truediv] hands over to the rounding. *)
Lemma div_core_50 W :
  0 < W ->
  exists s l, 0 <= s <= Z.max 0 (59 - Zdigits2 W)
    /\ SFdiv_core_binary prec emax W 0 50 0 = (W * 2 ^ s / 50, - s, l).
Proof.
  intros HW. destruct (Zdigits2_bounds W HW) as [_ Hd].
  unfold SFdiv_core_binary. change (Zdigits2 50) with 6. rewrite fexp_eq.
  set (d := Zdigits2 W) in *.
  set (e' := Z.min (Z.max (d + 0 - (6 + 0) - 53) (-1074)) (0 - 0)).
  assert (He' : e' <= 0) by (unfold e'; lia).
  assert (He'' : - e' <= Z.max 0 (59 - d)) by (unfold e'; lia).
  destruct (0 - 0 - e') as [|ps|ps] eqn:Es; try lia.
  - rewrite div_eucl_div_mod. exists 0. eexists. split; [lia|].
    replace e' with 0 by lia. rewrite Z.mul_1_r. reflexivity.
  - rewrite Z.shiftl_mul_pow2 by lia. rewrite div_eucl_div_mod.
    exists (Zpos ps). eexists. split; [lia|].
    replace e' with (- Zpos ps) by lia. reflexivity.
Qed.

Lemma int_truediv_50 W :
  50 <= W < 2 ^ 1024 ->
  exists m e, int_truediv W 50 = Ok (S754_finite false m e)
           /\ dyadic_ge (Zpos m) e 1.
Proof.
  intros [Hlo Hhi].
  assert (HW : 0 < W) by lia.
  destruct (div_core_50 W HW) as [s [l [Hs Hcore]]].
  destruct (Zdigits2_bounds W HW) as [HdW HdW1].
  assert (Hps : 0 < 2 ^ s) by (apply pow2_gt0; lia).
  set (q := W * 2 ^ s / 50) in *.
  assert (Hq : 2 ^ s <= q).
  { unfold q. apply Z.div_le_lower_bound; nia. }
  assert (Hq50 : 50 * q <= W * 2 ^ s).
  { unfold q. apply Z.mul_div_le; lia. }
  assert (Hge : dyadic_ge q (- s) 1).
  { unfold dyadic_ge. rewrite Z.opp_involutive.
    rewrite (Z.max_r 0 s), (Z.max_l 0 (- s)) by lia.
    change (2 ^ 0) with 1. lia. }
  assert (HB : 1 <= 1 < 2 ^ 53) by (split; [lia|reflexivity]).
  destruct (binary_round_aux_lower 1 q (- s) l HB ltac:(lia) Hge)
    as [m [e [Hme [He Hr]]]].
  exists m, e. split; [|assumption].
  (* the exponent stays below the overflow threshold *)
  assert (Hq0 : 0 < q) by lia.
  destruct (Zdigits2_bounds q Hq0) as [Hdq Hdq1].
  assert (Hdqs : Zdigits2 q - s <= 1019).
  { destruct (Z.le_gt_cases (Zdigits2 q - s) 1019); [assumption|exfalso].
    assert (2 ^ (1019 + s) <= 2 ^ (Zdigits2 q - 1))
      by (apply Z.pow_le_mono_r; lia).
    rewrite pow2_split in H0 by lia.
    change (2 ^ 1024) with (32 * 2 ^ 1019) in Hhi.
    assert (0 < 2 ^ 1019) by (apply pow2_gt0; lia).
    nia. }
  assert (He971 : e <= emax - prec).
  { rewrite fexp_eq in He. change (emax - prec) with 971. lia. }
  apply Z.leb_le in He971. rewrite He971 in Hr.
  unfold int_truediv.
  destruct W as [|p|p]; try lia.
  change (Z.abs (Zpos p)) with (Zpos p). change (Z.abs 50) with 50.
  rewrite Hcore.
  change (xorb (Zpos p <? 0) (50 <? 0)) with false.
  rewrite Hr. reflexivity.
Qed.

Lemma float_of_int_100 :
  float_of_int 100 = S754_finite false 7036874417766400 (-46).
Proof. reflexivity. Qed.

Lemma float_of_int_0 : float_of_int 0 = S754_zero false.
Proof. reflexivity. Qed.

(** A float at least 1, times 100, is at least 100 (or overflows). *)
Lemma float_mul_100 m e :
  dyadic_ge (Zpos m) e 1 ->
  float_mul (S754_finite false m e) (float_of_int 100) = S754_infinity false
  \/ exists m' e',
       float_mul (S754_finite false m e) (float_of_int 100)
       = S754_finite false m' e'
       /\ dyadic_ge (Zpos m') e' 100.
Proof.
  intros Hge. rewrite float_of_int_100.
  unfold float_mul, SFmul. change (xorb false false) with false.
  assert (HB : 1 <= 100 < 2 ^ 53) by (split; [lia|reflexivity]).
  assert (Hge' : dyadic_ge (Zpos (m * 7036874417766400)) (e + -46) 100).
  { unfold dyadic_ge in *. rewrite Pos2Z.inj_mul.
    change (Zpos 7036874417766400) with (100 * 2 ^ 46).
    destruct (Z.le_gt_cases 0 e) as [He|He].
    - rewrite (Z.max_l 0 (- e)), (Z.max_r 0 e) in Hge by lia.
      assert (0 < 2 ^ e) by (apply pow2_gt0; lia).
      destruct (Z.le_gt_cases 46 e) as [He46|He46].
      + rewrite (Z.max_l 0 (- (e + -46))), (Z.max_r 0 (e + -46)) by lia.
        assert (0 < 2 ^ (e + -46)) by (apply pow2_gt0; lia).
        change (2 ^ 0) with 1. change (2 ^ 46) with 70368744177664. nia.
      + rewrite (Z.max_r 0 (- (e + -46))), (Z.max_l 0 (e + -46)) by lia.
        change (2 ^ 0) with 1.
        assert (2 ^ (- (e + -46)) <= 2 ^ 46) by (apply Z.pow_le_mono_r; lia).
        assert (0 < 2 ^ (- (e + -46))) by (apply pow2_gt0; lia).
        change (2 ^ 46) with 70368744177664 in *. nia.
    - rewrite (Z.max_r 0 (- e)), (Z.max_l 0 e) in Hge by lia.
      rewrite (Z.max_r 0 (- (e + -46))), (Z.max_l 0 (e + -46)) by lia.
      replace (- (e + -46)) with (46 + - e) by lia.
      rewrite pow2_split by lia.
      assert (0 < 2 ^ (- e)) by (apply pow2_gt0; lia).
      change (2 ^ 0) with 1 in *. change (2 ^ 46) with 70368744177664. nia. }
  destruct (binary_round_aux_lower 100 (Zpos (m * 7036874417766400)) (e + -46)
              loc_Exact HB ltac:(lia) Hge')
    as [m' [e' [Hm' [_ Hr]]]].
  rewrite Hr. destruct (e' <=? emax - prec).
  - right. exists m', e'. split; [reflexivity|assumption].
  - left. reflexivity.
Qed.

(** Rounding a negative quantity never gives a float above zero. *)
Lemma binary_round_aux_neg M E l :
  float_lt (S754_zero false) (binary_round_aux prec emax true M E l) = false.
Proof.
  unfold binary_round_aux.
  destruct (shr_fexp prec emax M E l) as [mrs' e'].
  destruct (shr_fexp prec emax _ e' loc_Exact) as [mrs'' e''].
  destruct (shr_m mrs'') as [|p|p]; try reflexivity.
  destruct (e'' <=? emax - prec); reflexivity.
Qed.

Lemma shl_align_fst mx ex ez :
  ez <= ex -> Zpos (fst (shl_align mx ex ez)) = Zpos mx * 2 ^ (ex - ez).
Proof.
  intros H. unfold shl_align.
  destruct (ez - ex) as [|d|d] eqn:E; try lia.
  - replace (ex - ez) with 0 by lia. simpl fst. lia.
  - simpl fst. replace (ex - ez) with (Zpos d) by lia.
    rewrite <- (Pos2Z.inj_pow 2 d).
    change (Pos.iter xO mx d) with (shift_pos d mx).
    rewrite shift_pos_correct, Zpower_pos_nat, Zpower_nat_Z.
    rewrite positive_nat_Z, Pos2Z.inj_pow. ring.
Qed.

(** 100 minus a float at least 100 is not above zero. *)
Lemma float_sub_100 y :
  (y = S754_infinity false
   \/ exists m e, y = S754_finite false m e /\ dyadic_ge (Zpos m) e 100) ->
  float_lt (float_of_int 0) (float_sub (float_of_int 100) y) = false.
Proof.
  rewrite float_of_int_100, float_of_int_0.
  intros [->|[m [e [-> Hge]]]]; [reflexivity|].
  unfold float_sub, SFsub, cond_Zopp.
  set (ez := Z.min (-46) e).
  rewrite !shl_align_fst by (unfold ez; lia).
  set (D := Zpos 7036874417766400 * 2 ^ (-46 - ez) - Zpos m * 2 ^ (e - ez)).
  assert (HD : D <= 0).
  { unfold D. change (Zpos 7036874417766400) with (100 * 2 ^ 46).
    unfold dyadic_ge in Hge.
    destruct (Z.le_gt_cases (-46) e) as [He|He].
    - replace ez with (-46) by (unfold ez; lia).
      change (2 ^ (-46 - -46)) with 1.
      destruct (Z.le_gt_cases 0 e) as [He0|He0].
      + rewrite (Z.max_l 0 (- e)), (Z.max_r 0 e) in Hge by lia.
        replace (e - -46) with (e + 46) by lia.
        rewrite pow2_split by lia.
        change (2 ^ 0) with 1 in Hge. change (2 ^ 46) with 70368744177664.
        nia.
      + rewrite (Z.max_r 0 (- e)), (Z.max_l 0 e) in Hge by lia.
        change (2 ^ 0) with 1 in Hge.
        assert (Hs : 2 ^ 46 = 2 ^ (- e) * 2 ^ (e - -46)).
        { rewrite <- pow2_split by lia. f_equal; lia. }
        assert (0 < 2 ^ (e - -46)) by (apply pow2_gt0; lia).
        rewrite Hs. nia.
    - replace ez with e by (unfold ez; lia).
      rewrite Z.sub_diag. change (2 ^ 0) with 1.
      rewrite (Z.max_r 0 (- e)), (Z.max_l 0 e) in Hge by lia.
      change (2 ^ 0) with 1 in Hge.
      replace (- e) with (46 + (-46 - e)) in Hge by lia.
      rewrite pow2_split in Hge by lia. lia. }
  destruct D as [|p|p]; try lia.
  - reflexivity.
  - unfold binary_normalize, binary_round.
    destruct (shl_align p ez _) as [mz ez'].
    apply binary_round_aux_neg.
Qed.

(** From weight 50 on, the formula gives 0. *)
Lemma score_of_weight_large W :
  50 <= W < 2 ^ 1024 -> ReportGenerator.score_of_weight W = Ok 0.
Proof.
  intros HW. destruct (int_truediv_50 W HW) as [m [e [Hdiv Hge]]].
  unfold ReportGenerator.score_of_weight. rewrite Hdiv.
  unfold num_mul, num_sub, max2, num_gt, to_float.
  rewrite float_sub_100; [reflexivity|].
  destruct (float_mul_100 m e Hge) as [H|H]; [left|right]; assumption.
Qed.

End ScoreRounding.

(** ** The compliance score *)

Section Score.

Import ReportGenerator.

Lemma score_of_weight_small W :
  0 <= W < 50 -> score_of_weight W = Ok (score_table W).
Proof.
  intros HW.
  assert (H : forallb (fun n => match score_of_weight (Z.of_nat n) with
                                | Ok s => s =? score_table (Z.of_nat n)
                                | Raise _ => false
                                end) (seq 0 50) = true)
    by (vm_compute; reflexivity).
  rewrite forallb_forall in H. specialize (H (Z.to_nat W)).
  rewrite Z2Nat.id in H by lia.
  destruct (score_of_weight W) as [s|e].
  - rewrite (proj1 (Z.eqb_eq _ _) (H ltac:(apply in_seq; lia))). reflexivity.
  - discriminate H. apply in_seq; lia.
Qed.

(** The score as a function of the weight, for every weight a float can
    take. *)
Lemma score_of_weight_spec W :
  0 <= W < 2 ^ 1024 -> score_of_weight W = Ok (score_table W).
Proof.
  intros HW. destruct (Z.lt_ge_cases W 50) as [Hs|Hl].
  - apply score_of_weight_small; lia.
  - rewrite score_of_weight_large by lia. unfold score_table.
    destruct (Z.eqb_spec W 28); [lia|]. f_equal. lia.
Qed.

Lemma severity_weights_get s :
  dict_get severity_weights s 1 = severity_weight s.
Proof.
  unfold severity_weights, severity_weight. simpl.
  destruct (String.eqb s "HIGH"); [reflexivity|].
  destruct (String.eqb s "MEDIUM"); [reflexivity|].
  destruct (String.eqb s "LOW"); reflexivity.
Qed.

Lemma weight_of_app l1 l2 : weight_of (l1 ++ l2) = weight_of l1 + weight_of l2.
Proof. induction l1 as [|i l1 IH]; simpl; [reflexivity|rewrite IH; lia]. Qed.

Lemma weight_of_nonneg l : 0 <= weight_of l.
Proof.
  induction l as [|i l IH]; simpl; [lia|].
  unfold severity_weight.
  destruct (String.eqb _ "HIGH"); [lia|]. destruct (String.eqb _ "MEDIUM"); lia.
Qed.

Lemma weigh_weight_of issues : forall acc, weigh issues acc = acc + weight_of issues.
Proof.
  unfold weigh. induction issues as [|i l IH]; intros acc.
  - simpl. lia.
  - change (weight_of (i :: l)) with (severity_weight (severity i) + weight_of l).
    cbn [fold_left]. rewrite IH, severity_weights_get. lia.
Qed.

(** The two loops of the scorer add up the weights of the five lists. *)
Lemma weigh_categories_items f :
  weigh_categories (items f) 0 = Ok (total_weight f).
Proof.
  unfold total_weight, service_issues.
  change (weigh_categories (items f) 0)
    with (Ok (weigh (iam_issues (iam_logging f))
               (weigh (rds_issues (rds_logging f))
                  (weigh (cloudwatch_issues (cloudwatch_logs f))
                     (weigh (s3_issues (s3_logging f))
                        (weigh (cloudtrail_issues (cloudtrail f)) 0)))))).
  rewrite !weigh_weight_of, !weight_of_app. f_equal. lia.
Qed.

Lemma calculate_compliance_score_weight f :
  calculate_compliance_score f = score_of_weight (total_weight f).
Proof.
  unfold calculate_compliance_score. rewrite weigh_categories_items. reflexivity.
Qed.

Lemma total_weight_nonneg f : 0 <= total_weight f.
Proof. apply weight_of_nonneg. Qed.

End Score.

Section ScoreClaims.

Import ReportGenerator.

(** At weight 28 binary64 rounding shows: [28 / 50] is rounded up, its
    product with 100 lies just above 56, and the truncated score is 43
    where exact arithmetic would give 44. *)
Example score_at_weight_28 :
  score_of_weight 28 = Ok 43 /\ score_of_weight 27 = Ok 46
  /\ score_of_weight 29 = Ok 42.
Proof. repeat split; vm_compute; reflexivity. Qed.

(** Past the range of a float the division raises, as in Python. *)
Example score_of_weight_overflow :
  exists e, score_of_weight (2 ^ 1030) = Raise e /\ exn_cls e = OverflowError.
Proof. eexists. split; vm_compute; reflexivity. Qed.

(** The model on [SpecFloat] and the primitive floats of the kernel give
    the same score on the first thousand weights. *)
Example score_agrees_with_primitive_floats :
  forallb (fun n =>
             match primitive_score (Z.of_nat n),
                   score_of_weight (Z.of_nat n) with
             | Ok a, Ok b => a =? b
             | _, _ => false
             end) (seq 0 1000) = true.
Proof. vm_compute. reflexivity. Qed.

(** C2.  For every findings report the compliance scorer returns
    [int(max(0, 100 - (W / 50) * 100))], evaluated as Python evaluates it (a
    correctly rounded integer division, then binary64 product and
    difference, then truncation), where [W] is the sum over the issue lists
    of the five services of the severity weights HIGH = 3, MEDIUM = 2,
    LOW = 1. *)
Theorem calculate_compliance_score_formula (f : FindingsReport) :
  (severity_weight "HIGH" = 3 /\ severity_weight "MEDIUM" = 2
   /\ severity_weight "LOW" = 1)
  /\ total_weight f
     = fold_right Z.add 0
         (map (fun i => severity_weight (severity i)) (service_issues f))
  /\ calculate_compliance_score f
     = match int_truediv (total_weight f) 50 with
       | Raise e => Raise e
       | Ok ratio =>
           int_of (max2 (Int 0)
                        (num_sub (Int 100) (num_mul (Float ratio) (Int 100))))
       end.
Proof.
  split; [repeat split|split].
  - unfold total_weight, weight_of.
    induction (service_issues f) as [|i l IH]; simpl; [reflexivity|].
    rewrite IH. reflexivity.
  - rewrite calculate_compliance_score_weight. reflexivity.
Qed.

Lemma score_table_range W : 0 <= W -> 0 <= score_table W <= 100.
Proof. unfold score_table. destruct (Z.eqb_spec W 28); lia. Qed.

Lemma score_table_antitone W W' :
  W <= W' -> score_table W' <= score_table W.
Proof.
  unfold score_table.
  destruct (Z.eqb_spec W 28), (Z.eqb_spec W' 28); lia.
Qed.

Lemma weight_of_insert_at n i l :
  weight_of (insert_at n i l) = weight_of l + severity_weight (severity i).
Proof.
  unfold insert_at.
  rewrite <- (firstn_skipn n l) at 3.
  rewrite !weight_of_app.
  change (weight_of (i :: skipn n l))
    with (severity_weight (severity i) + weight_of (skipn n l)).
  lia.
Qed.

Lemma total_weight_add_issue sv n i f :
  total_weight (add_issue sv n i f)
  = total_weight f + severity_weight (severity i).
Proof.
  unfold total_weight, service_issues.
  destruct sv; cbn -[weight_of insert_at];
    rewrite !weight_of_app, weight_of_insert_at, ?weight_of_app; lia.
Qed.

Lemma severity_weight_range s : 1 <= severity_weight s <= 3.
Proof.
  unfold severity_weight.
  destruct (String.eqb s "HIGH"); [lia|]. destruct (String.eqb s "MEDIUM"); lia.
Qed.

(** C3.  As long as the weight stays in the range of a float (any list that
    fits in memory does), the compliance score lies in [0, 100]; adding one
    more issue to the list of any service, at any position, never increases
    it; and a report in which every service has an empty issue list scores
    exactly 100. *)
Theorem compliance_score_bounded_monotone (f : FindingsReport) :
  total_weight f < 2 ^ 1023 ->
  (exists s, calculate_compliance_score f = Ok s /\ 0 <= s <= 100)
  /\ (forall sv n i, exists s s',
        calculate_compliance_score f = Ok s
        /\ calculate_compliance_score (add_issue sv n i f) = Ok s'
        /\ s' <= s)
  /\ ((forall sv, issues_of sv f = []) -> calculate_compliance_score f = Ok 100).
Proof.
  intros Hbound.
  pose proof (total_weight_nonneg f) as H0.
  assert (Hlt : 2 ^ 1023 + 3 < 2 ^ 1024) by (vm_compute; reflexivity).
  assert (Hf : calculate_compliance_score f = Ok (score_table (total_weight f))).
  { rewrite calculate_compliance_score_weight. apply score_of_weight_spec. lia. }
  split; [|split].
  - exists (score_table (total_weight f)). split; [assumption|].
    apply score_table_range; assumption.
  - intros sv n i.
    pose proof (severity_weight_range (severity i)) as Hw.
    exists (score_table (total_weight f)),
           (score_table (total_weight (add_issue sv n i f))).
    split; [assumption|]. split.
    + rewrite calculate_compliance_score_weight. apply score_of_weight_spec.
      rewrite total_weight_add_issue. lia.
    + apply score_table_antitone. rewrite total_weight_add_issue. lia.
  - intros Hempty. rewrite Hf. f_equal.
    unfold total_weight, service_issues.
    rewrite (Hempty CloudTrail : cloudtrail_issues _ = []),
            (Hempty S3 : s3_issues _ = []),
            (Hempty CloudWatch : cloudwatch_issues _ = []),
            (Hempty Rds : rds_issues _ = []),
            (Hempty Iam : iam_issues _ = []).
    reflexivity.
Qed.

Lemma compliance_score_bounded_monotone_witness :
  total_weight (ExampleUsage.create_sample_findings "2025-01-01T00:00:00")
  < 2 ^ 1023
  /\ exists s,
       calculate_compliance_score
         (ExampleUsage.create_sample_findings "2025-01-01T00:00:00") = Ok s
       /\ 0 <= s <= 100.
Proof.
  split.
  - vm_compute; reflexivity.
  - apply (compliance_score_bounded_monotone
             (ExampleUsage.create_sample_findings "2025-01-01T00:00:00")).
    vm_compute; reflexivity.
Defined.

End ScoreClaims.

(** ** The recommendation deriver *)

Section Recommendations.

Import AwsLogReview.

Lemma truthy_length {A} (l : list A) :
  truthy l = negb (Nat.eqb (List.length l) 0).
Proof. destruct l; reflexivity. Qed.

Lemma truthy_nonempty {A} (l : list A) : truthy l = true <-> l <> [].
Proof. destruct l; simpl; split; congruence. Qed.

(** The deriver as a filter over its five checks. *)
Lemma generate_recommendations_checks f :
  generate_recommendations f = map fst (filter snd (recommendation_checks f)).
Proof.
  unfold generate_recommendations, recommendation_checks.
  rewrite <- !truthy_length.
  destruct (enabled (cloudtrail f)), (multi_region (cloudtrail f)),
    (truthy (buckets_without_logging (s3_logging f))),
    (truthy (log_groups_without_retention (cloudwatch_logs f))),
    (truthy (instances_without_logging (rds_logging f))); reflexivity.
Qed.

Ltac decide_title :=
  cbn [map title fst snd filter negb In
       enable_cloudtrail_recommendation multi_region_recommendation
       s3_recommendation cloudwatch_recommendation rds_recommendation];
  intuition (try discriminate; try congruence).

(** C5.  The recommendation deriver outputs its list in the fixed order
    CloudTrail-enable, CloudTrail-multiregion, S3-logging,
    CloudWatch-retention, RDS-logging: the output is the list of the five
    checks with those whose condition fails left out.  Each of the five is
    present if and only if its condition holds on the input (CloudTrail not
    enabled; not multi-region; some bucket without logging; some log group
    without retention; some RDS instance without logging), and nothing else
    is ever emitted. *)
Theorem generate_recommendations_fixed_order (f : FindingsReport) :
  let recs := generate_recommendations f in
  recs = map fst (filter snd (recommendation_checks f))
  /\ (In "Enable CloudTrail" (map title recs)
      <-> enabled (cloudtrail f) = false)
  /\ (In "Enable Multi-Region CloudTrail" (map title recs)
      <-> multi_region (cloudtrail f) = false)
  /\ (In "Enable S3 Access Logging" (map title recs)
      <-> buckets_without_logging (s3_logging f) <> [])
  /\ (In "Set Log Retention Policies" (map title recs)
      <-> log_groups_without_retention (cloudwatch_logs f) <> [])
  /\ (In "Enable RDS CloudWatch Logging" (map title recs)
      <-> instances_without_logging (rds_logging f) <> [])
  /\ (forall r, In r recs ->
        In r [ enable_cloudtrail_recommendation;
               multi_region_recommendation;
               s3_recommendation (buckets_without_logging (s3_logging f));
               cloudwatch_recommendation
                 (log_groups_without_retention (cloudwatch_logs f));
               rds_recommendation
                 (instances_without_logging (rds_logging f)) ]).
Proof.
  intros recs. subst recs.
  split; [apply generate_recommendations_checks|].
  rewrite generate_recommendations_checks. unfold recommendation_checks.
  rewrite <- !truthy_length, <- !truthy_nonempty.
  destruct (enabled (cloudtrail f)), (multi_region (cloudtrail f)),
    (truthy (buckets_without_logging (s3_logging f))),
    (truthy (log_groups_without_retention (cloudwatch_logs f))),
    (truthy (instances_without_logging (rds_logging f)));
    repeat split; try solve [decide_title];
    cbn [map fst snd filter negb In]; intros r Hr; intuition.
Qed.

End Recommendations.

(** ** The end-to-end example *)

Section Example.

Import AwsLogReview ExampleUsage.

(** C1, as stated, fails on the sample: the deriver has no IAM
    recommendation, and the range "10.2.1-10.2.7" is not a row of the
    compliance table. *)
Lemma sample_outcome_not_as_claimed :
  ~ exists report,
      generate_report (sample_results "2025-01-01T00:00:00") = Ok report
      /\ claimed_sample_outcome (sample_results "2025-01-01T00:00:00") report.
Proof.
  intros [report [Hrep [_ [_ [Hcat _]]]]].
  specialize (Hcat "IAM" ltac:(simpl; tauto)).
  vm_compute in Hcat.
  repeat (destruct Hcat as [Hcat|Hcat]; [discriminate Hcat|]).
  exact Hcat.
Qed.

(** C1, amended.  On the example input the report shows the stored total of
    12 issues (the five issue lists hold 13), the deriver yields exactly 5
    recommendations, in the categories CloudTrail, CloudTrail, S3,
    CloudWatch, RDS, and the compliance table has ten rows of which exactly
    "10.2.1" and "10.5.1.2" are Non-Compliant; the list of non-compliant
    references is "10.2.1-10.2.7", "10.2.1", "10.5.1.2", and the score
    is 46. *)
Theorem sample_pipeline_outcome (now : string) :
  let results := sample_results now in
  exists report,
    generate_report results = Ok report
    /\ shown_total_issues report = 12
    /\ List.length (shown_issues report) = 13%nat
    /\ shown_recommendations report = 5
    /\ map category (recommendations results)
       = ["CloudTrail"; "CloudTrail"; "S3"; "CloudWatch"; "RDS"]
    /\ map title (recommendations results)
       = [ "Enable CloudTrail"; "Enable Multi-Region CloudTrail";
           "Enable S3 Access Logging"; "Set Log Retention Policies";
           "Enable RDS CloudWatch Logging" ]
    /\ map (fun row => (requirement row, status row)) (shown_compliance report)
       = [ ("10.2.1", NonCompliant); ("10.2.2", Compliant);
           ("10.2.3", Compliant); ("10.2.4", Compliant);
           ("10.2.5", Compliant); ("10.2.6", Compliant);
           ("10.2.7", Compliant); ("10.5.1.2", NonCompliant);
           ("10.5.2", Compliant); ("10.5.3", Compliant) ]
    /\ ReportGenerator.get_non_compliant_requirements (findings results)
       = Ok ["10.2.1-10.2.7"; "10.2.1"; "10.5.1.2"]
    /\ ReportGenerator.calculate_compliance_score (findings results) = Ok 46.
Proof.
  intros results. eexists. split; [reflexivity|].
  repeat split; vm_compute; reflexivity.
Qed.

End Example.

(** ** The compliance table *)

Section ComplianceTable.

Import AwsLogReview.

Lemma str_in_In x xs : str_in x xs = true <-> In x xs.
Proof.
  unfold str_in. rewrite existsb_exists. split.
  - intros [y [Hy Heq]]. apply String.eqb_eq in Heq. subst. assumption.
  - intros H. exists x. split; [assumption|apply String.eqb_refl].
Qed.

Lemma fold_left_snoc {A B} (g : A -> B) (l : list A) : forall acc,
  fold_left (fun acc x => acc ++ [g x]) l acc = acc ++ map g l.
Proof.
  induction l as [|x l IH]; intros acc; simpl.
  - symmetry; apply app_nil_r.
  - rewrite IH, <- app_assoc. reflexivity.
Qed.

(** The loop over [findings.items()] lists the issues service by service,
    under the upper-cased key. *)
Lemma collect_all_issues_items f :
  collect_all_issues (items f) []
  = Ok (map (report_issue "CLOUDTRAIL") (cloudtrail_issues (cloudtrail f))
        ++ map (report_issue "S3_LOGGING") (s3_issues (s3_logging f))
        ++ map (report_issue "CLOUDWATCH_LOGS")
               (cloudwatch_issues (cloudwatch_logs f))
        ++ map (report_issue "RDS_LOGGING") (rds_issues (rds_logging f))
        ++ map (report_issue "IAM_LOGGING") (iam_issues (iam_logging f))).
Proof.
  change (collect_all_issues (items f) [])
    with (Ok (fold_left (fun acc x => acc ++ [report_issue "IAM_LOGGING" x])
                (iam_issues (iam_logging f))
             (fold_left (fun acc x => acc ++ [report_issue "RDS_LOGGING" x])
                (rds_issues (rds_logging f))
             (fold_left (fun acc x => acc ++ [report_issue "CLOUDWATCH_LOGS" x])
                (cloudwatch_issues (cloudwatch_logs f))
             (fold_left (fun acc x => acc ++ [report_issue "S3_LOGGING" x])
                (s3_issues (s3_logging f))
             (fold_left (fun acc x => acc ++ [report_issue "CLOUDTRAIL" x])
                (cloudtrail_issues (cloudtrail f)) [])))))).
  rewrite !fold_left_snoc, <- !app_assoc. reflexivity.
Qed.

Lemma report_issue_reference c l :
  map issue_pci_reference (map (report_issue c) l) = map pci_reference l.
Proof. rewrite map_map. reflexivity. Qed.

Lemma referenced_In f req :
  referenced f req <-> In req (map pci_reference (service_issues f)).
Proof.
  unfold referenced. rewrite in_map_iff. split.
  - intros [i [Hi Heq]]. exists i. split; assumption.
  - intros [i [Heq Hi]]. exists i. split; assumption.
Qed.

Lemma requirement_status_spec req all_issues :
  requirement_status req all_issues = NonCompliant
  <-> In req (map issue_pci_reference all_issues).
Proof.
  unfold requirement_status. rewrite <- str_in_In.
  destruct (str_in req (map issue_pci_reference all_issues)); simpl;
    split; congruence.
Qed.

Lemma gather_issues_items f :
  ReportGenerator.gather_issues (items f) [] = Ok (service_issues f).
Proof.
  change (ReportGenerator.gather_issues (items f) [])
    with (Ok (fold_left (fun acc x => acc ++ [id x]) (iam_issues (iam_logging f))
             (fold_left (fun acc x => acc ++ [id x]) (rds_issues (rds_logging f))
             (fold_left (fun acc x => acc ++ [id x])
                (cloudwatch_issues (cloudwatch_logs f))
             (fold_left (fun acc x => acc ++ [id x]) (s3_issues (s3_logging f))
             (fold_left (fun acc x => acc ++ [id x])
                (cloudtrail_issues (cloudtrail f)) [])))))).
  rewrite !fold_left_snoc, !map_id, <- !app_assoc. reflexivity.
Qed.

(** The second loop keeps each non-empty reference once. *)
Lemma note_references l : forall acc,
  NoDup acc ->
  NoDup (fold_left ReportGenerator.note_reference l acc)
  /\ forall r, In r (fold_left ReportGenerator.note_reference l acc)
               <-> In r acc \/ (r <> EmptyString /\ In r (map pci_reference l)).
Proof.
  induction l as [|i l IH]; intros acc Hnd; cbn [fold_left map].
  - split; [assumption|]. intros r. simpl. tauto.
  - unfold ReportGenerator.note_reference at 2 4.
    destruct (String.eqb_spec (pci_reference i) EmptyString) as [He|He]; simpl negb.
    + destruct (IH acc Hnd) as [H1 H2]. split; [assumption|].
      intros r. rewrite H2. simpl. intuition congruence.
    + destruct (str_in (pci_reference i) acc) eqn:Hin; simpl.
      * apply str_in_In in Hin.
        destruct (IH acc Hnd) as [H1 H2]. split; [assumption|].
        intros r. rewrite H2. intuition (subst; auto).
      * assert (Hnot : ~ In (pci_reference i) acc).
        { intros H. apply str_in_In in H. congruence. }
        assert (Hnd' : NoDup (acc ++ [pci_reference i])).
        { apply NoDup_app; [assumption|repeat constructor; simpl; tauto|].
          intros x Hx [<-|[]]. contradiction. }
        destruct (IH _ Hnd') as [H1 H2]. split; [assumption|].
        intros r. rewrite H2, in_app_iff. simpl.
        intuition (subst; auto).
Qed.

(** C4.  For every findings report and every clause of the static
    ten-entry PCI table, the compliance table marks the clause
    Non-Compliant if and only if the clause id is, as a string, equal to
    the [pci_reference] of some issue of the report.  The same exact match
    decides any reference: a range such as "10.2.1-10.2.7" is met only by
    issues carrying that very string (and is no row of the table), never by
    an issue tagged "10.2.1".  The list of non-compliant requirements of
    the report generator holds, once each, the non-empty references of the
    issues. *)
Theorem compliance_table_exact_match
        (f : FindingsReport) (recs : list Recommendation) :
  exists report,
    generate_report (mk_results f recs) = Ok report
    /\ map (fun row => (requirement row, requirement_text row))
           (shown_compliance report) = pci_requirements
    /\ List.length pci_requirements = 10%nat
    /\ (forall row, In row (shown_compliance report) ->
          (status row = NonCompliant <-> referenced f (requirement row)))
    /\ (forall req,
          requirement_status req (shown_issues report) = NonCompliant
          <-> referenced f req)
    /\ ~ In "10.2.1-10.2.7" (map fst pci_requirements)
    /\ ((forall i, In i (service_issues f) -> pci_reference i = "10.2.1") ->
        requirement_status "10.2.1-10.2.7" (shown_issues report) = Compliant)
    /\ exists refs,
         ReportGenerator.get_non_compliant_requirements f = Ok refs
         /\ NoDup refs
         /\ forall req, In req refs <-> req <> EmptyString /\ referenced f req.
Proof.
  unfold generate_report. cbn [findings recommendations].
  rewrite collect_all_issues_items.
  eexists. split; [reflexivity|]. cbn [shown_compliance shown_issues].
  set (all_issues := map (report_issue "CLOUDTRAIL") _ ++ _).
  assert (Hrefs : map issue_pci_reference all_issues
                  = map pci_reference (service_issues f)).
  { unfold all_issues, service_issues.
    rewrite !map_app, !report_issue_reference. reflexivity. }
  assert (Hstatus : forall req,
             requirement_status req all_issues = NonCompliant
             <-> referenced f req).
  { intros req. rewrite requirement_status_spec, Hrefs, referenced_In.
    reflexivity. }
  split; [reflexivity|]. split; [reflexivity|]. split.
  { intros row Hrow. unfold compliance_table in Hrow.
    apply in_map_iff in Hrow. destruct Hrow as [[req text] [<- _]].
    cbn [status requirement fst]. apply Hstatus. }
  split; [exact Hstatus|]. split.
  { simpl. intuition discriminate. }
  split.
  { intros Hall.
    destruct (requirement_status "10.2.1-10.2.7" all_issues) eqn:E;
      [reflexivity|].
    apply Hstatus in E. destruct E as [i [Hi Heq]].
    rewrite (Hall i Hi) in Heq. discriminate Heq. }
  unfold ReportGenerator.get_non_compliant_requirements.
  rewrite gather_issues_items. eexists. split; [reflexivity|].
  destruct (note_references (service_issues f) [] (NoDup_nil _)) as [Hnd Hin].
  split; [assumption|].
  intros req. rewrite Hin, referenced_In. simpl. tauto.
Qed.

End ComplianceTable.

(** ** The S3 remediation script *)

Section S3Script.

Import AwsLogReview.

Lemma append_assoc (a b c : string) : (a +++ b) +++ c = a +++ (b +++ c).
Proof. induction a as [|x a IH]; simpl; [reflexivity|rewrite IH; reflexivity]. Qed.

Lemma append_nil_r (a : string) : a +++ EmptyString = a.
Proof. induction a as [|x a IH]; simpl; [reflexivity|rewrite IH; reflexivity]. Qed.

Lemma length_append (a b : string) :
  String.length (a +++ b) = (String.length a + String.length b)%nat.
Proof. induction a as [|x a IH]; simpl; [reflexivity|rewrite IH; reflexivity]. Qed.

Lemma single_line_append a b :
  single_line (a +++ b) = single_line a && single_line b.
Proof.
  induction a as [|x a IH]; simpl; [reflexivity|].
  rewrite IH. apply andb_assoc.
Qed.

(** A line followed by a line feed is the first element of the split. *)
Lemma split_lines_line l rest :
  single_line l = true -> split_lines (l +++ nl +++ rest) = l :: split_lines rest.
Proof.
  induction l as [|c l IH]; intros Hl.
  - reflexivity.
  - simpl in Hl. apply andb_true_iff in Hl. destruct Hl as [Hc Hl].
    apply negb_true_iff in Hc.
    cbn [String.append split_lines]. rewrite Hc.
    change (l +++ String "010" rest) with (l +++ nl +++ rest).
    rewrite (IH Hl). reflexivity.
Qed.

Lemma split_lines_last l : single_line l = true -> split_lines l = [l].
Proof.
  induction l as [|c l IH]; intros Hl; [reflexivity|].
  simpl in Hl. apply andb_true_iff in Hl. destruct Hl as [Hc Hl].
  apply negb_true_iff in Hc. cbn [split_lines]. rewrite Hc, (IH Hl). reflexivity.
Qed.

Lemma fold_left_append (g : string -> string) (l : list string) : forall acc,
  fold_left (fun script x => script +++ g x) l acc
  = acc +++ String.concat EmptyString (map g l).
Proof.
  induction l as [|x l IH]; intros acc.
  - simpl. symmetry; apply append_nil_r.
  - cbn [fold_left map]. rewrite IH, append_assoc. f_equal.
    destruct l; simpl; [rewrite append_nil_r|]; reflexivity.
Qed.

Lemma s3_bucket_line_single b :
  single_line b = true -> single_line (s3_bucket_line b) = true.
Proof.
  intros H. unfold s3_bucket_line. rewrite !single_line_append, H. reflexivity.
Qed.

Lemma s3_status_line_single b :
  single_line b = true -> single_line (s3_status_line b) = true.
Proof.
  intros H. unfold s3_status_line. rewrite !single_line_append, H. reflexivity.
Qed.

(** The four lines one bucket contributes. *)
Lemma split_lines_s3_block b rest :
  single_line b = true ->
  split_lines (s3_block b +++ rest)
  = [s3_command_line; s3_bucket_line b; s3_status_line b; EmptyString]
    ++ split_lines rest.
Proof.
  intros Hb. unfold s3_block. rewrite !append_assoc.
  rewrite split_lines_line by reflexivity.
  rewrite split_lines_line by (apply s3_bucket_line_single; assumption).
  rewrite split_lines_line by (apply s3_status_line_single; assumption).
  reflexivity.
Qed.

Lemma split_lines_s3_blocks buckets rest :
  Forall (fun b => single_line b = true) buckets ->
  split_lines (String.concat EmptyString (map s3_block buckets) +++ rest)
  = flat_map (fun b => [s3_command_line; s3_bucket_line b; s3_status_line b; EmptyString])
             buckets
    ++ split_lines rest.
Proof.
  induction 1 as [|b l Hb Hl IH]; [reflexivity|].
  cbn [map flat_map].
  assert (Hc : String.concat EmptyString (s3_block b :: map s3_block l)
               = s3_block b +++ String.concat EmptyString (map s3_block l)).
  { destruct l; simpl; [rewrite append_nil_r|]; reflexivity. }
  rewrite Hc, append_assoc, split_lines_s3_block by assumption.
  rewrite IH, <- app_assoc. reflexivity.
Qed.

Lemma strip_prefix_append p s : strip_prefix p (p +++ s) = Some s.
Proof.
  induction p as [|c p IH]; simpl; [reflexivity|].
  rewrite Ascii.eqb_refl. assumption.
Qed.

Lemma strip_suffix_append suffix s : strip_suffix suffix (s +++ suffix) = Some s.
Proof.
  induction s as [|c s IH].
  - simpl. destruct suffix; simpl; [reflexivity|].
    rewrite Ascii.eqb_refl, String.eqb_refl. reflexivity.
  - cbn [String.append strip_suffix].
    destruct (String.eqb_spec (String c (s +++ suffix)) suffix) as [He|He].
    + exfalso. apply (f_equal String.length) in He.
      simpl in He. rewrite length_append in He. lia.
    + rewrite IH. reflexivity.
Qed.

Lemma bucket_argument_bucket_line b : bucket_argument (s3_bucket_line b) = Some b.
Proof.
  unfold bucket_argument, s3_bucket_line.
  rewrite <- append_assoc, strip_prefix_append.
  apply strip_suffix_append.
Qed.

(** The script, line by line. *)
Lemma s3_script_lines buckets :
  Forall (fun b => single_line b = true) buckets ->
  split_lines (_generate_s3_logging_script buckets)
  = ["#!/bin/bash"; "# Enable S3 access logging for buckets"]
    ++ flat_map (fun b => [s3_command_line; s3_bucket_line b;
                           s3_status_line b; EmptyString]) buckets
    ++ ["echo " +++ dq +++ "S3 access logging enabled for all buckets" +++ dq].
Proof.
  intros Hb. unfold _generate_s3_logging_script.
  rewrite fold_left_append, !append_assoc.
  rewrite split_lines_line by reflexivity.
  rewrite split_lines_line by reflexivity.
  rewrite split_lines_s3_blocks by assumption.
  reflexivity.
Qed.

Lemma count_block_invocations buckets :
  List.length
    (filter is_invocation
       (flat_map (fun b => [s3_command_line; s3_bucket_line b;
                            s3_status_line b; EmptyString]) buckets))
  = List.length buckets.
Proof.
  induction buckets as [|b l IH]; [reflexivity|].
  cbn [flat_map]. rewrite filter_app, length_app, IH. reflexivity.
Qed.

Lemma block_bucket_arguments buckets :
  flat_map (fun line => match bucket_argument line with
                        | Some b => [b]
                        | None => []
                        end)
    (flat_map (fun b => [s3_command_line; s3_bucket_line b;
                         s3_status_line b; EmptyString]) buckets)
  = buckets.
Proof.
  induction buckets as [|b l IH]; [reflexivity|].
  cbn [flat_map]. rewrite flat_map_app, IH.
  cbn [flat_map app]. rewrite bucket_argument_bucket_line. reflexivity.
Qed.

(** C7.  For every list of N unlogged bucket names (S3 names hold no line
    feed), the generated S3 remediation script contains exactly N
    [aws s3api put-bucket-logging] invocations, one per bucket name, in
    the order of the input list: after the two header lines come, bucket
    by bucket, the command line, the line naming the bucket, the logging
    status line and an empty line.  This is the script built by
    [AWSLogReviewer]; the templated generator of [generate_remediation_scripts.py] writes no
    S3 script at all, as it raises before its template is rendered. *)
Theorem s3_script_one_invocation_per_bucket (buckets : list string) :
  Forall (fun b => single_line b = true) buckets ->
  let script := _generate_s3_logging_script buckets in
  count_invocations script = List.length buckets
  /\ bucket_arguments script = buckets
  /\ split_lines script
     = ["#!/bin/bash"; "# Enable S3 access logging for buckets"]
       ++ flat_map (fun b => [s3_command_line; s3_bucket_line b;
                              s3_status_line b; EmptyString]) buckets
       ++ ["echo " +++ dq +++ "S3 access logging enabled for all buckets"
           +++ dq]
  /\ (forall template_text render now io_error config output_dir fs,
        RemediationScripts.generate_s3_logging_script
          render now io_error (RemediationScripts.init template_text config)
          buckets output_dir fs
        = (Raise no_region, fs)).
Proof.
  intros Hb script. subst script.
  unfold count_invocations, bucket_arguments.
  rewrite (s3_script_lines buckets Hb).
  split; [|split; [|split; [reflexivity|intros; reflexivity]]].
  - rewrite !filter_app, !length_app, count_block_invocations.
    change (List.length (filter is_invocation
              ["#!/bin/bash"; "# Enable S3 access logging for buckets"]))
      with 0%nat.
    change (List.length (filter is_invocation
              ["echo " +++ dq +++ "S3 access logging enabled for all buckets"
               +++ dq]))
      with 0%nat.
    lia.
  - rewrite !flat_map_app, block_bucket_arguments. apply app_nil_r.
Qed.

Lemma s3_script_one_invocation_per_bucket_witness :
  Forall (fun b => single_line b = true) ["bucket1"; "bucket2"; "bucket3"]
  /\ count_invocations
       (_generate_s3_logging_script ["bucket1"; "bucket2"; "bucket3"]) = 3%nat.
Proof.
  assert (H : Forall (fun b => single_line b = true)
                     ["bucket1"; "bucket2"; "bucket3"])
    by (repeat constructor).
  split; [exact H|].
  exact (proj1 (s3_script_one_invocation_per_bucket _ H)).
Defined.

(** A name with a line feed in it is not an S3 bucket name, and the
    hypothesis cannot be dropped: such a name can carry a command of its
    own. *)
Example s3_script_needs_single_line_names :
  count_invocations
    (_generate_s3_logging_script
       ["x" +++ nl +++ "aws s3api put-bucket-logging --bucket y"]) = 3%nat.
Proof. vm_compute. reflexivity. Qed.

End S3Script.

(** ** The analyzers *)

Section Analyzers.

Import AwsLogReview.

(** *** The trace only grows *)

Lemma grows_ret {F A} (a : A) : grows (ret a : M (F * trace) A).
Proof. intros s. exists []. simpl. symmetry; apply app_nil_r. Qed.

Lemma grows_raise {F A} (e : exn) : grows (raise e : M (F * trace) A).
Proof. intros s. exists []. simpl. symmetry; apply app_nil_r. Qed.

Lemma grows_update {F} (g : F -> F) : grows (update g).
Proof. intros s. exists []. simpl. symmetry; apply app_nil_r. Qed.

Lemma grows_call {F A} c (r : result A) : grows (call c r : M (F * trace) A).
Proof. intros s. exists [c]. reflexivity. Qed.

Lemma grows_bind {F A B} (m : M (F * trace) A) (k : A -> M (F * trace) B) :
  grows m -> (forall a, grows (k a)) -> grows (bind m k).
Proof.
  intros Hm Hk s. unfold bind.
  destruct (Hm s) as [tr1 H1].
  destruct (m s) as [[a|e] s1]; simpl in H1.
  - destruct (Hk a s1) as [tr2 H2]. exists (tr1 ++ tr2).
    rewrite H2, H1, app_assoc. reflexivity.
  - exists tr1. assumption.
Qed.

Lemma grows_try_except {F A} (body : M (F * trace) A) handles handler :
  grows body -> (forall e, grows (handler e)) ->
  grows (try_except body handles handler).
Proof.
  intros Hb Hh s. unfold try_except.
  destruct (Hb s) as [tr1 H1].
  destruct (body s) as [[a|e] s1]; simpl in H1.
  - exists tr1. assumption.
  - destruct (handles e).
    + destruct (Hh e s1) as [tr2 H2]. exists (tr1 ++ tr2).
      rewrite H2, H1, app_assoc. reflexivity.
    + exists tr1. assumption.
Qed.

Lemma grows_try_except_named {F A} (body : M (F * trace) A) named handler :
  grows body -> grows handler -> grows (try_except_named body named handler).
Proof.
  intros Hb Hh s. unfold try_except_named.
  destruct (Hb s) as [tr1 H1].
  destruct (body s) as [[a|e] s1]; simpl in H1.
  - exists tr1. assumption.
  - destruct named as [c|e'].
    + destruct (exn_class_eqb (exn_cls e) c).
      * destruct (Hh s1) as [tr2 H2]. exists (tr1 ++ tr2).
        rewrite H2, H1, app_assoc. reflexivity.
      * exists tr1. assumption.
    + exists tr1. assumption.
Qed.

Lemma grows_for_each {F A} (xs : list A) (body : A -> M (F * trace) unit) :
  (forall x, grows (body x)) -> grows (for_each xs body).
Proof.
  intros Hb. induction xs as [|x xs IH]; cbn [for_each].
  - apply grows_ret.
  - apply grows_bind; [apply Hb|intros _; apply IH].
Qed.

Lemma grows_if {F A} (b : bool) (m1 m2 : M (F * trace) A) :
  grows m1 -> grows m2 -> grows (if b then m1 else m2).
Proof. destruct b; auto. Qed.

Ltac grows := repeat (intros; first
  [ apply grows_bind | apply grows_try_except | apply grows_try_except_named
  | apply grows_for_each
  | apply grows_if | apply grows_call | apply grows_update
  | apply grows_ret | apply grows_raise ]).

(** *** The frame of an analyzer *)

(** Whatever the body does, the analyzer returns: with the findings as the
    body left them, plus exactly one issue when the body raised. *)
Lemma analyzer_frame {F} (initial : F) body on_error add t :
  analyzer initial body on_error add t
  = match body (initial, t) with
    | (Ok _, (f, t')) => (Ok f, t')
    | (Raise e, (f, t')) => (Ok (add (on_error e) f), t')
    end.
Proof.
  unfold analyzer, try_except, update.
  destruct (body (initial, t)) as [[a|e] [f t']]; reflexivity.
Qed.

Lemma analyzer_ok {F} (initial : F) body on_error add t f t' :
  body (initial, t) = (Ok tt, (f, t')) ->
  analyzer initial body on_error add t = (Ok f, t').
Proof. intros H. rewrite analyzer_frame, H. reflexivity. Qed.

(** An analyzer whose body starts with a probe [c] and then only extends
    the trace returns, having made that call first. *)
Lemma analyzer_probes_first {F A} (initial : F) c (r : result A)
      (rest : A -> M (F * trace) unit) on_error add t :
  (forall a, grows (rest a)) ->
  exists f tr,
    analyzer initial (bind (call c r) rest) on_error add t
    = (Ok f, t ++ c :: tr).
Proof.
  intros Hrest. rewrite analyzer_frame. unfold bind, call. cbn [fst snd].
  destruct r as [a|e].
  - destruct (Hrest a (initial, t ++ [c])) as [tr Htr]. cbn [snd] in Htr.
    destruct (rest a (initial, t ++ [c])) as [[u|e] [f t']]; cbn [snd] in Htr;
      subst t'; rewrite <- app_assoc; eexists; exists tr; reflexivity.
  - eexists. exists []. reflexivity.
Qed.

(** *** The loops *)



(** The step at a bucket whose probe raises, whatever it raises: the
    bucket has been counted, and the error that leaves the loop is the one
    of the class lookup in the [except] clause. *)
Lemma s3_bucket_step_raises aws b e f t :
  get_bucket_logging aws b = Raise e ->
  s3_bucket_step aws b (f, t)
  = (Raise (s3_lookup_error aws),
     (incr_buckets_analyzed f, t ++ [GetBucketLogging b])).
Proof.
  intros H.
  unfold s3_bucket_step, bind, try_except_named, update, call. cbn [fst snd].
  rewrite H. reflexivity.
Qed.

Lemma for_each_app {S A} (xs ys : list A) (body : A -> M S unit) s :
  for_each (xs ++ ys) body s
  = bind (for_each xs body) (fun _ => for_each ys body) s.
Proof.
  revert s. induction xs as [|x xs IH]; intros s.
  - reflexivity.
  - cbn [app for_each]. unfold bind.
    destruct (body x s) as [[u|e] s1]; [|reflexivity].
    rewrite IH. reflexivity.
Qed.



(** *** What each analyzer returns *)

Lemma bind_ok {S A B} (m : M S A) (k : A -> M S B) s a s' :
  m s = (Ok a, s') -> bind m k s = k a s'.
Proof. intros H. unfold bind. rewrite H. reflexivity. Qed.

Lemma analyze_cloudtrail_probes aws t :
  exists f tr, analyze_cloudtrail aws t = (Ok f, t ++ ListTrails :: tr).
Proof.
  apply analyzer_probes_first. intros [|name trails]; grows.
Qed.

Lemma analyze_s3_logging_probes aws t :
  exists f tr, analyze_s3_logging aws t = (Ok f, t ++ ListBuckets :: tr).
Proof.
  apply analyzer_probes_first. intros bs. grows.
Qed.

Lemma analyze_cloudwatch_logs_probes aws t :
  exists f tr,
    analyze_cloudwatch_logs aws t = (Ok f, t ++ DescribeLogGroups :: tr).
Proof.
  apply analyzer_probes_first. intros gs. grows.
Qed.

Lemma analyze_rds_logging_probes aws t :
  exists f tr,
    analyze_rds_logging aws t = (Ok f, t ++ DescribeDbInstances :: tr).
Proof.
  apply analyzer_probes_first. intros dbs. grows.
Qed.

(** The IAM analyzer makes its two calls once each, whatever they answer;
    each refusal is turned into the issue of its own handler. *)
Lemma analyze_iam_logging_outcome aws t :
  exists f,
    analyze_iam_logging aws t
    = (Ok f, t ++ [GenerateCredentialReport; ListAccessAnalyzers])
    /\ iam_issues f
       = match generate_credential_report aws with
         | Ok _ => []
         | Raise _ => [credential_reports_issue]
         end
         ++ match list_access_analyzers aws with
            | Ok [] => [access_analyzer_disabled_issue]
            | Ok _ => []
            | Raise _ => [access_analyzer_unavailable_issue]
            end.
Proof.
  unfold analyze_iam_logging. rewrite analyzer_frame.
  unfold iam_body, bind, try_except, call, update. cbn [fst snd].
  destruct (generate_credential_report aws) as [[]|e1];
    destruct (list_access_analyzers aws) as [[|a l]|e2];
    cbn; rewrite <- app_assoc; eexists; split; reflexivity.
Qed.


(** *** C6 and C9 *)












End Analyzers.

(** ** The remediation script generator *)

Section Remediation.

Import RemediationScripts.

Variable template_text : string -> string.
Variable render : string -> list (string * value) -> string.
Variable now : string.
Variable io_error : string -> option exn.
Variable config : value.

Let self := init template_text config.

(** The constructor sets [config] and [templates] and nothing else. *)
Lemma init_attributes :
  map fst self = ["config"; "templates"]
  /\ getattr self "region" = Raise no_region
  /\ exists e, getattr self "account_id" = Raise e
               /\ exn_cls e = AttributeError.
Proof.
  split; [reflexivity|]. split; [reflexivity|].
  eexists. split; reflexivity.
Qed.

Lemma generate_cloudtrail_script_raises findings output_dir fs :
  generate_cloudtrail_script render now io_error
      self findings output_dir fs
  = (Raise no_region, fs).
Proof. reflexivity. Qed.

Lemma generate_s3_logging_script_raises buckets output_dir fs :
  generate_s3_logging_script render now io_error
      self buckets output_dir fs
  = (Raise no_region, fs).
Proof. reflexivity. Qed.

Lemma generate_iam_monitoring_script_raises output_dir fs :
  generate_iam_monitoring_script render now io_error
      self output_dir fs
  = (Raise no_region, fs).
Proof. reflexivity. Qed.

Lemma generate_monitoring_alerts_script_raises output_dir fs :
  generate_monitoring_alerts_script render now io_error
      self output_dir fs
  = (Raise no_region, fs).
Proof. reflexivity. Qed.

(** A script that does not read [self.region] either is written or fails
    on the file system. *)
Lemma generate_cloudwatch_retention_script_outcome groups output_dir :
  exists content, forall fs,
    generate_cloudwatch_retention_script render now io_error
      self groups output_dir fs
    = match io_error (path_join output_dir "setup_cloudwatch_retention.sh")
      with
      | Some e => (Raise e, fs)
      | None =>
          (Ok (path_join output_dir "setup_cloudwatch_retention.sh"),
           fs ++ [(path_join output_dir "setup_cloudwatch_retention.sh",
                   content)])
      end.
Proof.
  eexists. intros fs. lazy beta delta [generate_cloudwatch_retention_script
    generate_rds_logging_script bind template lift write_script self] iota zeta.
  cbn -[String.append path_join]. reflexivity.
Qed.

Lemma generate_rds_logging_script_outcome dbs output_dir :
  exists content, forall fs,
    generate_rds_logging_script render now io_error
      self dbs output_dir fs
    = match io_error (path_join output_dir "setup_rds_logging.sh") with
      | Some e => (Raise e, fs)
      | None =>
          (Ok (path_join output_dir "setup_rds_logging.sh"),
           fs ++ [(path_join output_dir "setup_rds_logging.sh", content)])
      end.
Proof.
  eexists. intros fs. lazy beta delta [generate_cloudwatch_retention_script
    generate_rds_logging_script bind template lift write_script self] iota zeta.
  cbn -[String.append path_join]. reflexivity.
Qed.

Lemma bind_raise {S A B} (m : M S A) (k : A -> M S B) s e s' :
  m s = (Raise e, s') -> bind m k s = (Raise e, s').
Proof. intros H. unfold bind. rewrite H. reflexivity. Qed.

(** A conditional step whose script does not read [self.region]: it goes
    through, or stops on a file system error. *)
Lemma append_when_written cond gen acc fs p content :
  (forall fs0, gen fs0 = match io_error p with
                         | Some e => (Raise e, fs0)
                         | None => (Ok p, fs0 ++ [(p, content)])
                         end) ->
  (exists acc' fs', append_when cond gen acc fs = (Ok acc', fs'))
  \/ (exists e, io_error p = Some e
                /\ append_when cond gen acc fs = (Raise e, fs)).
Proof.
  intros Hgen. destruct cond; cbn [append_when].
  - unfold bind. rewrite Hgen. destruct (io_error p) as [e|] eqn:E.
    + right. exists e. split; reflexivity.
    + left. eexists. eexists. reflexivity.
  - left. eexists. eexists. reflexivity.
Qed.

(** Every path through [generate_all_scripts] ends in an exception. *)
Lemma generate_all_scripts_raises findings output_dir fs :
  exists e fs',
    generate_all_scripts render now io_error self findings output_dir fs
    = (Raise e, fs')
    /\ (e = no_region \/ exists p, io_error p = Some e).
Proof.
  unfold generate_all_scripts.
    destruct (enabled (cloudtrail findings)); cbn [negb].
    2: { exists no_region, fs. split; [|left; reflexivity].
         apply bind_raise. cbn [append_when]. apply bind_raise.
         apply generate_cloudtrail_script_raises. }
    erewrite bind_ok by reflexivity.
    destruct (AwsLogReview.truthy (buckets_without_logging (s3_logging findings))).
    { exists no_region, fs. split; [|left; reflexivity].
      apply bind_raise. cbn [append_when]. apply bind_raise.
      apply generate_s3_logging_script_raises. }
    erewrite bind_ok by reflexivity.
    destruct (generate_cloudwatch_retention_script_outcome
                (log_groups_without_retention (cloudwatch_logs findings))
                output_dir) as [c3 Hc3].
    destruct (append_when_written
                (AwsLogReview.truthy
                   (log_groups_without_retention (cloudwatch_logs findings)))
                _ [] fs _ c3 Hc3) as [[acc3 [fs3 H3]]|[e [He H3]]].
    2: { exists e, fs. split; [apply bind_raise; exact H3|].
         right. eexists. exact He. }
    erewrite bind_ok by exact H3.
    destruct (generate_rds_logging_script_outcome
                (instances_without_logging (rds_logging findings))
                output_dir) as [c4 Hc4].
    destruct (append_when_written
                (AwsLogReview.truthy
                   (instances_without_logging (rds_logging findings)))
                _ acc3 fs3 _ c4 Hc4) as [[acc4 [fs4 H4]]|[e [He H4]]].
    2: { exists e, fs3. split; [apply bind_raise; exact H4|].
         right. eexists. exact He. }
    erewrite bind_ok by exact H4.
    exists no_region, fs4. split; [|left; reflexivity].
    apply bind_raise. cbn [append_when]. apply bind_raise.
    apply generate_iam_monitoring_script_raises.
Qed.

(** C10.  The constructor never sets [region] (nor [account_id]), so for
    every findings input [generate_all_scripts] raises before completing:
    the CloudTrail and S3 generators, when their condition holds, and in
    any case the IAM monitoring generator read [self.region], an
    AttributeError; only a file system error on an earlier script can come
    first.  The script-generation command line therefore always ends with
    exit status 1. *)
Theorem generate_all_scripts_never_completes
        (findings : FindingsReport) (output_dir : string) (fs : files) :
  getattr self "region" = Raise no_region
  /\ exn_cls no_region = AttributeError
  /\ (forall fs0,
        generate_iam_monitoring_script render now io_error self output_dir fs0
        = (Raise no_region, fs0)
        /\ generate_monitoring_alerts_script render now io_error
                                             self output_dir fs0
           = (Raise no_region, fs0)
        /\ generate_cloudtrail_script render now io_error
                                      self findings output_dir fs0
           = (Raise no_region, fs0)
        /\ (forall buckets,
              generate_s3_logging_script render now io_error
                                         self buckets output_dir fs0
              = (Raise no_region, fs0)))
  /\ (exists e fs',
        generate_all_scripts render now io_error self findings output_dir fs
        = (Raise e, fs')
        /\ (e = no_region \/ exists p, io_error p = Some e))
  /\ (forall loaded, exists out fs',
        main template_text render now io_error loaded config output_dir fs
        = (Ok out, fs')
        /\ exit_code out = 1).
Proof.
  split; [reflexivity|]. split; [reflexivity|].
  split.
  { intros fs0. split; [apply generate_iam_monitoring_script_raises|].
    split; [apply generate_monitoring_alerts_script_raises|].
    split; [apply generate_cloudtrail_script_raises|].
    intros buckets. apply generate_s3_logging_script_raises. }
  split; [apply generate_all_scripts_raises|].
  intros loaded. unfold main, try_except.
  destruct loaded as [f|e0].
  - erewrite bind_ok by reflexivity.
    destruct (generate_all_scripts_raises f output_dir fs) as [e [fs' [Hf _]]].
    erewrite bind_raise by exact Hf.
    eexists. eexists. split; reflexivity.
  - erewrite bind_raise by reflexivity.
    eexists. eexists. split; reflexivity.
Qed.

End Remediation.

(** ** The JSON round trip *)

Section JsonRoundTrip.

Import Json.

(** Decoding an encoded object gives the object back on the fragment JSON
    holds as it is. *)
Lemma loads_dumps_native : forall o, json_native o = true -> loads (dumps o) = o.
Proof.
  fix IH 1. intros o. destruct o as [|b|n|s|l|l|d|text]; intros H;
    try reflexivity; try discriminate H.
  - cbn [dumps loads]. f_equal. cbn [json_native] in H.
    induction l as [|x l IHl]; [reflexivity|].
    cbn [forallb] in H. apply andb_true_iff in H. destruct H as [Hx Hl].
    cbn [map]. rewrite (IH x Hx), (IHl Hl). reflexivity.
  - cbn [dumps loads]. f_equal. cbn [json_native] in H.
    induction d as [|[k v] d IHd]; [reflexivity|].
    cbn [forallb] in H. apply andb_true_iff in H. destruct H as [Hkv Hd].
    destruct k as [key|n]; [|discriminate Hkv].
    cbn [map key_text]. rewrite (IH v Hkv), (IHd Hd). reflexivity.
Qed.

(** Outside the fragment the round trip changes the object. *)
Example round_trip_changes_tuples_and_keys :
  loads (dumps (PTuple [PInt 1])) = PList [PInt 1]
  /\ loads (dumps (PDict [(KInt 1, PNone)])) = PDict [(KStr "1", PNone)]
  /\ loads (dumps (POther "2025-01-01")) = PStr "2025-01-01".
Proof. repeat split; reflexivity. Qed.

Lemma native_issues l : forallb json_native (map py_issue l) = true.
Proof. induction l as [|i l IH]; [reflexivity|]. cbn [map forallb]. rewrite IH. reflexivity. Qed.

Lemma native_strs l : forallb json_native (map PStr l) = true.
Proof. induction l as [|i l IH]; [reflexivity|]. cbn [map forallb]. rewrite IH. reflexivity. Qed.

(** The findings dictionary lies within the fragment. *)
Lemma to_py_native f : json_native (to_py f) = true.
Proof.
  unfold to_py, dict, py_issues, py_str_list.
  cbn [map fst snd json_native forallb].
  rewrite !native_issues, !native_strs.
  destruct (s3_bucket (cloudtrail f)); reflexivity.
Qed.

Lemma traverse_issues l : traverse read_issue (map py_issue l) = Ok l.
Proof.
  induction l as [|i l IH]; [reflexivity|].
  cbn [map traverse]. rewrite IH. destruct i; reflexivity.
Qed.

Lemma traverse_strs l : traverse as_str (map PStr l) = Ok l.
Proof.
  induction l as [|i l IH]; [reflexivity|].
  cbn [map traverse]. rewrite IH. reflexivity.
Qed.

(** Reading the dictionaries back gives the record they were built from. *)
Lemma of_py_to_py f : of_py (to_py f) = Ok f.
Proof.
  destruct f as [[a1 a2 a3 a4 a5] [b1 b2 b3 b4] [c1 c2 c3 c4] [d1 d2 d3 d4]
                 [e1 e2 e3] ts n].
  unfold of_py, to_py, read_cloudtrail, read_s3, read_cloudwatch, read_rds,
    read_iam, field, item, dict, py_issues, py_str_list, as_list.
  cbn -[traverse read_issue as_str].
  rewrite !traverse_issues, !traverse_strs.
  destruct a4; reflexivity.
Qed.

Lemma round_trip_identity f : round_trip f = Ok f.
Proof.
  unfold round_trip. rewrite loads_dumps_native by apply to_py_native.
  apply of_py_to_py.
Qed.

Lemma native_recommendations l :
  forallb json_native (map py_recommendation l) = true.
Proof.
  induction l as [|r l IH]; [reflexivity|].
  cbn [map forallb]. rewrite IH. reflexivity.
Qed.

Lemma results_to_py_native results : json_native (results_to_py results) = true.
Proof.
  unfold results_to_py, dict. cbn [map fst snd json_native forallb].
  rewrite to_py_native, native_recommendations. reflexivity.
Qed.

Lemma traverse_recommendations l :
  traverse read_recommendation (map py_recommendation l) = Ok l.
Proof.
  induction l as [|r l IH]; [reflexivity|].
  cbn [map traverse]. rewrite IH. destruct r; reflexivity.
Qed.

(** The two files of the workflow hold what the analysis returned. *)
Lemma workflow_files_read_back results :
  exists saved,
    save_analysis (analysis_output results) = Ok saved
    /\ load_report_inputs saved
       = Ok (AwsLogReview.findings results,
             AwsLogReview.recommendations results).
Proof.
  unfold save_analysis, analysis_output.
  rewrite loads_dumps_native by apply results_to_py_native.
  eexists. split; [reflexivity|].
  unfold load_report_inputs. cbn [fst snd].
  rewrite loads_dumps_native by apply to_py_native.
  rewrite of_py_to_py. cbn [rbind].
  rewrite loads_dumps_native
    by (cbn [json_native]; apply native_recommendations).
  cbn [as_list]. rewrite traverse_recommendations. reflexivity.
Qed.

(** C8.  Serializing a findings report to JSON and parsing it back yields
    a record on which the recommendation deriver produces the same
    recommendation list and the compliance scorer the same score: the
    round trip gives back the very record.  The same holds along the
    complete workflow, where the printed results are parsed, split into a
    findings file and a recommendations file, and loaded again: the
    findings read are the findings analysed and the recommendations read
    are those the deriver yields on them. *)
Theorem json_round_trip_preserves (f : FindingsReport) :
  (exists f',
      round_trip f = Ok f'
      /\ AwsLogReview.generate_recommendations f'
         = AwsLogReview.generate_recommendations f
      /\ ReportGenerator.calculate_compliance_score f'
         = ReportGenerator.calculate_compliance_score f
      /\ f' = f)
  /\ (exists saved f' recs,
        save_analysis
          (analysis_output
             (AwsLogReview.mk_results
                f (AwsLogReview.generate_recommendations f))) = Ok saved
        /\ load_report_inputs saved = Ok (f', recs)
        /\ recs = AwsLogReview.generate_recommendations f'
        /\ ReportGenerator.calculate_compliance_score f'
           = ReportGenerator.calculate_compliance_score f).
Proof.
  split.
  - exists f. rewrite round_trip_identity. repeat split.
  - destruct (workflow_files_read_back
                (AwsLogReview.mk_results
                   f (AwsLogReview.generate_recommendations f)))
      as [saved [Hsave Hload]].
    exists saved, f, (AwsLogReview.generate_recommendations f).
    cbn [AwsLogReview.findings AwsLogReview.recommendations] in Hload.
    repeat split; assumption.
Qed.

End JsonRoundTrip.

Section AnalyzerInvariants.

Import AwsLogReview.

Lemma len_app {A} (l1 l2 : list A) : len (l1 ++ l2) = len l1 + len l2.
Proof. unfold len. rewrite length_app. lia. Qed.

Lemma len_cons {A} (x : A) (l : list A) : len (x :: l) = 1 + len l.
Proof. unfold len. cbn [List.length]. lia. Qed.

Lemma len_nonneg {A} (l : list A) : 0 <= len l.
Proof. unfold len. lia. Qed.

Lemma len_map {A B} (g : A -> B) (l : list A) : len (map g l) = len l.
Proof. unfold len. rewrite length_map. reflexivity. Qed.

Lemma len_filter_split {A} (p : A -> bool) (l : list A) :
  len l = len (filter p l) + len (filter (fun x => negb (p x)) l).
Proof.
  induction l as [|x l IH]; [reflexivity|].
  cbn [filter]. destruct (p x); cbn [negb]; rewrite !len_cons; lia.
Qed.

(** *** The S3 loop, with its counters *)

Lemma s3_bucket_step_counts aws b f t :
  bucket_probe_answers aws b = true ->
  s3_bucket_step aws b (f, t)
  = (Ok tt,
     (mk_s3 (buckets_analyzed f + 1)
            (buckets_with_logging f
             + (if bucket_logged aws b then 1 else 0))
            (buckets_without_logging f
             ++ (if bucket_unlogged aws b then [b] else []))
            (s3_issues f
             ++ (if bucket_unlogged aws b then [s3_unlogged_issue b] else [])),
      t ++ [GetBucketLogging b])).
Proof.
  unfold bucket_probe_answers, bucket_unlogged, bucket_logged.
  unfold s3_bucket_step, record_unlogged_bucket, bind, try_except_named,
    update, call.
  cbn [fst snd]. destruct f as [a w wo i].
  destruct (get_bucket_logging aws b) as [[|]|e]; intros H.
  - cbn. rewrite !app_nil_r. reflexivity.
  - cbn. rewrite Z.add_0_r. reflexivity.
  - discriminate H.
Qed.

Lemma s3_loop_counts aws bs : forall f t,
  Forall (fun b => bucket_probe_answers aws b = true) bs ->
  for_each bs (s3_bucket_step aws) (f, t)
  = (Ok tt,
     (mk_s3 (buckets_analyzed f + len bs)
            (buckets_with_logging f + len (filter (bucket_logged aws) bs))
            (buckets_without_logging f ++ filter (bucket_unlogged aws) bs)
            (s3_issues f
             ++ map s3_unlogged_issue (filter (bucket_unlogged aws) bs)),
      t ++ map GetBucketLogging bs)).
Proof.
  induction bs as [|b bs IH]; intros f t Hs.
  - destruct f. cbn. rewrite !app_nil_r, !Z.add_0_r. reflexivity.
  - inversion Hs as [|? ? Hb Hbs]; subst.
    cbn [for_each]. unfold bind at 1.
    rewrite (s3_bucket_step_counts aws b f t Hb). cbv beta iota.
    rewrite (IH _ _ Hbs).
    cbn [buckets_analyzed buckets_with_logging buckets_without_logging
         s3_issues filter map].
    rewrite len_cons.
    destruct (bucket_logged aws b), (bucket_unlogged aws b); cbn [map];
      rewrite ?len_cons, <- ?app_assoc, ?app_nil_r; cbn [app];
      (do 3 f_equal; lia).
Qed.

(** Among the buckets whose probe answers, the unlogged ones are those
    that are not logged. *)
Lemma unlogged_not_logged aws bs :
  Forall (fun b => bucket_probe_answers aws b = true) bs ->
  filter (fun b => negb (bucket_logged aws b)) bs
  = filter (bucket_unlogged aws) bs.
Proof.
  induction 1 as [|b bs Hb _ IH]; [reflexivity|].
  cbn [filter]. rewrite IH.
  unfold bucket_probe_answers in Hb. unfold bucket_logged, bucket_unlogged.
  destruct (get_bucket_logging aws b) as [[|]|e];
    [reflexivity|reflexivity|discriminate Hb].
Qed.

(** *** CloudWatch and RDS loops, with their counters *)

Lemma cloudwatch_loop_counts gs : forall (f : CloudWatchFindings) (t : trace),
  for_each gs cloudwatch_group_step (f, t)
  = (Ok tt,
     (mk_cloudwatch
        (log_groups f + len gs)
        (log_groups_with_retention f + len (filter has_retention gs))
        (log_groups_without_retention f
         ++ map logGroupName (filter (fun g => negb (has_retention g)) gs))
        (cloudwatch_issues f
         ++ map no_retention_issue
              (map logGroupName (filter (fun g => negb (has_retention g)) gs))),
      t)).
Proof.
  induction gs as [|g gs IH]; intros f t.
  - destruct f. cbn. rewrite !app_nil_r, !Z.add_0_r. reflexivity.
  - cbn [for_each filter]. unfold bind at 1.
    unfold cloudwatch_group_step at 1. unfold bind, update. cbn [fst snd].
    rewrite len_cons.
    destruct (has_retention g); cbn [negb map]; rewrite IH;
      cbn [fst snd log_groups log_groups_with_retention
           log_groups_without_retention
           cloudwatch_issues incr_log_groups incr_log_groups_with_retention
           add_log_group_without_retention add_cloudwatch_issue];
      rewrite ?len_cons, <- ?app_assoc; cbn [app]; (do 3 f_equal; lia).
Qed.


Lemma analyze_s3_logging_answered aws t bs :
  list_buckets aws = Ok bs ->
  Forall (fun b => bucket_probe_answers aws b = true) bs ->
  analyze_s3_logging aws t
  = (Ok (mk_s3 (len bs)
               (len (filter (bucket_logged aws) bs))
               (filter (bucket_unlogged aws) bs)
               (map s3_unlogged_issue (filter (bucket_unlogged aws) bs))),
     t ++ ListBuckets :: map GetBucketLogging bs).
Proof.
  intros Hlist Hanswered.
  apply analyzer_ok. unfold s3_body.
  erewrite bind_ok by (unfold call; rewrite Hlist; reflexivity).
  cbn [fst snd]. rewrite (s3_loop_counts aws bs _ _ Hanswered).
  rewrite <- app_assoc. reflexivity.
Qed.

(** X1.  When the bucket listing succeeds and every per-bucket probe
    answers, the S3 analyzer probes each listed bucket once, in order,
    and its counters add up: every listed bucket is counted, the buckets
    counted as logged are those whose answer holds [LoggingEnabled], the
    buckets listed as unlogged are the others, in listing order, and
    there is one issue for each unlogged bucket. *)
Theorem s3_counters_add_up (aws : Aws) (t : trace) (bs : list string) :
  list_buckets aws = Ok bs ->
  Forall (fun b => bucket_probe_answers aws b = true) bs ->
  exists f,
    analyze_s3_logging aws t
    = (Ok f, t ++ ListBuckets :: map GetBucketLogging bs)
    /\ buckets_analyzed f = len bs
    /\ buckets_with_logging f = len (filter (bucket_logged aws) bs)
    /\ buckets_without_logging f = filter (bucket_unlogged aws) bs
    /\ buckets_analyzed f
       = buckets_with_logging f + len (buckets_without_logging f)
    /\ len (s3_issues f) = len (buckets_without_logging f)
    /\ 0 <= buckets_with_logging f <= buckets_analyzed f.
Proof.
  intros Hlist Hanswered.
  eexists. split; [apply analyze_s3_logging_answered; assumption|].
  cbn [buckets_analyzed buckets_with_logging buckets_without_logging
       s3_issues].
  rewrite len_map.
  pose proof (len_filter_split (bucket_logged aws) bs) as Hsplit.
  rewrite (unlogged_not_logged aws bs Hanswered) in Hsplit.
  pose proof (len_nonneg (filter (bucket_logged aws) bs)).
  pose proof (len_nonneg (filter (bucket_unlogged aws) bs)).
  repeat split; lia.
Qed.

Lemma s3_counters_add_up_witness :
  list_buckets nothing_enabled = Ok ["logs"; "data"; "web"]
  /\ Forall (fun b => bucket_probe_answers nothing_enabled b = true)
            ["logs"; "data"; "web"]
  /\ exists f,
       analyze_s3_logging nothing_enabled []
       = (Ok f, [ListBuckets; GetBucketLogging "logs";
                 GetBucketLogging "data"; GetBucketLogging "web"])
       /\ buckets_analyzed f = 3
       /\ buckets_with_logging f = 1
       /\ buckets_without_logging f = ["data"; "web"].
Proof.
  assert (H : Forall (fun b => bucket_probe_answers nothing_enabled b = true)
                     ["logs"; "data"; "web"])
    by (repeat constructor).
  split; [reflexivity|]. split; [exact H|].
  destruct (s3_counters_add_up nothing_enabled [] ["logs"; "data"; "web"]
              eq_refl H) as [f [Hrun [Ha [Hw [Hwo _]]]]].
  exists f. split; [exact Hrun|]. split; [exact Ha|].
  split; [exact Hw|exact Hwo].
Defined.

(** X2.  When the probe of one bucket raises, whatever it raises, the S3
    analyzer stops there: the buckets listed after it are never probed,
    the findings gathered on the buckets before it are kept, the failing
    bucket has been counted as analyzed although it is neither logged nor
    listed as unlogged, and one HIGH issue is added last.  The text that
    issue carries is not the probe's: the [except] clause of the loop
    raises while looking its class up, and it is the text of that error
    which reaches the outer handler. *)
Theorem s3_probe_failure_stops_the_loop
        (aws : Aws) (t : trace) (pre post : list string) (b : string) (e : exn) :
  list_buckets aws = Ok (pre ++ b :: post) ->
  Forall (fun b => bucket_probe_answers aws b = true) pre ->
  get_bucket_logging aws b = Raise e ->
  exists f,
    analyze_s3_logging aws t
    = (Ok f, t ++ ListBuckets :: map GetBucketLogging (pre ++ [b]))
    /\ buckets_analyzed f = len pre + 1
    /\ buckets_with_logging f = len (filter (bucket_logged aws) pre)
    /\ buckets_without_logging f = filter (bucket_unlogged aws) pre
    /\ s3_issues f
       = map s3_unlogged_issue (filter (bucket_unlogged aws) pre)
         ++ [mk_issue "HIGH"
               ("Error analyzing S3 logging: " +++ s3_exceptions_text aws)
               "10.2.1" "Check S3 permissions and configuration"]
    /\ buckets_analyzed f
       = buckets_with_logging f + len (buckets_without_logging f) + 1.
Proof.
  intros Hlist Hanswered Hb.
  eexists. split.
  { unfold analyze_s3_logging. rewrite analyzer_frame. unfold s3_body.
    erewrite bind_ok by (unfold call; rewrite Hlist; reflexivity).
    cbn [fst snd]. rewrite for_each_app.
    erewrite bind_ok by (apply s3_loop_counts; exact Hanswered).
    cbn [for_each]. unfold bind at 1.
    rewrite (s3_bucket_step_raises aws b e _ _ Hb).
    rewrite map_app. cbn [map]. rewrite <- !app_assoc. reflexivity. }
  cbn [buckets_analyzed buckets_with_logging buckets_without_logging
       s3_issues add_s3_issue incr_buckets_analyzed app].
  pose proof (len_filter_split (bucket_logged aws) pre) as Hsplit.
  rewrite (unlogged_not_logged aws pre Hanswered) in Hsplit.
  repeat split; lia.
Qed.

Lemma s3_probe_failure_stops_the_loop_witness :
  exists f,
    analyze_s3_logging two_trails []
    = (Ok f, [ListBuckets; GetBucketLogging "logs"; GetBucketLogging "data";
              GetBucketLogging "web"])
    /\ buckets_analyzed f = 3
    /\ buckets_with_logging f = 1
    /\ buckets_without_logging f = ["data"]
    /\ s3_issues f
       = [ s3_unlogged_issue "data";
           mk_issue "HIGH" ("Error analyzing S3 logging: " +++ s3_lookup_text)
                    "10.2.1" "Check S3 permissions and configuration" ].
Proof.
  assert (H : Forall (fun b => bucket_probe_answers two_trails b = true)
                     ["logs"; "data"])
    by (repeat constructor).
  destruct (s3_probe_failure_stops_the_loop
              two_trails [] ["logs"; "data"] [] "web"
              (mk_exn ClientError "AccessDenied") eq_refl H eq_refl)
    as [f [Hrun [Ha [Hw [Hwo [Hi _]]]]]].
  exists f. split; [exact Hrun|]. split; [exact Ha|]. split; [exact Hw|].
  split; [exact Hwo|exact Hi].
Defined.

(** X3.  The CloudWatch Logs analyzer makes exactly one call and always
    returns findings whose counters add up: the number of groups with a
    retention policy plus the number of groups listed without one is the
    number of groups counted.  On a successful listing every group is
    counted and there is one issue per group without retention; on a
    failed listing all counters are zero and the only issue is the HIGH
    error issue. *)
Theorem cloudwatch_counters_add_up (aws : Aws) (t : trace) :
  exists f,
    analyze_cloudwatch_logs aws t = (Ok f, t ++ [DescribeLogGroups])
    /\ log_groups f
       = log_groups_with_retention f + len (log_groups_without_retention f)
    /\ 0 <= log_groups_with_retention f <= log_groups f
    /\ match describe_log_groups aws with
       | Ok gs =>
           log_groups f = len gs
           /\ log_groups_with_retention f = len (filter has_retention gs)
           /\ len (cloudwatch_issues f) = len (log_groups_without_retention f)
       | Raise e => f = mk_cloudwatch 0 0 [] [cloudwatch_error_issue e]
       end.
Proof.
  unfold analyze_cloudwatch_logs. rewrite analyzer_frame.
  unfold cloudwatch_body, bind, call. cbn [fst snd].
  destruct (describe_log_groups aws) as [gs|e].
  - rewrite cloudwatch_loop_counts. eexists. split; [reflexivity|].
    cbn [log_groups log_groups_with_retention log_groups_without_retention
         cloudwatch_issues app].
    rewrite !len_map.
    pose proof (len_filter_split has_retention gs).
    pose proof (len_nonneg (filter has_retention gs)).
    pose proof (len_nonneg (filter (fun g => negb (has_retention g)) gs)).
    repeat split; lia.
  - eexists. split; [reflexivity|]. cbn. repeat split; lia.
Qed.


End AnalyzerInvariants.

Section CloudTrailAnalysis.

Import AwsLogReview.

(** One turn of the trail loop when both probes answer. *)
Lemma cloudtrail_trail_answers aws name ti lg f t :
  get_trail aws name = Ok ti ->
  get_trail_status aws name = Ok lg ->
  cloudtrail_trail aws name (f, t)
  = (Ok tt,
     (mk_cloudtrail
        (enabled f || lg)
        (multi_region f || (lg && IsMultiRegionTrail ti))
        (log_file_validation f || (lg && LogFileValidationEnabled ti))
        (if lg then Some (S3BucketName ti) else s3_bucket f)
        (cloudtrail_issues f
         ++ (if lg then
               if LogFileValidationEnabled ti then []
               else [no_validation_issue name]
             else [not_logging_issue name])),
      (t ++ [GetTrail name]) ++ [GetTrailStatus name])).
Proof.
  intros Hi Hs.
  unfold cloudtrail_trail, bind, call, update, ret. cbn [fst snd].
  rewrite Hi, Hs. destruct f as [en mr lv sb iss].
  destruct lg; cbn [fst snd].
  - destruct (IsMultiRegionTrail ti), (LogFileValidationEnabled ti); cbn;
      rewrite ?orb_true_r, ?orb_false_r, ?app_nil_r; reflexivity.
  - cbn. rewrite !orb_false_r. reflexivity.
Qed.

Lemma cloudtrail_loop aws info logging trails : forall f t,
  Forall (fun n => get_trail aws n = Ok (info n)
                   /\ get_trail_status aws n = Ok (logging n)) trails ->
  for_each trails (cloudtrail_trail aws) (f, t)
  = (Ok tt,
     (mk_cloudtrail
        (enabled f || existsb logging trails)
        (multi_region f
         || existsb (fun n => logging n && IsMultiRegionTrail (info n)) trails)
        (log_file_validation f
         || existsb (fun n => logging n && LogFileValidationEnabled (info n))
                    trails)
        (fold_left (fun acc n => if logging n
                                 then Some (S3BucketName (info n)) else acc)
                   trails (s3_bucket f))
        (cloudtrail_issues f ++ flat_map (trail_issues info logging) trails),
      t ++ flat_map (fun n => [GetTrail n; GetTrailStatus n]) trails)).
Proof.
  induction trails as [|n trails IH]; intros f t Hall.
  - destruct f. cbn. rewrite !orb_false_r, !app_nil_r. reflexivity.
  - inversion Hall as [|? ? [Hi Hs] Hrest]; subst.
    cbn [for_each]. unfold bind at 1.
    rewrite (cloudtrail_trail_answers aws n _ _ f t Hi Hs). cbv beta iota.
    rewrite (IH _ _ Hrest).
    cbn [enabled multi_region log_file_validation s3_bucket cloudtrail_issues
         existsb fold_left flat_map].
    unfold trail_issues at 2.
    rewrite !orb_assoc, <- !app_assoc. reflexivity.
Qed.

Lemma last_nonempty_default {A} (x : A) l d d' :
  last (x :: l) d = last (x :: l) d'.
Proof.
  revert x. induction l as [|y l IH]; intros x; [reflexivity|].
  change (last (y :: l) d = last (y :: l) d'). apply IH.
Qed.

(** The bucket kept is that of the last logging trail. *)
Lemma last_logging_bucket (bucket : string -> string) (logging : string -> bool)
      trails : forall acc,
  fold_left (fun acc n => if logging n then Some (bucket n) else acc) trails acc
  = last (map (fun n => Some (bucket n)) (filter logging trails)) acc.
Proof.
  induction trails as [|n trails IH]; intros acc; [reflexivity|].
  cbn [fold_left filter]. rewrite IH.
  destruct (logging n); [|reflexivity].
  cbn [map]. destruct (map _ (filter logging trails)) eqn:E; [reflexivity|].
  change (last (o :: l) (Some (bucket n)) = last (o :: l) acc).
  apply last_nonempty_default.
Qed.

(** X5.  When the listing returns trails and both probes of every trail
    answer, the CloudTrail analyzer probes each trail once, in order, and
    its flags summarise the trails: [enabled] holds when some trail is
    logging, [multi_region] and [log_file_validation] when some logging
    trail has the property, [s3_bucket] is the bucket of the last logging
    trail, and the issues are, trail by trail, one HIGH issue for a trail
    that is not logging and one MEDIUM issue for a logging trail without
    log file validation. *)
Theorem cloudtrail_flags_summarise_trails
        (aws : Aws) (t : trace) (trails : list string)
        (info : string -> TrailInfo) (logging : string -> bool) :
  list_trails aws = Ok trails ->
  trails <> [] ->
  Forall (fun n => get_trail aws n = Ok (info n)
                   /\ get_trail_status aws n = Ok (logging n)) trails ->
  exists f,
    analyze_cloudtrail aws t
    = (Ok f, t ++ ListTrails
               :: flat_map (fun n => [GetTrail n; GetTrailStatus n]) trails)
    /\ enabled f = existsb logging trails
    /\ multi_region f
       = existsb (fun n => logging n && IsMultiRegionTrail (info n)) trails
    /\ log_file_validation f
       = existsb (fun n => logging n && LogFileValidationEnabled (info n))
                 trails
    /\ s3_bucket f
       = last (map (fun n => Some (S3BucketName (info n)))
                   (filter logging trails)) None
    /\ cloudtrail_issues f = flat_map (trail_issues info logging) trails
    /\ (forall i, In i (cloudtrail_issues f) ->
          (severity i = "HIGH" /\ pci_reference i = "10.2.1-10.2.7")
          \/ (severity i = "MEDIUM" /\ pci_reference i = "10.5.2")).
Proof.
  intros Hlist Hne Hall.
  eexists. split.
  { apply analyzer_ok. unfold cloudtrail_body.
    erewrite bind_ok by (unfold call; rewrite Hlist; reflexivity).
    cbn [fst snd].
    destruct trails as [|n trails]; [contradiction|].
    rewrite (cloudtrail_loop aws info logging _ _ _ Hall).
    rewrite <- app_assoc. reflexivity. }
  cbn [enabled multi_region log_file_validation s3_bucket cloudtrail_issues
       orb app].
  rewrite last_logging_bucket.
  repeat split.
  intros i Hi. apply in_flat_map in Hi. destruct Hi as [n [_ Hi]].
  unfold trail_issues in Hi.
  destruct (logging n); [destruct (LogFileValidationEnabled (info n))|];
    cbn [In] in Hi.
  - contradiction.
  - destruct Hi as [<-|[]]. right. split; reflexivity.
  - destruct Hi as [<-|[]]. left. split; reflexivity.
Qed.

Lemma cloudtrail_flags_summarise_trails_witness :
  exists f,
    analyze_cloudtrail two_trails []
    = (Ok f, [ListTrails; GetTrail "main"; GetTrailStatus "main";
              GetTrail "old"; GetTrailStatus "old"])
    /\ enabled f = true
    /\ s3_bucket f = Some "audit"
    /\ cloudtrail_issues f = [not_logging_issue "old"].
Proof.
  pose (info := fun n => if String.eqb n "main"
                         then mk_trail_info "audit" true true
                         else mk_trail_info "legacy" false false).
  assert (H : Forall (fun n => get_trail two_trails n = Ok (info n)
                               /\ get_trail_status two_trails n
                                  = Ok (String.eqb n "main"))
                     ["main"; "old"])
    by (repeat constructor).
  destruct (cloudtrail_flags_summarise_trails
              two_trails [] ["main"; "old"] info
              (fun n => String.eqb n "main") eq_refl
              ltac:(discriminate) H)
    as [f [Hrun [He [_ [_ [Hb [Hi _]]]]]]].
  exists f. split; [exact Hrun|]. split; [exact He|].
  split; [exact Hb|exact Hi].
Defined.

End CloudTrailAnalysis.

Section WholeAnalysis.

Import AwsLogReview.

(** [run_analysis] is the five analyzers one after the other, the totals
    and the deriver. *)
Lemma run_analysis_components aws t :
  exists f1 f2 f3 f4 f5 t1 t2 t3 t4 t5,
    analyze_cloudtrail aws t = (Ok f1, t1)
    /\ analyze_s3_logging aws t1 = (Ok f2, t2)
    /\ analyze_cloudwatch_logs aws t2 = (Ok f3, t3)
    /\ analyze_rds_logging aws t3 = (Ok f4, t4)
    /\ analyze_iam_logging aws t4 = (Ok f5, t5)
    /\ run_analysis aws t
       = (Ok (mk_results
                (mk_findings f1 f2 f3 f4 f5 (now_isoformat aws)
                   (len (cloudtrail_issues f1) + len (s3_issues f2)
                    + len (cloudwatch_issues f3) + len (rds_issues f4)
                    + len (iam_issues f5)))
                (generate_recommendations
                   (mk_findings f1 f2 f3 f4 f5 (now_isoformat aws)
                      (len (cloudtrail_issues f1) + len (s3_issues f2)
                       + len (cloudwatch_issues f3) + len (rds_issues f4)
                       + len (iam_issues f5))))),
          t5).
Proof.
  destruct (analyze_cloudtrail_probes aws t) as [f1 [tr1 H1]].
  destruct (analyze_s3_logging_probes aws (t ++ ListTrails :: tr1))
    as [f2 [tr2 H2]].
  destruct (analyze_cloudwatch_logs_probes aws
              ((t ++ ListTrails :: tr1) ++ ListBuckets :: tr2))
    as [f3 [tr3 H3]].
  destruct (analyze_rds_logging_probes aws
              (((t ++ ListTrails :: tr1) ++ ListBuckets :: tr2)
               ++ DescribeLogGroups :: tr3))
    as [f4 [tr4 H4]].
  destruct (analyze_iam_logging_outcome aws
              ((((t ++ ListTrails :: tr1) ++ ListBuckets :: tr2)
                ++ DescribeLogGroups :: tr3) ++ DescribeDbInstances :: tr4))
    as [f5 [H5 _]].
  exists f1, f2, f3, f4, f5. do 5 eexists.
  split; [exact H1|]. split; [exact H2|]. split; [exact H3|].
  split; [exact H4|]. split; [exact H5|].
  unfold run_analysis.
  erewrite bind_ok by exact H1. erewrite bind_ok by exact H2.
  erewrite bind_ok by exact H3. erewrite bind_ok by exact H4.
  erewrite bind_ok by exact H5.
  reflexivity.
Qed.

(** X6.  [run_analysis] always returns, and what it returns is
    consistent: the stored issue total is the number of issues in the five
    lists, the time stamp is the clock's, the recommendations are those
    the deriver gives for the stored findings, and the console report made
    from the results shows as its total exactly the number of rows of its
    issue table. *)
Theorem run_analysis_totals_are_consistent (aws : Aws) (t : trace) :
  exists results t',
    run_analysis aws t = (Ok results, t')
    /\ total_issues (findings results) = len (service_issues (findings results))
    /\ timestamp (findings results) = now_isoformat aws
    /\ recommendations results = generate_recommendations (findings results)
    /\ exists report,
         generate_report results = Ok report
         /\ shown_total_issues report = len (shown_issues report)
         /\ shown_recommendations report = len (recommendations results)
         /\ map issue_pci_reference (shown_issues report)
            = map pci_reference (service_issues (findings results)).
Proof.
  destruct (run_analysis_components aws t)
    as [f1 [f2 [f3 [f4 [f5 [t1 [t2 [t3 [t4 [t5 [_ [_ [_ [_ [_ Hrun]]]]]]]]]]]]]]].
  do 2 eexists. split; [exact Hrun|].
  cbn [findings recommendations total_issues timestamp].
  split.
  { unfold service_issues.
    cbn [cloudtrail s3_logging cloudwatch_logs rds_logging iam_logging].
    rewrite !len_app. lia. }
  split; [reflexivity|]. split; [reflexivity|].
  unfold generate_report. cbn [findings recommendations].
  rewrite collect_all_issues_items.
  eexists. split; [reflexivity|].
  cbn [shown_total_issues shown_recommendations shown_issues total_issues
       cloudtrail s3_logging cloudwatch_logs rds_logging iam_logging].
  split; [rewrite !len_app, !len_map; lia|].
  split; [reflexivity|].
  unfold service_issues.
  cbn [cloudtrail s3_logging cloudwatch_logs rds_logging iam_logging].
  rewrite !map_app, !report_issue_reference. reflexivity.
Qed.

(** The recommendations of one category. *)
Lemma recommendations_by_category f :
  filter (fun r => String.eqb (category r) "S3") (generate_recommendations f)
  = (if truthy (buckets_without_logging (s3_logging f))
     then [s3_recommendation (buckets_without_logging (s3_logging f))]
     else [])
  /\ filter (fun r => String.eqb (category r) "CloudWatch")
            (generate_recommendations f)
     = (if truthy (log_groups_without_retention (cloudwatch_logs f))
        then [cloudwatch_recommendation
                (log_groups_without_retention (cloudwatch_logs f))]
        else [])
  /\ filter (fun r => String.eqb (category r) "RDS")
            (generate_recommendations f)
     = (if truthy (instances_without_logging (rds_logging f))
        then [rds_recommendation (instances_without_logging (rds_logging f))]
        else [])
  /\ filter (fun r => String.eqb (category r) "CloudTrail")
            (generate_recommendations f)
     = (if enabled (cloudtrail f) then [] else [enable_cloudtrail_recommendation])
       ++ (if multi_region (cloudtrail f) then []
           else [multi_region_recommendation]).
Proof.
  unfold generate_recommendations, append_if.
  destruct (enabled (cloudtrail f)), (multi_region (cloudtrail f)),
    (truthy (buckets_without_logging (s3_logging f))),
    (truthy (log_groups_without_retention (cloudwatch_logs f))),
    (truthy (instances_without_logging (rds_logging f)));
    cbn [negb app filter category s3_recommendation cloudwatch_recommendation
         rds_recommendation enable_cloudtrail_recommendation
         multi_region_recommendation];
    repeat split.
Qed.

(** X7.  From probes to script: when the bucket listing succeeds and
    every per-bucket probe answers, the whole analysis stores the unlogged
    buckets (those whose answer holds no [LoggingEnabled]) in listing order, derives one S3 recommendation exactly when
    there is an unlogged bucket, and (bucket names holding no line feed)
    the script of that recommendation has one invocation per unlogged
    bucket, in listing order, while its description states their number. *)
Theorem analysis_s3_recommendation_covers_unlogged
        (aws : Aws) (t : trace) (bs : list string) :
  list_buckets aws = Ok bs ->
  Forall (fun b => bucket_probe_answers aws b = true) bs ->
  Forall (fun b => single_line b = true) bs ->
  let unlogged := filter (bucket_unlogged aws) bs in
  exists results t',
    run_analysis aws t = (Ok results, t')
    /\ buckets_without_logging (s3_logging (findings results)) = unlogged
    /\ filter (fun r => String.eqb (category r) "S3") (recommendations results)
       = match unlogged with
         | [] => []
         | _ => [s3_recommendation unlogged]
         end
    /\ bucket_arguments (script (s3_recommendation unlogged)) = unlogged
    /\ count_invocations (script (s3_recommendation unlogged))
       = List.length unlogged
    /\ rec_description (s3_recommendation unlogged)
       = "Enable access logging for " +++ str_of_nat (List.length unlogged)
         +++ " S3 buckets".
Proof.
  intros Hlist Hanswered Hlines unlogged.
  destruct (run_analysis_components aws t)
    as [f1 [f2 [f3 [f4 [f5 [t1 [t2 [t3 [t4 [t5 [_ [H2 [_ [_ [_ Hrun]]]]]]]]]]]]]]].
  rewrite (analyze_s3_logging_answered aws t1 bs Hlist Hanswered) in H2.
  injection H2 as <- _.
  do 2 eexists. split; [exact Hrun|].
  cbn [findings recommendations s3_logging buckets_without_logging].
  split; [reflexivity|].
  split.
  { rewrite (proj1 (recommendations_by_category _)).
    cbn [s3_logging buckets_without_logging]. fold unlogged.
    destruct unlogged; reflexivity. }
  assert (Hul : Forall (fun b => single_line b = true) unlogged).
  { apply Forall_forall. intros b Hb. apply filter_In in Hb.
    rewrite Forall_forall in Hlines. apply Hlines. tauto. }
  cbn [script rec_description s3_recommendation].
  unfold count_invocations, bucket_arguments.
  rewrite (s3_script_lines unlogged Hul).
  split; [|split; [|reflexivity]].
  - rewrite !flat_map_app, block_bucket_arguments. apply app_nil_r.
  - rewrite !filter_app, !length_app, count_block_invocations.
    change (List.length (filter is_invocation
              ["#!/bin/bash"; "# Enable S3 access logging for buckets"]))
      with 0%nat.
    change (List.length (filter is_invocation
              ["echo " +++ dq +++ "S3 access logging enabled for all buckets"
               +++ dq]))
      with 0%nat.
    lia.
Qed.

Lemma analysis_s3_recommendation_covers_unlogged_witness :
  exists results t',
    run_analysis nothing_enabled [] = (Ok results, t')
    /\ buckets_without_logging (s3_logging (findings results))
       = ["data"; "web"]
    /\ bucket_arguments (script (s3_recommendation ["data"; "web"]))
       = ["data"; "web"]
    /\ count_invocations (script (s3_recommendation ["data"; "web"])) = 2%nat.
Proof.
  assert (H1 : Forall (fun b => bucket_probe_answers nothing_enabled b = true)
                      ["logs"; "data"; "web"])
    by (repeat constructor).
  assert (H2 : Forall (fun b => single_line b = true) ["logs"; "data"; "web"])
    by (repeat constructor).
  destruct (analysis_s3_recommendation_covers_unlogged
              nothing_enabled [] ["logs"; "data"; "web"] eq_refl H1 H2)
    as [results [t' [Hrun [Hu [_ [Hargs [Hcount _]]]]]]].
  exists results, t'.
  split; [exact Hrun|]. split; [exact Hu|]. split; [exact Hargs|exact Hcount].
Defined.

End WholeAnalysis.

Section FailedListings.

Import AwsLogReview.

(** X8.  A listing that fails leaves a HIGH issue but, for S3, CloudWatch
    Logs and RDS, never a recommendation: the deriver looks at the lists
    of unlogged resources only, and those are empty.  For CloudTrail it is
    the other way round: a failed trail listing leaves the flags unset, so
    both CloudTrail recommendations are derived although no trail was
    seen. *)
Theorem failed_listing_issue_without_recommendation (aws : Aws) (t : trace) :
  exists results t',
    run_analysis aws t = (Ok results, t')
    /\ (forall e, list_trails aws = Raise e ->
          cloudtrail (findings results)
          = mk_cloudtrail false false false None [cloudtrail_error_issue e]
          /\ filter (fun r => String.eqb (category r) "CloudTrail")
                    (recommendations results)
             = [enable_cloudtrail_recommendation; multi_region_recommendation])
    /\ (forall e, list_buckets aws = Raise e ->
          s3_logging (findings results) = mk_s3 0 0 [] [s3_error_issue e]
          /\ filter (fun r => String.eqb (category r) "S3")
                    (recommendations results) = [])
    /\ (forall e, describe_log_groups aws = Raise e ->
          cloudwatch_logs (findings results)
          = mk_cloudwatch 0 0 [] [cloudwatch_error_issue e]
          /\ filter (fun r => String.eqb (category r) "CloudWatch")
                    (recommendations results) = [])
    /\ (forall e, describe_db_instances aws = Raise e ->
          rds_logging (findings results) = mk_rds 0 0 [] [rds_error_issue e]
          /\ filter (fun r => String.eqb (category r) "RDS")
                    (recommendations results) = []).
Proof.
  destruct (run_analysis_components aws t)
    as [f1 [f2 [f3 [f4 [f5 [t1 [t2 [t3 [t4 [t5
         [H1 [H2 [H3 [H4 [_ Hrun]]]]]]]]]]]]]]].
  do 2 eexists. split; [exact Hrun|].
  cbn [findings recommendations].
  destruct (recommendations_by_category
              (mk_findings f1 f2 f3 f4 f5 (now_isoformat aws)
                 (len (cloudtrail_issues f1) + len (s3_issues f2)
                  + len (cloudwatch_issues f3) + len (rds_issues f4)
                  + len (iam_issues f5))))
    as [Rs3 [Rcw [Rrds Rct]]].
  rewrite Rs3, Rcw, Rrds, Rct.
  cbn [cloudtrail s3_logging cloudwatch_logs rds_logging].
  repeat split.
  - revert H1. unfold analyze_cloudtrail. rewrite analyzer_frame.
    unfold cloudtrail_body, bind, call. rewrite H. cbn.
    intros H1. injection H1 as <- _. reflexivity.
  - revert H1. unfold analyze_cloudtrail. rewrite analyzer_frame.
    unfold cloudtrail_body, bind, call. rewrite H. cbn.
    intros H1. injection H1 as <- _. reflexivity.
  - revert H2. unfold analyze_s3_logging. rewrite analyzer_frame.
    unfold s3_body, bind, call. rewrite H. cbn.
    intros H2. injection H2 as <- _. reflexivity.
  - revert H2. unfold analyze_s3_logging. rewrite analyzer_frame.
    unfold s3_body, bind, call. rewrite H. cbn.
    intros H2. injection H2 as <- _. reflexivity.
  - revert H3. unfold analyze_cloudwatch_logs. rewrite analyzer_frame.
    unfold cloudwatch_body, bind, call. rewrite H. cbn.
    intros H3. injection H3 as <- _. reflexivity.
  - revert H3. unfold analyze_cloudwatch_logs. rewrite analyzer_frame.
    unfold cloudwatch_body, bind, call. rewrite H. cbn.
    intros H3. injection H3 as <- _. reflexivity.
  - revert H4. unfold analyze_rds_logging. rewrite analyzer_frame.
    unfold rds_body, bind, call. rewrite H. cbn.
    intros H4. injection H4 as <- _. reflexivity.
  - revert H4. unfold analyze_rds_logging. rewrite analyzer_frame.
    unfold rds_body, bind, call. rewrite H. cbn.
    intros H4. injection H4 as <- _. reflexivity.
Qed.

Lemma failed_listing_issue_without_recommendation_witness :
  exists results t',
    run_analysis credential_report_refused [] = (Ok results, t')
    /\ filter (fun r => String.eqb (category r) "CloudTrail")
              (recommendations results)
       = [enable_cloudtrail_recommendation; multi_region_recommendation]
    /\ filter (fun r => String.eqb (category r) "S3")
              (recommendations results) = []
    /\ filter (fun r => String.eqb (category r) "RDS")
              (recommendations results) = [].
Proof.
  destruct (failed_listing_issue_without_recommendation
              credential_report_refused [])
    as [results [t' [Hrun [Hct [Hs3 [_ Hrds]]]]]].
  exists results, t'. split; [exact Hrun|]. split; [|split].
  - exact (proj2 (Hct _ eq_refl)).
  - exact (proj2 (Hs3 _ eq_refl)).
  - exact (proj2 (Hrds _ eq_refl)).
Defined.

End FailedListings.

Section OtherScripts.

Import AwsLogReview.

Lemma concat_cons (x : string) (l : list string) :
  String.concat EmptyString (x :: l) = x +++ String.concat EmptyString l.
Proof. destruct l; simpl; [rewrite append_nil_r|]; reflexivity. Qed.

(** Blocks of whole lines split into their lines, block by block. *)
Lemma split_lines_blocks (block : string -> string)
      (lines : string -> list string) names rest :
  (forall x rest, single_line x = true ->
                  split_lines (block x +++ rest) = lines x ++ split_lines rest) ->
  Forall (fun x => single_line x = true) names ->
  split_lines (String.concat EmptyString (map block names) +++ rest)
  = flat_map lines names ++ split_lines rest.
Proof.
  intros Hblock. induction 1 as [|x l Hx Hl IH]; [reflexivity|].
  cbn [map flat_map].
  rewrite concat_cons, append_assoc, Hblock by assumption.
  rewrite IH, <- app_assoc. reflexivity.
Qed.

Lemma split_lines_cloudwatch_block g rest :
  single_line g = true ->
  split_lines (cloudwatch_block g +++ rest)
  = retention_lines g ++ split_lines rest.
Proof.
  intros Hg.
  assert (E : cloudwatch_block g +++ rest
              = ("aws logs put-retention-policy " +++ bs) +++ nl +++
                ("    --log-group-name " +++ dq +++ g +++ dq +++ " " +++ bs)
                  +++ nl +++
                "    --retention-in-days 365" +++ nl +++
                EmptyString +++ nl +++ rest).
  { unfold cloudwatch_block. rewrite !append_assoc. reflexivity. }
  rewrite E.
  rewrite split_lines_line by reflexivity.
  rewrite split_lines_line
    by (rewrite !single_line_append, Hg; reflexivity).
  rewrite split_lines_line by reflexivity.
  rewrite split_lines_line by reflexivity.
  reflexivity.
Qed.

Lemma split_lines_rds_block i rest :
  single_line i = true ->
  split_lines (rds_block i +++ rest) = rds_lines i ++ split_lines rest.
Proof.
  intros Hi.
  assert (E : rds_block i +++ rest
              = ("aws rds modify-db-instance " +++ bs) +++ nl +++
                ("    --db-instance-identifier " +++ dq +++ i +++ dq +++ " "
                 +++ bs) +++ nl +++
                ("    --enable-cloudwatch-logs-exports " +++ dq
                 +++ "error,general,slow-query" +++ dq +++ " " +++ bs)
                  +++ nl +++
                "    --apply-immediately" +++ nl +++
                EmptyString +++ nl +++ rest).
  { unfold rds_block. rewrite !append_assoc. reflexivity. }
  rewrite E.
  rewrite split_lines_line by reflexivity.
  rewrite split_lines_line
    by (rewrite !single_line_append, Hi; reflexivity).
  rewrite split_lines_line by reflexivity.
  rewrite split_lines_line by reflexivity.
  rewrite split_lines_line by reflexivity.
  reflexivity.
Qed.

Lemma cloudwatch_script_lines groups :
  Forall (fun g => single_line g = true) groups ->
  split_lines (_generate_cloudwatch_retention_script groups)
  = ["#!/bin/bash"; "# Set retention policies for CloudWatch log groups"]
    ++ flat_map retention_lines groups
    ++ ["echo " +++ dq +++ "Retention policies set for all log groups" +++ dq].
Proof.
  intros Hg. unfold _generate_cloudwatch_retention_script.
  rewrite fold_left_append, !append_assoc.
  rewrite split_lines_line by reflexivity.
  rewrite split_lines_line by reflexivity.
  rewrite (split_lines_blocks cloudwatch_block retention_lines)
    by (assumption || apply split_lines_cloudwatch_block).
  reflexivity.
Qed.

Lemma rds_script_lines dbs :
  Forall (fun i => single_line i = true) dbs ->
  split_lines (_generate_rds_logging_script dbs)
  = ["#!/bin/bash"; "# Enable CloudWatch logging for RDS instances"]
    ++ flat_map rds_lines dbs
    ++ ["echo " +++ dq +++ "CloudWatch logging enabled for all RDS instances"
        +++ dq].
Proof.
  intros Hi. unfold _generate_rds_logging_script.
  rewrite fold_left_append, !append_assoc.
  rewrite split_lines_line by reflexivity.
  rewrite split_lines_line by reflexivity.
  rewrite (split_lines_blocks rds_block rds_lines)
    by (assumption || apply split_lines_rds_block).
  reflexivity.
Qed.

Lemma quoted_argument_line flag value :
  quoted_argument flag
    ("    " +++ flag +++ " " +++ dq +++ value +++ dq +++ " " +++ bs)
  = Some value.
Proof.
  unfold quoted_argument.
  replace ("    " +++ flag +++ " " +++ dq +++ value +++ dq +++ " " +++ bs)
    with (("    " +++ flag +++ " " +++ dq) +++ value +++ dq +++ " " +++ bs)
    by (rewrite !append_assoc; reflexivity).
  rewrite strip_prefix_append. apply strip_suffix_append.
Qed.

Lemma filter_flat_map_length {A} (p : string -> bool) (lines : A -> list string)
      (l : list A) n :
  (forall x, List.length (filter p (lines x)) = n) ->
  List.length (filter p (flat_map lines l)) = (n * List.length l)%nat.
Proof.
  intros H. induction l as [|x l IH]; [simpl; lia|].
  cbn [flat_map]. rewrite filter_app, length_app, H, IH. simpl. lia.
Qed.

Lemma flat_map_blocks {A B C} (g : B -> list C) (lines : A -> list B)
      (val : A -> C) (l : list A) :
  (forall x, flat_map g (lines x) = [val x]) ->
  flat_map g (flat_map lines l) = map val l.
Proof.
  intros H. induction l as [|x l IH]; [reflexivity|].
  cbn [flat_map map]. rewrite flat_map_app, H, IH. reflexivity.
Qed.

Lemma argument_of_line flag value :
  argument_of flag
    ("    " +++ flag +++ " " +++ dq +++ value +++ dq +++ " " +++ bs)
  = [value].
Proof. unfold argument_of. rewrite quoted_argument_line. reflexivity. Qed.

(** X9.  For every list of N log group names (none holds a line feed),
    the CloudWatch retention script has, after its two header lines, four
    lines per group in input order and then the closing line: exactly N
    [aws logs put-retention-policy] invocations, naming the groups in
    input order, each with a retention of 365 days.  For an empty list
    the script is the two header lines and the closing line. *)
Theorem cloudwatch_script_one_policy_per_group (groups : list string) :
  Forall (fun g => single_line g = true) groups ->
  let script := _generate_cloudwatch_retention_script groups in
  split_lines script
  = ["#!/bin/bash"; "# Set retention policies for CloudWatch log groups"]
    ++ flat_map retention_lines groups
    ++ ["echo " +++ dq +++ "Retention policies set for all log groups" +++ dq]
  /\ List.length (lines_starting "aws logs put-retention-policy" script)
     = List.length groups
  /\ quoted_arguments "--log-group-name" script = groups
  /\ List.length (filter (String.eqb "    --retention-in-days 365")
                         (split_lines script))
     = List.length groups.
Proof.
  intros Hg script. subst script.
  unfold lines_starting, quoted_arguments.
  rewrite (cloudwatch_script_lines groups Hg).
  split; [reflexivity|]. split; [|split].
  - rewrite !filter_app, !length_app.
    rewrite (filter_flat_map_length _ retention_lines groups 1)
      by (intros x; reflexivity).
    cbn. lia.
  - rewrite !flat_map_app.
    rewrite (flat_map_blocks _ retention_lines (fun g => g)).
    + rewrite map_id. cbn [flat_map].
      change (argument_of "--log-group-name" "#!/bin/bash") with (@nil string).
      change (argument_of "--log-group-name"
                "# Set retention policies for CloudWatch log groups")
        with (@nil string).
      change (argument_of "--log-group-name"
                ("echo " +++ dq
                 +++ "Retention policies set for all log groups" +++ dq))
        with (@nil string).
      cbn [app]. apply app_nil_r.
    + intros g. unfold retention_lines. cbn [flat_map].
      change ("    --log-group-name " +++ dq +++ g +++ dq +++ " " +++ bs)
        with ("    " +++ "--log-group-name" +++ " " +++ dq +++ g +++ dq +++ " "
              +++ bs).
      rewrite argument_of_line. reflexivity.
  - rewrite !filter_app, !length_app.
    rewrite (filter_flat_map_length _ retention_lines groups 1)
      by (intros x; reflexivity).
    cbn. lia.
Qed.

Lemma cloudwatch_script_one_policy_per_group_witness :
  Forall (fun g => single_line g = true) ["/aws/lambda/app1"; "/aws/rds/db"]
  /\ quoted_arguments "--log-group-name"
       (_generate_cloudwatch_retention_script ["/aws/lambda/app1"; "/aws/rds/db"])
     = ["/aws/lambda/app1"; "/aws/rds/db"].
Proof.
  assert (H : Forall (fun g => single_line g = true)
                     ["/aws/lambda/app1"; "/aws/rds/db"])
    by (repeat constructor).
  split; [exact H|].
  exact (proj1 (proj2 (proj2 (cloudwatch_script_one_policy_per_group _ H)))).
Defined.

(** X10.  For every list of N instance identifiers (none holds a line
    feed), the RDS logging script has, after its two header lines, five
    lines per instance in input order and then the closing line: exactly N
    [aws rds modify-db-instance] invocations, naming the instances in
    input order, each enabling the exports "error,general,slow-query" and
    applying immediately. *)
Theorem rds_script_one_command_per_instance (dbs : list string) :
  Forall (fun i => single_line i = true) dbs ->
  let script := _generate_rds_logging_script dbs in
  split_lines script
  = ["#!/bin/bash"; "# Enable CloudWatch logging for RDS instances"]
    ++ flat_map rds_lines dbs
    ++ ["echo " +++ dq +++ "CloudWatch logging enabled for all RDS instances"
        +++ dq]
  /\ List.length (lines_starting "aws rds modify-db-instance" script)
     = List.length dbs
  /\ quoted_arguments "--db-instance-identifier" script = dbs
  /\ quoted_arguments "--enable-cloudwatch-logs-exports" script
     = map (fun _ => "error,general,slow-query") dbs
  /\ List.length (filter (String.eqb "    --apply-immediately")
                         (split_lines script))
     = List.length dbs.
Proof.
  intros Hi script. subst script.
  unfold lines_starting, quoted_arguments.
  rewrite (rds_script_lines dbs Hi).
  split; [reflexivity|]. split; [|split; [|split]].
  - rewrite !filter_app, !length_app.
    rewrite (filter_flat_map_length _ rds_lines dbs 1)
      by (intros x; reflexivity).
    cbn. lia.
  - rewrite !flat_map_app.
    rewrite (flat_map_blocks _ rds_lines (fun d => d)).
    + rewrite map_id. cbn [flat_map].
      change (argument_of "--db-instance-identifier" "#!/bin/bash")
        with (@nil string).
      change (argument_of "--db-instance-identifier"
                "# Enable CloudWatch logging for RDS instances")
        with (@nil string).
      change (argument_of "--db-instance-identifier"
                ("echo " +++ dq
                 +++ "CloudWatch logging enabled for all RDS instances" +++ dq))
        with (@nil string).
      cbn [app]. apply app_nil_r.
    + intros d. unfold rds_lines. cbn [flat_map].
      change ("    --db-instance-identifier " +++ dq +++ d +++ dq +++ " " +++ bs)
        with ("    " +++ "--db-instance-identifier" +++ " " +++ dq +++ d +++ dq
              +++ " " +++ bs).
      rewrite argument_of_line. reflexivity.
  - rewrite !flat_map_app.
    rewrite (flat_map_blocks _ rds_lines (fun _ => "error,general,slow-query")).
    + cbn [flat_map].
      change (argument_of "--enable-cloudwatch-logs-exports" "#!/bin/bash")
        with (@nil string).
      change (argument_of "--enable-cloudwatch-logs-exports"
                "# Enable CloudWatch logging for RDS instances")
        with (@nil string).
      change (argument_of "--enable-cloudwatch-logs-exports"
                ("echo " +++ dq
                 +++ "CloudWatch logging enabled for all RDS instances" +++ dq))
        with (@nil string).
      cbn [app]. apply app_nil_r.
    + intros d. unfold rds_lines. cbn [flat_map].
      change ("    --enable-cloudwatch-logs-exports " +++ dq
              +++ "error,general,slow-query" +++ dq +++ " " +++ bs)
        with ("    " +++ "--enable-cloudwatch-logs-exports" +++ " " +++ dq
              +++ "error,general,slow-query" +++ dq +++ " " +++ bs).
      rewrite argument_of_line. reflexivity.
  - rewrite !filter_app, !length_app.
    rewrite (filter_flat_map_length _ rds_lines dbs 1)
      by (intros x; reflexivity).
    cbn. lia.
Qed.

Lemma rds_script_one_command_per_instance_witness :
  Forall (fun i => single_line i = true) ["db-1"; "db-2"]
  /\ quoted_arguments "--db-instance-identifier"
       (_generate_rds_logging_script ["db-1"; "db-2"])
     = ["db-1"; "db-2"].
Proof.
  assert (H : Forall (fun i => single_line i = true) ["db-1"; "db-2"])
    by (repeat constructor).
  split; [exact H|].
  exact (proj1 (proj2 (proj2 (rds_script_one_command_per_instance _ H)))).
Defined.

End OtherScripts.

Section ScoreExtremes.

Import ReportGenerator.

Lemma weight_of_ge_length l : Z.of_nat (List.length l) <= weight_of l.
Proof.
  induction l as [|i l IH]; [simpl; lia|].
  change (weight_of (i :: l)) with (severity_weight (severity i) + weight_of l).
  pose proof (severity_weight_range (severity i)).
  cbn [List.length]. lia.
Qed.

Lemma weight_of_permutation l1 l2 :
  Permutation (map severity l1) (map severity l2) -> weight_of l1 = weight_of l2.
Proof.
  assert (E : forall l, weight_of l
                        = fold_right Z.add 0 (map severity_weight (map severity l))).
  { induction l as [|i l IH]; [reflexivity|].
    change (weight_of (i :: l)) with (severity_weight (severity i) + weight_of l).
    rewrite IH. reflexivity. }
  intros H. rewrite !E.
  apply (Permutation_map severity_weight) in H.
  induction H; cbn [fold_right]; lia.
Qed.

Lemma score_table_100 W : 0 <= W -> (score_table W = 100 <-> W = 0).
Proof. intros H. unfold score_table. destruct (Z.eqb_spec W 28); lia. Qed.

Lemma score_table_0 W : 0 <= W -> (score_table W = 0 <-> 50 <= W).
Proof. intros H. unfold score_table. destruct (Z.eqb_spec W 28); lia. Qed.

Lemma score_table_98 W : 0 < W -> 0 <= score_table W <= 98.
Proof. intros H. unfold score_table. destruct (Z.eqb_spec W 28); lia. Qed.

Lemma Ok_inj {A} (a b : A) : Ok a = Ok b <-> a = b.
Proof. split; [intros H; injection H; trivial|intros ->; reflexivity]. Qed.

(** X11.  As long as the weight stays in the range of a float, a report
    scores 100 exactly when its five issue lists are empty, and 0 exactly
    when its weight reaches 50; any issue at all brings the score to 98 or
    less, and fifty issues of whatever severity bring it to 0. *)
Theorem compliance_score_extremes (f : FindingsReport) :
  total_weight f < 2 ^ 1023 ->
  (calculate_compliance_score f = Ok 100 <-> service_issues f = [])
  /\ (calculate_compliance_score f = Ok 0 <-> 50 <= total_weight f)
  /\ (service_issues f <> [] ->
      exists s, calculate_compliance_score f = Ok s /\ 0 <= s <= 98)
  /\ ((50 <= List.length (service_issues f))%nat ->
      calculate_compliance_score f = Ok 0).
Proof.
  intros Hbound.
  pose proof (total_weight_nonneg f) as H0.
  assert (Hlt : 2 ^ 1023 < 2 ^ 1024) by (vm_compute; reflexivity).
  assert (Hf : calculate_compliance_score f = Ok (score_table (total_weight f))).
  { rewrite calculate_compliance_score_weight. apply score_of_weight_spec. lia. }
  pose proof (weight_of_ge_length (service_issues f)) as Hlen.
  fold (total_weight f) in Hlen.
  assert (Hnil : service_issues f = [] <-> total_weight f = 0).
  { split.
    - intros E. unfold total_weight. rewrite E. reflexivity.
    - intros E. destruct (service_issues f) as [|i l]; [reflexivity|].
      cbn [List.length] in Hlen. lia. }
  rewrite Hf.
  split; [|split; [|split]].
  - split.
    + intros H. apply Hnil. apply (proj1 (Ok_inj _ _)) in H.
      apply (score_table_100 _ H0). exact H.
    + intros H. apply (proj2 (Ok_inj _ _)). apply (score_table_100 _ H0), Hnil, H.
  - split.
    + intros H. apply (proj1 (Ok_inj _ _)) in H. apply (score_table_0 _ H0). exact H.
    + intros H. apply (proj2 (Ok_inj _ _)). apply (score_table_0 _ H0). exact H.
  - intros Hne.
    assert (total_weight f <> 0) by (intros E; apply Hne, Hnil, E).
    eexists. split; [reflexivity|]. apply score_table_98. lia.
  - intros Hmany. apply (proj2 (Ok_inj _ _)). apply (score_table_0 _ H0). lia.
Qed.

Lemma compliance_score_extremes_witness :
  total_weight one_high_one_medium < 2 ^ 1023
  /\ exists s, calculate_compliance_score one_high_one_medium = Ok s
               /\ 0 <= s <= 98.
Proof.
  assert (H : total_weight one_high_one_medium < 2 ^ 1023)
    by (vm_compute; reflexivity).
  split; [exact H|].
  apply (proj1 (proj2 (proj2 (compliance_score_extremes _ H)))).
  discriminate.
Defined.

(** X12.  The score looks at the severities of the issues and at nothing
    else: two reports whose issues carry the same severities, however
    they are spread over the services and in whatever order, with
    whatever counters, references and stored total, get the same score
    (or fail alike). *)
Theorem compliance_score_depends_on_severities_only (f g : FindingsReport) :
  Permutation (map severity (service_issues f))
              (map severity (service_issues g)) ->
  calculate_compliance_score f = calculate_compliance_score g.
Proof.
  intros H. rewrite !calculate_compliance_score_weight.
  unfold total_weight. rewrite (weight_of_permutation _ _ H). reflexivity.
Qed.

Lemma compliance_score_depends_on_severities_only_witness :
  Permutation (map severity (service_issues one_high_one_medium))
              (map severity (service_issues one_medium_one_high))
  /\ calculate_compliance_score one_high_one_medium
     = calculate_compliance_score one_medium_one_high.
Proof.
  assert (H : Permutation (map severity (service_issues one_high_one_medium))
                          (map severity (service_issues one_medium_one_high)))
    by apply perm_swap.
  split; [exact H|].
  exact (compliance_score_depends_on_severities_only _ _ H).
Defined.

End ScoreExtremes.

(** ** The monthly estimate *)

Section MonthlyCost.

Import ReportGenerator.

Lemma shl_align_snd mx ex ez : ez <= ex -> snd (shl_align mx ex ez) = ez.
Proof.
  intros H. unfold shl_align.
  destruct (ez - ex) as [|d|d] eqn:E; cbn [snd]; lia.
Qed.

Lemma Zdigits2_53 m : 2 ^ 52 <= Zpos m < 2 ^ 53 -> Zdigits2 (Zpos m) = 53.
Proof.
  intros H. destruct (Zdigits2_bounds (Zpos m)) as [[Hlo Hhi] H1]; [lia|].
  destruct (Z.lt_trichotomy (Zdigits2 (Zpos m)) 53) as [Hl|[He|Hg]];
    [exfalso|assumption|exfalso].
  - assert (2 ^ Zdigits2 (Zpos m) <= 2 ^ 52) by (apply Z.pow_le_mono_r; lia).
    lia.
  - assert (2 ^ 53 <= 2 ^ (Zdigits2 (Zpos m) - 1))
      by (apply Z.pow_le_mono_r; lia).
    lia.
Qed.

(** A mantissa of exactly 53 bits with an exponent in range is kept as it
    is. *)
Lemma binary_round_aux_exact s m e :
  2 ^ 52 <= Zpos m < 2 ^ 53 -> -1074 <= e <= 971 ->
  binary_round_aux prec emax s (Zpos m) e loc_Exact = S754_finite s m e.
Proof.
  intros Hm He.
  unfold binary_round_aux, shr_fexp.
  rewrite (Zdigits2_53 m Hm), fexp_eq.
  replace (Z.max (53 + e - 53) (-1074) - e) with 0 by lia.
  cbn [shr shr_record_of_loc shr_m loc_of_shr_record round_nearest_even].
  rewrite (Zdigits2_53 m Hm), fexp_eq.
  replace (Z.max (53 + e - 53) (-1074) - e) with 0 by lia.
  cbn [shr shr_record_of_loc shr_m].
  replace (e <=? emax - prec) with true
    by (symmetry; apply Z.leb_le; unfold emax, prec; lia).
  reflexivity.
Qed.

(** An [int] below [2^53] in magnitude converts to the float that holds
    it. *)
Lemma binary_round_small s p :
  Zpos p < 2 ^ 53 ->
  exists m e,
    binary_round prec emax s p 0 = S754_finite s m e
    /\ -52 <= e <= 0 /\ Zpos m = Zpos p * 2 ^ (- e).
Proof.
  intros Hp. unfold binary_round.
  pose proof (digits2_bounds p) as [Hlo Hhi].
  set (d := Zpos (digits2_pos p)) in *.
  assert (Hd1 : 1 <= d) by (unfold d; lia).
  assert (Hd : d <= 53).
  { destruct (Z.le_gt_cases d 53); [assumption|exfalso].
    assert (2 ^ 53 <= 2 ^ (d - 1)) by (apply Z.pow_le_mono_r; lia). lia. }
  rewrite Z.add_0_r, fexp_eq.
  replace (Z.max (d - 53) (-1074)) with (d - 53) by lia.
  pose proof (shl_align_fst p 0 (d - 53) ltac:(lia)) as Hfst.
  pose proof (shl_align_snd p 0 (d - 53) ltac:(lia)) as Hsnd.
  destruct (shl_align p 0 (d - 53)) as [mz ez]. cbn [fst snd] in Hfst, Hsnd.
  subst ez. replace (0 - (d - 53)) with (53 - d) in Hfst by lia.
  assert (Hs1 : 2 ^ 52 = 2 ^ (d - 1) * 2 ^ (53 - d)).
  { rewrite <- pow2_split by lia. f_equal; lia. }
  assert (Hs2 : 2 ^ 53 = 2 ^ d * 2 ^ (53 - d)).
  { rewrite <- pow2_split by lia. f_equal; lia. }
  assert (Hpos : 0 < 2 ^ (53 - d)) by (apply pow2_gt0; lia).
  rewrite binary_round_aux_exact by nia.
  exists mz, (d - 53). split; [reflexivity|]. split; [lia|].
  rewrite Hfst. f_equal. f_equal. lia.
Qed.

Lemma int_of_small s m e p :
  -52 <= e <= 0 -> Zpos m = Zpos p * 2 ^ (- e) ->
  int_of (Float (S754_finite s m e)) = Ok (if s then Zneg p else Zpos p).
Proof.
  intros He Hm. cbn [int_of].
  assert (Ha : match e with
               | Zneg q => Z.shiftr (Zpos m) (Zpos q)
               | _ => Z.shiftl (Zpos m) e
               end = Zpos p).
  { destruct e as [|q|q]; try lia.
    - cbn in Hm. cbn. lia.
    - rewrite Z.shiftr_div_pow2 by lia. rewrite Hm.
      change (- Zneg q) with (Zpos q).
      apply Z.div_mul. apply Z.pow_nonzero; lia. }
  rewrite Ha. destruct s; reflexivity.
Qed.

Lemma format_0f_small n :
  - 2 ^ 53 < n < 2 ^ 53 -> format_0f n = Ok (str_of_Z n).
Proof.
  intros Hn. unfold format_0f, float_of_int, binary_normalize.
  destruct n as [|p|p].
  - reflexivity.
  - destruct (binary_round_small false p ltac:(lia)) as [m [e [-> [He Hm]]]].
    rewrite (int_of_small false m e p He Hm). reflexivity.
  - destruct (binary_round_small true p ltac:(lia)) as [m [e [-> [He Hm]]]].
    rewrite (int_of_small true m e p He Hm). reflexivity.
Qed.

(** Past [2^53] the conversion to a float rounds: the amount printed is
    not the amount computed. *)
Example format_0f_rounds_large_amounts :
  format_0f (2 ^ 53 + 1) = Ok "9007199254740992"
  /\ str_of_Z (2 ^ 53 + 1) = "9007199254740993".
Proof. split; vm_compute; reflexivity. Qed.

(** X13.  The monthly estimate is a dollar sign followed by the decimal
    digits of 50, plus 5 when CloudTrail is not enabled, plus 2 per bucket
    analyzed, 1 per log group and 3 per database instance, as long as that
    amount is below 2^53 in magnitude, where its conversion to a float by
    the [.0f] format is exact.  The issue lists, the lists of unlogged
    resources and the stored total play no part; with non-negative
    counters the amount is at least 50. *)
Theorem estimate_monthly_cost_exact (f : FindingsReport) :
  - 2 ^ 53 < monthly_cost f < 2 ^ 53 ->
  estimate_monthly_cost f = Ok ("$" +++ str_of_Z (monthly_cost f))
  /\ (0 <= buckets_analyzed (s3_logging f) ->
      0 <= log_groups (cloudwatch_logs f) ->
      0 <= instances (rds_logging f) ->
      50 <= monthly_cost f).
Proof.
  intros Hc. split.
  - unfold estimate_monthly_cost.
    replace (_ + instances (rds_logging f) * 3) with (monthly_cost f).
    + rewrite (format_0f_small _ Hc). reflexivity.
    + unfold monthly_cost. destruct (enabled (cloudtrail f)); cbn [negb]; lia.
  - unfold monthly_cost. destruct (enabled (cloudtrail f)); lia.
Qed.

Lemma estimate_monthly_cost_exact_witness :
  - 2 ^ 53 < monthly_cost (ExampleUsage.create_sample_findings "2025-01-01")
    < 2 ^ 53
  /\ estimate_monthly_cost (ExampleUsage.create_sample_findings "2025-01-01")
     = Ok "$82".
Proof.
  assert (H : - 2 ^ 53
              < monthly_cost (ExampleUsage.create_sample_findings "2025-01-01")
              < 2 ^ 53)
    by (vm_compute; split; reflexivity).
  split; [exact H|].
  exact (proj1 (estimate_monthly_cost_exact _ H)).
Defined.

End MonthlyCost.

(** ** The script files of the console report *)

Section ReportScripts.

Import AwsLogReview.

Lemma all_digits_string_of_uint d :
  all_digits (NilEmpty.string_of_uint d) = true.
Proof. induction d; simpl; [reflexivity|assumption..]. Qed.

Lemma string_of_uint_inj d1 d2 :
  NilEmpty.string_of_uint d1 = NilEmpty.string_of_uint d2 -> d1 = d2.
Proof.
  intros H. apply (f_equal NilEmpty.uint_of_string) in H.
  rewrite !NilEmpty.usu in H. injection H. trivial.
Qed.

Lemma str_of_nat_inj i j : str_of_nat i = str_of_nat j -> i = j.
Proof.
  unfold str_of_nat. intros H. apply string_of_uint_inj in H.
  apply (f_equal Nat.of_uint) in H. rewrite !Unsigned.of_to in H. exact H.
Qed.

(** Two digit strings followed by an underscore: the digits are read off
    the front. *)
Lemma digits_before_underscore a : forall b x y,
  all_digits a = true -> all_digits b = true ->
  a +++ "_" +++ x = b +++ "_" +++ y -> a = b.
Proof.
  induction a as [|c a IH]; intros [|c' b] x y Ha Hb H.
  - reflexivity.
  - exfalso. cbn in H. injection H as Hc _. subst c'.
    cbn in Hb. discriminate Hb.
  - exfalso. cbn in H. injection H as Hc _. subst c.
    cbn in Ha. discriminate Ha.
  - cbn [String.append] in H. injection H as Hc H. subst c'.
    cbn [all_digits] in Ha, Hb.
    apply andb_true_iff in Ha. apply andb_true_iff in Hb.
    f_equal. apply (IH b x y); tauto.
Qed.

Lemma append_inj_l (p a b : string) : p +++ a = p +++ b -> a = b.
Proof.
  induction p as [|c p IH]; cbn [String.append]; intros H; [exact H|].
  injection H as H. apply IH, H.
Qed.

(** The rank alone tells two script files apart. *)
Lemma script_filename_inj i j r1 r2 :
  script_filename i r1 = script_filename j r2 -> i = j.
Proof.
  unfold script_filename. intros H.
  apply append_inj_l in H.
  apply str_of_nat_inj.
  apply (digits_before_underscore _ _ _ _
           (all_digits_string_of_uint _) (all_digits_string_of_uint _) H).
Qed.

Lemma write_scripts_spec io_error recs : forall i d,
  (forall p, io_error p = None) ->
  exists d',
    write_scripts io_error i recs d = (Ok tt, d')
    /\ (forall k rec, nth_error recs k = Some rec ->
          d' (script_filename (i + k) rec) = Some (script rec))
    /\ (forall p,
          (forall k rec, nth_error recs k = Some rec ->
                         p <> script_filename (i + k) rec) ->
          d' p = d p).
Proof.
  induction recs as [|r recs IH]; intros i d Hio.
  - exists d. split; [reflexivity|]. split; [|reflexivity].
    intros [|k] rec H; discriminate H.
  - cbn [write_scripts]. unfold bind at 1, open_write at 1. rewrite Hio.
    set (d1 := fun p => if String.eqb p (script_filename i r)
                        then Some (script r) else d p).
    destruct (IH (S i) d1 Hio) as [d' [Hrun [Hin Hout]]].
    exists d'. split; [exact Hrun|]. split.
    + intros [|k] rec Hk.
      * cbn in Hk. injection Hk as <-. rewrite Nat.add_0_r.
        rewrite Hout.
        -- unfold d1. rewrite String.eqb_refl. reflexivity.
        -- intros k rec Hk E. apply script_filename_inj in E. lia.
      * cbn [nth_error] in Hk. rewrite <- Nat.add_succ_comm. apply Hin, Hk.
    + intros p Hp. rewrite Hout.
      * unfold d1.
        destruct (String.eqb_spec p (script_filename i r)) as [E|E];
          [|reflexivity].
        exfalso. apply (Hp 0%nat r eq_refl). rewrite Nat.add_0_r. exact E.
      * intros k rec Hk. rewrite Nat.add_succ_comm.
        apply (Hp (S k) rec). exact Hk.
Qed.

(** X14.  With [--generate-scripts] and a file system that accepts every
    write, the console report writes one file per recommendation, named
    after its rank (from 1) and its lower-cased category; the rank keeps
    the names apart whatever the categories, so no script overwrites
    another (the sample has two recommendations of category CloudTrail),
    each file holds the script of its recommendation, no other path is
    touched, and the report is the one printed without the flag.  Without
    the flag nothing is written. *)
Theorem report_scripts_never_collide
        (io_error : string -> option exn) (results : Results) (d : disk) :
  (forall p, io_error p = None) ->
  (exists report d',
      generate_report_scripts io_error results true d = (Ok report, d')
      /\ generate_report results = Ok report
      /\ (forall k rec,
            nth_error (recommendations results) k = Some rec ->
            d' (script_filename (S k) rec) = Some (script rec))
      /\ (forall p,
            (forall k rec, nth_error (recommendations results) k = Some rec ->
                           p <> script_filename (S k) rec) ->
            d' p = d p))
  /\ (forall k1 k2 r1 r2,
        script_filename k1 r1 = script_filename k2 r2 -> k1 = k2)
  /\ (exists report,
        generate_report_scripts io_error results false d = (Ok report, d)).
Proof.
  intros Hio.
  unfold generate_report_scripts, generate_report.
  rewrite collect_all_issues_items.
  split; [|split].
  - destruct (write_scripts_spec io_error (recommendations results) 1 d Hio)
      as [d' [Hrun [Hin Hout]]].
    eexists. exists d'. split.
    { unfold bind at 1, lift at 1. unfold bind at 1. rewrite Hrun.
      reflexivity. }
    split; [reflexivity|]. split; [exact Hin|exact Hout].
  - intros k1 k2 r1 r2. apply script_filename_inj.
  - eexists. reflexivity.
Qed.

Lemma report_scripts_never_collide_witness :
  exists report d',
    generate_report_scripts (fun _ => None)
      (ExampleUsage.sample_results "2025-01-01") true (fun _ => None)
    = (Ok report, d')
    /\ d' "remediation_script_1_cloudtrail.sh"
       = Some _generate_cloudtrail_script
    /\ d' "remediation_script_2_cloudtrail.sh"
       = Some _generate_multi_region_cloudtrail_script.
Proof.
  destruct (report_scripts_never_collide
              (fun _ => None) (ExampleUsage.sample_results "2025-01-01")
              (fun _ => None) (fun _ => eq_refl))
    as [[report [d' [Hrun [_ [Hin _]]]]] _].
  exists report, d'. split; [exact Hrun|]. split.
  - exact (Hin 0%nat enable_cloudtrail_recommendation eq_refl).
  - exact (Hin 1%nat multi_region_recommendation eq_refl).
Defined.

End ReportScripts.

(** ** What the script generator leaves behind *)

Section RemediationArtifacts.

Import RemediationScripts.

Variable template_text : string -> string.
Variable render : string -> list (string * value) -> string.
Variable now : string.
Variable io_error : string -> option exn.
Variable config : value.

Let self := init template_text config.

(** The file name tells the scripts of one directory apart. *)
Lemma path_join_inj d a b :
  startswith "/" a = false -> startswith "/" b = false ->
  path_join d a = path_join d b -> a = b.
Proof.
  unfold path_join. intros -> ->.
  destruct (String.eqb d EmptyString || endswith "/" d); intros H.
  - apply append_inj_l in H. exact H.
  - apply append_inj_l in H. apply append_inj_l in H. exact H.
Qed.

(** X15.  A run of [generate_all_scripts] ends in an exception having
    written at most two files, and never the master script: nothing at all
    when CloudTrail is not enabled or some bucket is unlogged (the first
    generator called reads the missing [region]); otherwise the CloudWatch
    retention script and the RDS logging script, each when its list is not
    empty, before the IAM generator fails.  The paths are those
    [os.path.join] gives in the output directory.  What was on the file
    system before stays as it was. *)
Theorem failed_generation_leaves_at_most_two_scripts
        (findings : FindingsReport) (output_dir : string) (fs : files) :
  exists e written,
    generate_all_scripts render now io_error self findings output_dir fs
    = (Raise e, fs ++ written)
    /\ (List.length written <= 2)%nat
    /\ (forall p, In p (map fst written) ->
          p = path_join output_dir "setup_cloudwatch_retention.sh"
          \/ p = path_join output_dir "setup_rds_logging.sh")
    /\ ~ In (path_join output_dir "run_all_remediation.sh") (map fst written)
    /\ (enabled (cloudtrail findings) = false
        \/ buckets_without_logging (s3_logging findings) <> [] ->
        e = no_region /\ written = [])
    /\ ((forall p, io_error p = None) ->
        enabled (cloudtrail findings) = true ->
        buckets_without_logging (s3_logging findings) = [] ->
        e = no_region
        /\ map fst written
           = (if AwsLogReview.truthy
                   (log_groups_without_retention (cloudwatch_logs findings))
              then [path_join output_dir "setup_cloudwatch_retention.sh"]
              else [])
             ++ (if AwsLogReview.truthy
                      (instances_without_logging (rds_logging findings))
                 then [path_join output_dir "setup_rds_logging.sh"]
                 else [])).
Proof.
  unfold generate_all_scripts.
  destruct (enabled (cloudtrail findings)) eqn:Een;
    destruct (buckets_without_logging (s3_logging findings)) as [|b bs] eqn:Ebs;
    destruct (AwsLogReview.truthy
                (log_groups_without_retention (cloudwatch_logs findings)));
    destruct (AwsLogReview.truthy
                (instances_without_logging (rds_logging findings)));
    unfold self, append_when, bind, ret, generate_cloudtrail_script,
      generate_s3_logging_script, generate_cloudwatch_retention_script,
      generate_rds_logging_script, generate_iam_monitoring_script,
      template, lift, write_script;
    cbn -[String.append path_join];
    repeat match goal with
           | |- context [io_error ?p] =>
               let E := fresh "E" in destruct (io_error p) eqn:E
           end;
    lazymatch goal with
    | |- exists e written, (Raise ?e0, (?f ++ ?w1) ++ ?w2) = _ /\ _ =>
        exists e0, (w1 ++ w2); split; [rewrite <- app_assoc; reflexivity|]
    | |- exists e written, (Raise ?e0, ?f ++ ?w1) = _ /\ _ =>
        exists e0, w1; split; [reflexivity|]
    | |- exists e written, (Raise ?e0, ?f) = _ /\ _ =>
        exists e0, []; split; [rewrite app_nil_r; reflexivity|]
    end;
    (split; [cbn; lia|]);
    (split; [intros p Hp; cbn -[path_join] in Hp; intuition|]);
    (split; [intros Hm; cbn -[path_join] in Hm;
             repeat (destruct Hm as [Hm|Hm];
                     [apply path_join_inj in Hm;
                      [discriminate Hm|reflexivity|reflexivity]|]);
             exact Hm|]);
    (split; [intros [H|H];
             first [discriminate H | contradiction H; reflexivity
                   | split; reflexivity]|]);
    intros Hio Hen Hbs;
    try discriminate Hen; try discriminate Hbs;
    try (rewrite Hio in *; discriminate);
    split; reflexivity.
Qed.

(** *** The master script *)

Lemma lines_starting_line p l rest :
  single_line l = true ->
  lines_starting p (l +++ nl +++ rest)
  = (if startswith p l then [l] else []) ++ lines_starting p rest.
Proof.
  intros H. unfold lines_starting. rewrite split_lines_line by assumption.
  cbn [filter]. destruct (startswith p l); reflexivity.
Qed.

Lemma add_if_append cond text script :
  add_if cond text script = script +++ (if cond then text else EmptyString).
Proof. destruct cond; cbn [add_if]; [reflexivity|]. symmetry; apply append_nil_r. Qed.

Lemma startswith_dot_slash name : startswith "./" ("./" +++ name) = true.
Proof. destruct name; reflexivity. Qed.

Lemma lines_starting_master_step (cond : bool) message name rest :
  single_line message = true -> single_line name = true ->
  lines_starting "./"
    ((if cond then master_step message name else EmptyString) +++ rest)
  = (if cond then ["./" +++ name] else []) ++ lines_starting "./" rest.
Proof.
  intros Hm Hn. destruct cond; [|reflexivity].
  assert (E : master_step message name +++ rest
              = EmptyString +++ nl +++
                ("echo " +++ dq +++ message +++ dq) +++ nl +++
                ("./" +++ name) +++ nl +++ rest).
  { unfold master_step. rewrite !append_assoc. reflexivity. }
  rewrite E.
  rewrite lines_starting_line by reflexivity.
  rewrite lines_starting_line
    by (rewrite !single_line_append, Hm; reflexivity).
  rewrite lines_starting_line
    by (rewrite !single_line_append, Hn; reflexivity).
  rewrite startswith_dot_slash. reflexivity.
Qed.

Lemma lines_starting_master_header output_dir rest :
  single_line now = true -> single_line output_dir = true ->
  lines_starting "./" (master_header now output_dir +++ rest)
  = lines_starting "./" rest.
Proof.
  intros Hnow Hod.
  assert (E : master_header now output_dir +++ rest
    = "#!/bin/bash" +++ nl +++
      "# Master Remediation Script" +++ nl +++
      ("# Generated on " +++ now) +++ nl +++
      "# PCI DSS Log Management Compliance" +++ nl +++
      EmptyString +++ nl +++
      "set -e" +++ nl +++
      EmptyString +++ nl +++
      ("echo " +++ dq +++ "Starting PCI DSS Log Management Remediation..."
       +++ dq) +++ nl +++
      ("echo " +++ dq +++ "==============================================" +++ dq)
        +++ nl +++
      EmptyString +++ nl +++
      "# Check AWS CLI is installed" +++ nl +++
      "if ! command -v aws &> /dev/null; then" +++ nl +++
      ("    echo " +++ dq
       +++ "Error: AWS CLI is not installed. Please install it first." +++ dq)
        +++ nl +++
      "    exit 1" +++ nl +++
      "fi" +++ nl +++
      EmptyString +++ nl +++
      "# Check AWS credentials" +++ nl +++
      "if ! aws sts get-caller-identity &> /dev/null; then" +++ nl +++
      ("    echo " +++ dq
       +++ "Error: AWS credentials not configured. Please run 'aws configure' first."
       +++ dq) +++ nl +++
      "    exit 1" +++ nl +++
      "fi" +++ nl +++
      EmptyString +++ nl +++
      "# Create scripts directory if it doesn't exist" +++ nl +++
      ("mkdir -p " +++ output_dir) +++ nl +++
      EmptyString +++ nl +++
      "# Run remediation scripts based on findings" +++ nl +++ rest).
  { unfold master_header. rewrite !append_assoc. reflexivity. }
  rewrite E.
  rewrite !lines_starting_line
    by (rewrite ?single_line_append, ?Hnow, ?Hod; reflexivity).
  reflexivity.
Qed.

Lemma lines_starting_master_footer :
  lines_starting "./" master_footer
  = [ "./setup_iam_monitoring.sh"; "./setup_monitoring_alerts.sh";
      "./setup_cost_optimization.sh" ].
Proof. vm_compute. reflexivity. Qed.

(** X16.  Called on its own, with a time stamp and an output directory
    that hold no line feed and a file system that accepts the write,
    [generate_master_script] writes one file, at the path [os.path.join]
    gives to [run_all_remediation.sh] in the output directory (no second
    slash after a directory that ends with one), whose command lines
    (the lines starting with [./]) are exactly the steps chosen by the
    findings, in order: the CloudTrail step when CloudTrail is not
    enabled, the S3, CloudWatch and RDS steps when the matching list of
    unlogged resources is not empty, then always the IAM, alerting and
    cost steps.  Between three and seven scripts are run. *)
Theorem master_script_runs_the_chosen_steps
        (findings : FindingsReport) (output_dir : string) (fs : files) :
  single_line now = true ->
  single_line output_dir = true ->
  io_error (path_join output_dir "run_all_remediation.sh") = None ->
  exists content,
    generate_master_script now io_error findings output_dir fs
    = (Ok (path_join output_dir "run_all_remediation.sh"),
       fs ++ [(path_join output_dir "run_all_remediation.sh", content)])
    /\ lines_starting "./" content
       = map (fun name => "./" +++ name) (master_steps findings)
    /\ startswith ("#!/bin/bash" +++ nl) content = true
    /\ (3 <= List.length (master_steps findings) <= 7)%nat.
Proof.
  intros Hnow Hod Hio.
  unfold generate_master_script, write_script.
  rewrite Hio. eexists. split; [reflexivity|].
  split; [|split].
  - rewrite !add_if_append, !append_assoc.
    rewrite lines_starting_master_header by assumption.
    rewrite !lines_starting_master_step by reflexivity.
    rewrite lines_starting_master_footer.
    unfold master_steps. rewrite !map_app.
    destruct (enabled (cloudtrail findings)),
      (AwsLogReview.truthy (buckets_without_logging (s3_logging findings))),
      (AwsLogReview.truthy
         (log_groups_without_retention (cloudwatch_logs findings))),
      (AwsLogReview.truthy (instances_without_logging (rds_logging findings)));
      reflexivity.
  - rewrite !add_if_append, !append_assoc. reflexivity.
  - unfold master_steps. rewrite !length_app.
    destruct (enabled (cloudtrail findings)),
      (AwsLogReview.truthy (buckets_without_logging (s3_logging findings))),
      (AwsLogReview.truthy
         (log_groups_without_retention (cloudwatch_logs findings))),
      (AwsLogReview.truthy (instances_without_logging (rds_logging findings)));
      cbn; lia.
Qed.

End RemediationArtifacts.

Lemma master_script_runs_the_chosen_steps_witness :
  exists content,
    RemediationScripts.generate_master_script
      "2025-01-01T00:00:00" (fun _ => None)
      retention_and_exports_missing "scripts" []
    = (Ok "scripts/run_all_remediation.sh",
       [("scripts/run_all_remediation.sh", content)])
    /\ lines_starting "./" content
       = [ "./setup_cloudwatch_retention.sh"; "./setup_rds_logging.sh";
           "./setup_iam_monitoring.sh"; "./setup_monitoring_alerts.sh";
           "./setup_cost_optimization.sh" ]
    /\ exists content',
         RemediationScripts.generate_master_script
           "2025-01-01T00:00:00" (fun _ => None)
           retention_and_exports_missing "out/" []
         = (Ok "out/run_all_remediation.sh",
            [("out/run_all_remediation.sh", content')]).
Proof.
  destruct (master_script_runs_the_chosen_steps
              "2025-01-01T00:00:00" (fun _ => None)
              retention_and_exports_missing "scripts" []
              eq_refl eq_refl eq_refl)
    as [content [Hrun [Hlines _]]].
  destruct (master_script_runs_the_chosen_steps
              "2025-01-01T00:00:00" (fun _ => None)
              retention_and_exports_missing "out/" []
              eq_refl eq_refl eq_refl)
    as [content' [Hrun' _]].
  exists content. split; [exact Hrun|]. split; [exact Hlines|].
  exists content'. exact Hrun'.
Defined.

(** ** The report files *)

Section ReportFilesProperties.

Import Json ReportFiles.

Variable template_file : option string.
Variable render : string -> list (string * pyobj) -> string.
Variable yaml_dump : pyobj -> string.
Variable now : string.
Variable now_text : string.
Variable io_error : string -> option exn.

Lemma score_in_range f :
  total_weight f < 2 ^ 1023 ->
  ReportGenerator.calculate_compliance_score f
  = Ok (score_table (total_weight f)).
Proof.
  intros H. pose proof (total_weight_nonneg f).
  assert (2 ^ 1023 < 2 ^ 1024) by (vm_compute; reflexivity).
  rewrite calculate_compliance_score_weight. apply score_of_weight_spec. lia.
Qed.

Lemma non_compliant_total f :
  exists refs, ReportGenerator.get_non_compliant_requirements f = Ok refs.
Proof.
  unfold ReportGenerator.get_non_compliant_requirements.
  rewrite gather_issues_items. eexists. reflexivity.
Qed.

Lemma report_data_in_range f recs :
  total_weight f < 2 ^ 1023 ->
  - 2 ^ 53 < monthly_cost f < 2 ^ 53 ->
  exists data,
    report_data now f recs = Ok data
    /\ summary_int (dumps data) "compliance_score"
       = Ok (score_table (total_weight f))
    /\ summary_int (dumps data) "total_issues" = Ok (total_issues f)
    /\ summary_int (dumps data) "total_recommendations"
       = Ok (AwsLogReview.len recs)
    /\ embedded_findings (dumps data) = Ok f
    /\ embedded_recommendations (dumps data) = Ok recs.
Proof.
  intros Hw Hc. unfold report_data.
  rewrite (score_in_range f Hw).
  rewrite (proj1 (estimate_monthly_cost_exact f Hc)).
  destruct (non_compliant_total f) as [refs ->].
  cbn [rbind]. eexists. split; [reflexivity|].
  unfold summary_int, embedded_findings, embedded_recommendations, field.
  cbn [dumps dict map fst snd key_text loads item py_lookup String.eqb
       Ascii.eqb Bool.eqb rbind as_int].
  split; [reflexivity|]. split; [reflexivity|]. split; [reflexivity|].
  split.
  - change (loads (dumps (to_py f))) with (loads (dumps (to_py f))).
    rewrite loads_dumps_native by apply to_py_native.
    apply of_py_to_py.
  - unfold py_recommendations.
    rewrite loads_dumps_native
      by (cbn [json_native]; apply native_recommendations).
    cbn [as_list]. apply traverse_recommendations.
Qed.

Lemma generate_json_report_writes f recs output_file :
  total_weight f < 2 ^ 1023 ->
  - 2 ^ 53 < monthly_cost f < 2 ^ 53 ->
  io_error output_file = None ->
  exists doc,
    (forall s,
        generate_json_report now io_error f recs output_file s
        = (Ok output_file, (fst s ++ [(output_file, Document doc)], snd s)))
    /\ embedded_findings doc = Ok f
    /\ embedded_recommendations doc = Ok recs
    /\ summary_int doc "compliance_score" = Ok (score_table (total_weight f))
    /\ summary_int doc "total_issues" = Ok (total_issues f)
    /\ summary_int doc "total_recommendations" = Ok (AwsLogReview.len recs).
Proof.
  intros Hw Hc Hio.
  destruct (report_data_in_range f recs Hw Hc)
    as [data [Hdata [Hscore [Htotal [Hrecs [Hf Hr]]]]]].
  exists (dumps data). split.
  { intros s. unfold generate_json_report, bind, lift, write, ret.
    rewrite Hdata, Hio. reflexivity. }
  repeat split; assumption.
Qed.

Lemma generate_yaml_report_writes f recs output_file :
  total_weight f < 2 ^ 1023 ->
  - 2 ^ 53 < monthly_cost f < 2 ^ 53 ->
  io_error output_file = None ->
  exists text, forall s,
    generate_yaml_report yaml_dump now io_error f recs output_file s
    = (Ok output_file, (fst s ++ [(output_file, Text text)], snd s)).
Proof.
  intros Hw Hc Hio.
  destruct (report_data_in_range f recs Hw Hc) as [data [Hdata _]].
  eexists. intros s.
  unfold generate_yaml_report, bind, lift, write, ret.
  rewrite Hdata, Hio. reflexivity.
Qed.

Lemma html_issues_total f :
  exists rows, html_issues (items f) [] = Ok rows.
Proof. eexists. reflexivity. Qed.

Lemma generate_html_report_writes template f recs output_file flag :
  total_weight f < 2 ^ 1023 ->
  - 2 ^ 53 < monthly_cost f < 2 ^ 53 ->
  io_error output_file = None ->
  exists text, forall s,
    generate_html_report render now_text io_error
      template f recs output_file flag s
    = (Ok output_file, (fst s ++ [(output_file, Text text)], snd s)).
Proof.
  intros Hw Hc Hio.
  destruct (non_compliant_total f) as [refs Hrefs].
  destruct (html_issues_total f) as [rows Hrows].
  eexists. intros s.
  unfold generate_html_report, bind, lift, write, ret.
  rewrite (score_in_range f Hw), (proj1 (estimate_monthly_cost_exact f Hc)).
  rewrite Hrefs, Hrows.
  cbn [py_get to_py dict map fst snd py_lookup String.eqb Ascii.eqb Bool.eqb].
  rewrite Hio. reflexivity.
Qed.

Lemma report_step_writes cond gen label acc path c s :
  gen s = (Ok path, (fst s ++ [(path, c)], snd s)) ->
  report_step cond gen label acc s
  = (Ok (if cond then acc ++ [path] else acc),
     (fst s ++ (if cond then [(path, c)] else []),
      snd s ++ (if cond then [label +++ " report generated: " +++ path]
                else []))).
Proof.
  intros H. destruct cond; cbn [report_step].
  - unfold bind at 1. rewrite H. unfold bind, print, ret. reflexivity.
  - unfold ret. destruct s. cbn [fst snd]. rewrite !app_nil_r. reflexivity.
Qed.

(** X17.  When the score and the cost can be computed (the weight and the
    amount are in the range where the float arithmetic is defined and
    exact) and the file system accepts the write, the JSON report is one
    document written at the path asked for, from which the findings and
    the recommendations given are read back unchanged, and whose summary
    holds the score, the stored issue total and the number of
    recommendations. *)
Theorem json_report_embeds_its_inputs
        (f : FindingsReport) (recs : list AwsLogReview.Recommendation)
        (output_file : string) (s : state) :
  total_weight f < 2 ^ 1023 ->
  - 2 ^ 53 < monthly_cost f < 2 ^ 53 ->
  io_error output_file = None ->
  exists doc,
    generate_json_report now io_error f recs output_file s
    = (Ok output_file, (fst s ++ [(output_file, Document doc)], snd s))
    /\ embedded_findings doc = Ok f
    /\ embedded_recommendations doc = Ok recs
    /\ summary_int doc "compliance_score" = Ok (score_table (total_weight f))
    /\ summary_int doc "total_issues" = Ok (total_issues f)
    /\ summary_int doc "total_recommendations" = Ok (AwsLogReview.len recs).
Proof.
  intros Hw Hc Hio.
  destruct (generate_json_report_writes f recs output_file Hw Hc Hio)
    as [doc [Hrun H]].
  exists doc. split; [apply Hrun|exact H].
Qed.

(** X18.  The command line builds its generator, and with it loads the
    HTML template, before it looks at the format asked for: when the
    template file is missing, no report is written in any format, JSON
    and YAML included, and the run ends with exit status 1 after printing
    the error. *)
Theorem report_main_needs_the_template
        (inputs : FindingsReport * list AwsLogReview.Recommendation)
        (output_format output_dir : string) (generate_scripts : bool)
        (s : state) :
  io_error output_dir = None ->
  main None render yaml_dump now now_text io_error
       (Ok inputs) output_format output_dir generate_scripts s
  = (Ok (mk_exit 1),
     (fst s,
      snd s
      ++ ["Error: Template file templates/report_template.html not found"])).
Proof.
  intros Hio.
  unfold main, try_except, bind, lift, makedirs, _load_template, print, ret.
  rewrite Hio. reflexivity.
Qed.

(** X19.  With the template in place, inputs that load, a score and a
    cost that can be computed and a file system that accepts every write,
    the command line ends with exit status 0 having written exactly the
    reports of the format asked for, in the order HTML, JSON, YAML
    ([all] asks for the three), each in the output directory under its
    fixed name; the JSON report embeds the findings loaded.  When the
    inputs do not load, nothing is written and the exit status is 1. *)
Theorem report_main_writes_the_formats_asked
        (template : string) (f : FindingsReport)
        (recs : list AwsLogReview.Recommendation)
        (output_format output_dir : string) (generate_scripts : bool)
        (s : state) :
  total_weight f < 2 ^ 1023 ->
  - 2 ^ 53 < monthly_cost f < 2 ^ 53 ->
  (forall p, io_error p = None) ->
  (exists html doc yaml lines,
      main (Some template) render yaml_dump now now_text io_error
           (Ok (f, recs)) output_format output_dir generate_scripts s
      = (Ok (mk_exit 0),
         (fst s
          ++ (if str_in output_format ["html"; "all"]
              then [(path_join output_dir "aws_log_review_report.html",
                     Text html)]
              else [])
          ++ (if str_in output_format ["json"; "all"]
              then [(path_join output_dir "aws_log_review_report.json",
                     Document doc)]
              else [])
          ++ (if str_in output_format ["yaml"; "all"]
              then [(path_join output_dir "aws_log_review_report.yaml",
                     Text yaml)]
              else []),
          snd s ++ lines))
      /\ embedded_findings doc = Ok f
      /\ embedded_recommendations doc = Ok recs)
  /\ (forall e,
        main (Some template) render yaml_dump now now_text io_error
             (Raise e) output_format output_dir generate_scripts s
        = (Ok (mk_exit 1), (fst s, snd s ++ ["Error: " +++ exn_str e]))).
Proof.
  intros Hw Hc Hio. split; [|intros e; reflexivity].
  set (hp := path_join output_dir "aws_log_review_report.html").
  set (jp := path_join output_dir "aws_log_review_report.json").
  set (yp := path_join output_dir "aws_log_review_report.yaml").
  destruct (generate_html_report_writes template f recs hp generate_scripts
              Hw Hc (Hio hp)) as [html Hh].
  destruct (generate_json_report_writes f recs jp Hw Hc (Hio jp))
    as [doc [Hj [Hf [Hr _]]]].
  destruct (generate_yaml_report_writes f recs yp Hw Hc (Hio yp))
    as [yaml Hy].
  exists html, doc, yaml.
  cut (exists lines,
          main (Some template) render yaml_dump now now_text io_error
               (Ok (f, recs)) output_format output_dir generate_scripts s
          = (Ok (mk_exit 0),
             (fst s
              ++ (if str_in output_format ["html"; "all"]
                  then [(hp, Text html)] else [])
              ++ (if str_in output_format ["json"; "all"]
                  then [(jp, Document doc)] else [])
              ++ (if str_in output_format ["yaml"; "all"]
                  then [(yp, Text yaml)] else []),
              snd s ++ lines))).
  { intros [lines H]. exists lines. split; [exact H|split; assumption]. }
  unfold main, try_except.
  erewrite bind_ok by reflexivity. cbn [fst snd].
  erewrite bind_ok by (unfold makedirs; rewrite Hio; reflexivity).
  erewrite bind_ok by reflexivity.
  erewrite bind_ok by (apply report_step_writes; apply Hh).
  erewrite bind_ok by (apply report_step_writes; apply Hj).
  erewrite bind_ok by (apply report_step_writes; apply Hy).
  unfold bind, print, ret. cbn [fst snd].
  destruct (String.eqb output_format "html" || String.eqb output_format "all");
    cbn [fst snd]; rewrite <- !app_assoc; eexists; reflexivity.
Qed.

End ReportFilesProperties.

Lemma json_report_embeds_its_inputs_witness :
  exists doc,
    ReportFiles.generate_json_report
      "2025-01-01T00:00:00" (fun _ => None)
      (ExampleUsage.create_sample_findings "2025-01-01")
      [AwsLogReview.multi_region_recommendation]
      "reports/aws_log_review_report.json" ([], [])
    = (Ok "reports/aws_log_review_report.json",
       ([("reports/aws_log_review_report.json", ReportFiles.Document doc)], []))
    /\ embedded_findings doc
       = Ok (ExampleUsage.create_sample_findings "2025-01-01")
    /\ summary_int doc "compliance_score" = Ok 46.
Proof.
  destruct (json_report_embeds_its_inputs
              "2025-01-01T00:00:00" (fun _ => None)
              (ExampleUsage.create_sample_findings "2025-01-01")
              [AwsLogReview.multi_region_recommendation]
              "reports/aws_log_review_report.json" ([], []))
    as [doc [Hrun [Hf [_ [Hs _]]]]].
  - vm_compute. reflexivity.
  - vm_compute. split; reflexivity.
  - reflexivity.
  - exists doc. split; [exact Hrun|]. split; [exact Hf|exact Hs].
Defined.

Lemma report_main_needs_the_template_witness :
  ReportFiles.main None (fun _ _ => EmptyString) (fun _ => EmptyString)
    "2025-01-01T00:00:00" "2025-01-01 00:00:00" (fun _ => None)
    (Ok (ExampleUsage.create_sample_findings "2025-01-01", []))
    "json" "reports" false ([], [])
  = (Ok (ReportFiles.mk_exit 1),
     ([], ["Error: Template file templates/report_template.html not found"])).
Proof.
  exact (report_main_needs_the_template
           (fun _ _ => EmptyString) (fun _ => EmptyString)
           "2025-01-01T00:00:00" "2025-01-01 00:00:00" (fun _ => None)
           (ExampleUsage.create_sample_findings "2025-01-01", [])
           "json" "reports" false ([], []) eq_refl).
Defined.

Lemma report_main_writes_the_formats_asked_witness :
  exists html doc yaml lines,
    ReportFiles.main (Some "template") (fun _ _ => "html")
      (fun _ => "yaml")
      "2025-01-01T00:00:00" "2025-01-01 00:00:00" (fun _ => None)
      (Ok (ExampleUsage.create_sample_findings "2025-01-01", []))
      "all" "reports" false ([], [])
    = (Ok (ReportFiles.mk_exit 0),
       ([ ("reports/aws_log_review_report.html", ReportFiles.Text html);
          ("reports/aws_log_review_report.json", ReportFiles.Document doc);
          ("reports/aws_log_review_report.yaml", ReportFiles.Text yaml) ],
        lines)).
Proof.
  destruct (report_main_writes_the_formats_asked
              (fun _ _ => "html") (fun _ => "yaml")
              "2025-01-01T00:00:00" "2025-01-01 00:00:00" (fun _ => None)
              "template" (ExampleUsage.create_sample_findings "2025-01-01") []
              "all" "reports" false ([], []))
    as [[html [doc [yaml [lines [Hrun _]]]]] _].
  - vm_compute. reflexivity.
  - vm_compute. split; reflexivity.
  - reflexivity.
  - exists html, doc, yaml, lines. exact Hrun.
Defined.

(** ** The complete workflow *)

Section WorkflowProperties.

Import Json Workflow.

Variable importable : string -> bool.
Variable caller_identity : completed.
Variable shell : string -> completed.
Variable parse : string -> option json.
Variable path_exists : state -> string -> bool.
Variable io_error : operation -> string -> option exn.

Lemma check_dependencies_all :
  check_dependencies importable = true
  <-> forall p, In p required_packages -> importable p = true.
Proof.
  unfold check_dependencies.
  destruct (filter _ required_packages) as [|x l] eqn:E; split.
  - intros _ p Hp.
    destruct (importable p) eqn:Ep; [reflexivity|exfalso].
    assert (Hin : In p (filter (fun q => negb (importable q))
                               required_packages)).
    { apply filter_In. rewrite Ep. split; [assumption|reflexivity]. }
    rewrite E in Hin. exact Hin.
  - reflexivity.
  - intros H. discriminate H.
  - intros H. exfalso.
    assert (Hin : In x (filter (fun q => negb (importable q))
                               required_packages))
      by (rewrite E; left; reflexivity).
    apply filter_In in Hin. destruct Hin as [Hx Hn].
    rewrite (H x Hx) in Hn. discriminate Hn.
Qed.

(** X20.  The workflow runs nothing before its two checks pass.  When one
    of the six names it imports is not importable ([pyyaml] is among
    them), or when the identity command ends with a non-zero status or
    prints something that does not parse, [main] ends with [sys.exit(1)]
    having made the output directory and nothing else: no command was run
    and no file written, whatever the options. *)
Theorem workflow_stops_at_failed_preflight
        (profile region output_dir : string)
        (generate_scripts skip_analysis skip_reports skip_scripts : bool)
        (st : state) :
  io_error MakeDir output_dir = None ->
  (exists p, In p required_packages /\ importable p = false)
  \/ caller_identity = ExitNonZero
  \/ (exists stdout, caller_identity = Exit0 stdout /\ parse stdout = None) ->
  main importable caller_identity shell parse path_exists io_error
       profile region output_dir
       generate_scripts skip_analysis skip_reports skip_scripts st
  = (Ok (SysExit 1),
     mk_state (ran st) (dirs st ++ [output_dir]) (saved st)).
Proof.
  intros Hio Hfail.
  unfold main. unfold bind at 1, mkdir at 1. rewrite Hio.
  destruct (check_dependencies importable) eqn:Edep; cbn [negb];
    [|reflexivity].
  destruct Hfail as [[p [Hp Himp]]|[Hid|[stdout [Hid Hparse]]]].
  - exfalso. rewrite (proj1 check_dependencies_all Edep p Hp) in Himp.
    discriminate Himp.
  - unfold bind, lift, check_aws_credentials. rewrite Hid. reflexivity.
  - unfold bind, lift, check_aws_credentials. rewrite Hid, Hparse.
    reflexivity.
Qed.

(** The two checks pass and the four working directories are made. *)
Lemma preflight_passes (stdout : string) (members : list (string * json))
      (output_dir : string) (k : M state finish) (st : state) :
  (forall op p, io_error op p = None) ->
  (forall p, In p required_packages -> importable p = true) ->
  caller_identity = Exit0 stdout ->
  parse stdout = Some (JObject members) ->
  (mkdir io_error output_dir ;;;
   if negb (check_dependencies importable) then ret (SysExit 1)
   else
     credentials <- lift (check_aws_credentials caller_identity parse) ;;
     if negb credentials then ret (SysExit 1)
     else create_directories io_error ;;; k)%py st
  = k (mk_state (ran st)
                (dirs st
                 ++ [output_dir; "reports"; "scripts"; "config"; "templates"])
                (saved st)).
Proof.
  intros Hio Himp Hid Hparse.
  unfold bind at 1, mkdir at 1. rewrite Hio.
  rewrite (proj2 check_dependencies_all Himp). cbn [negb].
  unfold bind at 1, lift at 1, check_aws_credentials at 1.
  rewrite Hid, Hparse. cbn [loads py_get rbind].
  destruct (py_lookup _ "Account"); cbn [rbind];
    destruct (py_lookup _ "Arn"); cbn [rbind negb];
    unfold create_directories; cbn [for_each];
    unfold bind, mkdir, ret; rewrite !Hio; cbn [ran dirs saved];
    rewrite <- !app_assoc; reflexivity.
Qed.

Lemma run_command_ran command st :
  (forall e, shell command <> NotStarted e) ->
  exists out,
    run_command shell command st
    = (Ok out, mk_state (ran st ++ [command]) (dirs st) (saved st)).
Proof.
  intros H. unfold run_command.
  destruct (shell command) as [stdout| |e].
  - eexists. reflexivity.
  - eexists. reflexivity.
  - exfalso. apply (H e). reflexivity.
Qed.

(** The next command of a sequence runs and is recorded, whatever its
    exit status. *)
Ltac run_next Hsh :=
  unfold bind at 1;
  match goal with
  | |- context [run_command _ ?c ?s] =>
      let o := fresh "o" in
      let H := fresh "H" in
      destruct (run_command_ran c s (Hsh c)) as [o H];
      rewrite H; cbn [ran dirs saved]
  end.

Lemma reports_ran output_dir generate_scripts skip_reports st :
  (forall op p, io_error op p = None) ->
  (forall c e, shell c <> NotStarted e) ->
  reports shell io_error (path_join output_dir "findings.json")
          (path_join output_dir "recommendations.json") output_dir
          generate_scripts skip_reports st
  = (Ok tt,
     mk_state
       (ran st ++ (if skip_reports then []
                   else report_commands output_dir generate_scripts))
       (dirs st ++ (if skip_reports then []
                    else [path_join output_dir "reports"]))
       (saved st)).
Proof.
  intros Hio Hsh. unfold reports.
  destruct skip_reports; cbn [negb].
  - unfold ret. destruct st. cbn. rewrite !app_nil_r. reflexivity.
  - unfold bind at 1, mkdir at 1. rewrite Hio.
    set (html := if generate_scripts then _ else _).
    do 3 run_next Hsh.
    unfold ret. rewrite <- !app_assoc. unfold report_commands, html.
    destruct generate_scripts; cbn [app]; rewrite ?append_nil_r; reflexivity.
Qed.

Lemma scripts_ran output_dir generate_scripts skip_scripts st :
  (forall op p, io_error op p = None) ->
  (forall c e, shell c <> NotStarted e) ->
  (forall s p, In p (dirs s) -> path_exists s p = true) ->
  scripts shell path_exists io_error (path_join output_dir "findings.json")
          output_dir generate_scripts skip_scripts st
  = (Ok tt,
     mk_state
       (ran st ++ (if negb skip_scripts && generate_scripts
                   then script_commands output_dir else []))
       (dirs st ++ (if negb skip_scripts && generate_scripts
                    then [path_join output_dir "scripts"] else []))
       (saved st)).
Proof.
  intros Hio Hsh Hkeep. unfold scripts.
  destruct (negb skip_scripts && generate_scripts).
  - unfold bind at 1, mkdir at 1. rewrite Hio.
    run_next Hsh.
    unfold bind at 1, exists_now at 1.
    rewrite Hkeep
      by (cbn [dirs]; apply in_or_app; right; left; reflexivity).
    run_next Hsh.
    unfold ret. rewrite <- !app_assoc. reflexivity.
  - unfold ret. destruct st. cbn. rewrite !app_nil_r. reflexivity.
Qed.

Lemma summary_lists output_dir st :
  (forall op p, io_error op p = None) ->
  summary path_exists io_error output_dir st = (Ok tt, st).
Proof.
  intros Hio. unfold summary, bind, exists_now, listdir, ret.
  rewrite !Hio.
  destruct (path_exists st (path_join output_dir "reports"));
    destruct (path_exists st (path_join output_dir "scripts")); reflexivity.
Qed.

(** X21.  Once the two checks pass and the analysis command has printed a
    document that parses and splits, the workflow finishes normally
    whatever the exit status of the commands it runs afterwards, as long
    as they start, the file system refuses nothing and the directories
    made are still there when looked for.  It has then saved the two
    documents as [findings.json] and [recommendations.json] in the output
    directory and run, in this order, the analysis, the three report
    commands unless reports are skipped (the HTML one with
    [--generate-scripts] when scripts are asked for), and the script
    generator followed by [chmod] exactly when scripts are asked for and
    not skipped.  A report or script command that fails changes neither
    the commands run after it nor the way the workflow ends. *)
Theorem workflow_ignores_later_failures
        (profile region output_dir : string)
        (generate_scripts skip_reports skip_scripts : bool)
        (stdout text : string) (members : list (string * json))
        (output : json) (documents : json * json) (st : state) :
  (forall op p, io_error op p = None) ->
  (forall c e, shell c <> NotStarted e) ->
  (forall s p, In p (dirs s) -> path_exists s p = true) ->
  (forall p, In p required_packages -> importable p = true) ->
  caller_identity = Exit0 stdout ->
  parse stdout = Some (JObject members) ->
  shell (analysis_command profile region) = Exit0 text ->
  parse text = Some output ->
  save_analysis output = Ok documents ->
  main importable caller_identity shell parse path_exists io_error
       profile region output_dir
       generate_scripts false skip_reports skip_scripts st
  = (Ok Finished,
     mk_state
       (ran st
        ++ [analysis_command profile region]
        ++ (if skip_reports then []
            else report_commands output_dir generate_scripts)
        ++ (if negb skip_scripts && generate_scripts
            then script_commands output_dir else []))
       (dirs st
        ++ [output_dir; "reports"; "scripts"; "config"; "templates"]
        ++ (if skip_reports then [] else [path_join output_dir "reports"])
        ++ (if negb skip_scripts && generate_scripts
            then [path_join output_dir "scripts"] else []))
       (saved st
        ++ [ (path_join output_dir "findings.json", fst documents);
             (path_join output_dir "recommendations.json", snd documents) ])).
Proof.
  intros Hio Hsh Hkeep Himp Hid Hparse Hrun Htext Hsave.
  unfold main.
  rewrite (preflight_passes stdout members output_dir _ st Hio Himp Hid Hparse).
  unfold bind at 1, analysis at 1. cbn [negb].
  unfold bind at 1, run_command at 1.
  fold (analysis_command profile region). rewrite Hrun. rewrite Htext.
  unfold bind at 1, lift at 1. rewrite Hsave.
  unfold bind at 1, dump at 1. rewrite Hio.
  unfold bind at 1, dump at 1. rewrite Hio.
  unfold ret at 1. cbn [negb ran dirs saved].
  unfold bind at 1. rewrite (reports_ran output_dir _ _ _ Hio Hsh).
  unfold bind at 1. rewrite (scripts_ran output_dir _ _ _ Hio Hsh Hkeep).
  unfold bind at 1. rewrite (summary_lists output_dir _ Hio).
  cbn [ran dirs saved]. unfold ret.
  rewrite <- !app_assoc. reflexivity.
Qed.

(** X22.  After the checks, an analysis that fails ends the workflow
    before any report: when the analysis command ends with a non-zero
    status, or prints something that does not parse, [main] ends with
    [sys.exit(1)] having run that one command and written no file.  With
    [--skip-analysis] no command is run for the analysis, and the
    workflow ends in the same way, having run nothing, when one of the
    two files is not there. *)
Theorem workflow_stops_at_failed_analysis
        (profile region output_dir : string)
        (generate_scripts skip_reports skip_scripts : bool)
        (stdout : string) (members : list (string * json)) (st : state) :
  (forall op p, io_error op p = None) ->
  (forall p, In p required_packages -> importable p = true) ->
  caller_identity = Exit0 stdout ->
  parse stdout = Some (JObject members) ->
  let made :=
    mk_state (ran st)
             (dirs st
              ++ [output_dir; "reports"; "scripts"; "config"; "templates"])
             (saved st) in
  (shell (analysis_command profile region) = ExitNonZero
   \/ (exists text, shell (analysis_command profile region) = Exit0 text
                    /\ parse text = None) ->
   main importable caller_identity shell parse path_exists io_error
        profile region output_dir
        generate_scripts false skip_reports skip_scripts st
   = (Ok (SysExit 1),
      mk_state (ran st ++ [analysis_command profile region])
               (dirs made) (saved st)))
  /\ (path_exists made (path_join output_dir "findings.json") = false
      \/ path_exists made (path_join output_dir "recommendations.json") = false ->
      main importable caller_identity shell parse path_exists io_error
           profile region output_dir
           generate_scripts true skip_reports skip_scripts st
      = (Ok (SysExit 1), made)).
Proof.
  intros Hio Himp Hid Hparse made. split.
  - intros Hrun. unfold main.
    rewrite (preflight_passes stdout members output_dir _ st Hio Himp Hid
               Hparse).
    unfold bind at 1, analysis at 1. cbn [negb].
    unfold bind at 1, run_command at 1.
    fold (analysis_command profile region).
    destruct Hrun as [Hrun|[text [Hrun Htext]]]; rewrite Hrun;
      [|rewrite Htext]; reflexivity.
  - intros Hmissing. unfold main.
    rewrite (preflight_passes stdout members output_dir _ st Hio Himp Hid
               Hparse).
    fold made.
    unfold bind at 1, analysis at 1. cbn [negb].
    unfold bind, exists_now, ret.
    destruct Hmissing as [H|H]; rewrite H;
      [|destruct (path_exists made (path_join output_dir "findings.json"))];
      reflexivity.
Qed.

End WorkflowProperties.

(** An environment for the workflow: every module imports, the identity
    command answers with an object, the analysis prints one and every
    other command ends with a non-zero status. *)
Lemma workflow_stops_at_failed_preflight_witness :
  Workflow.main (fun p => negb (String.eqb p "pyyaml"))
                (Workflow.Exit0 "{}") only_analysis_succeeds
                parse_braces (fun st p => str_in p (Workflow.dirs st))
                (fun _ _ => None)
                "default" "us-east-1" "output" true false false false
                (Workflow.mk_state [] [] [])
  = (Ok (Workflow.SysExit 1), Workflow.mk_state [] ["output"] []).
Proof.
  apply (workflow_stops_at_failed_preflight
           (fun p => negb (String.eqb p "pyyaml"))
           (Workflow.Exit0 "{}") only_analysis_succeeds
           parse_braces (fun st p => str_in p (Workflow.dirs st))
           (fun _ _ => None)
           "default" "us-east-1" "output" true false false false
           (Workflow.mk_state [] [] [])).
  - reflexivity.
  - left. exists "pyyaml". split; [|reflexivity].
    right. right. right. left. reflexivity.
Defined.

Lemma workflow_ignores_later_failures_witness :
  Workflow.main (fun _ => true)
                (Workflow.Exit0 "{}") only_analysis_succeeds
                parse_braces (fun st p => str_in p (Workflow.dirs st))
                (fun _ _ => None)
                "default" "us-east-1" "output" true false false false
                (Workflow.mk_state [] [] [])
  = (Ok Workflow.Finished,
     Workflow.mk_state
       ([analysis_command "default" "us-east-1"]
        ++ report_commands "output" true ++ script_commands "output")
       ["output"; "reports"; "scripts"; "config"; "templates";
        "output/reports"; "output/scripts"]
       [("output/findings.json", Json.JObject []);
        ("output/recommendations.json", Json.JArray [])]).
Proof.
  apply (workflow_ignores_later_failures
           (fun _ => true) (Workflow.Exit0 "{}") only_analysis_succeeds
           parse_braces (fun st p => str_in p (Workflow.dirs st))
           (fun _ _ => None)
           "default" "us-east-1" "output" true false false
           "{}" "{}" [] (Json.JObject [])
           (Json.JObject [], Json.JArray []) (Workflow.mk_state [] [] [])).
  - reflexivity.
  - intros c e. unfold only_analysis_succeeds.
    destruct (String.eqb c _); discriminate.
  - intros s p Hin. apply str_in_In, Hin.
  - reflexivity.
  - reflexivity.
  - reflexivity.
  - reflexivity.
  - reflexivity.
  - reflexivity.
Defined.

Lemma workflow_stops_at_failed_analysis_witness :
  Workflow.main (fun _ => true)
                (Workflow.Exit0 "{}") (fun _ => Workflow.ExitNonZero)
                parse_braces (fun st p => str_in p (Workflow.dirs st))
                (fun _ _ => None)
                "default" "us-east-1" "output" true false false false
                (Workflow.mk_state [] [] [])
  = (Ok (Workflow.SysExit 1),
     Workflow.mk_state
       [analysis_command "default" "us-east-1"]
       ["output"; "reports"; "scripts"; "config"; "templates"] []).
Proof.
  apply (proj1 (workflow_stops_at_failed_analysis
                  (fun _ => true) (Workflow.Exit0 "{}")
                  (fun _ => Workflow.ExitNonZero)
                  parse_braces (fun st p => str_in p (Workflow.dirs st))
                  (fun _ _ => None)
                  "default" "us-east-1" "output" true false false
                  "{}" [] (Workflow.mk_state [] [] [])
                  (fun _ _ => eq_refl) (fun _ _ => eq_refl)
                  eq_refl eq_refl)).
  left. reflexivity.
Defined.
